(** * BudgetBuddy: ledger store, budget calculator and settings store

    A shallow embedding of [data_manager.py], [settings_manager.py], the
    metric computations of [main.py] ([show_analytics]) and the dense trend
    series of [charts.py], together with the properties stated about them.

    Conventions of the embedding.
    - Money amounts are Python floats in the program; they are embedded as
      exact rationals ([Q]) and compared with [==].  Rounding error of
      binary floating point, and the floats [nan] and [inf], are outside the
      model.
    - A [datetime.date] is its proleptic ordinal ([Z]); subtracting a
      [Timedelta] of [n] days is subtraction of [n].
    - "Now" ([datetime.now().date()]) is an explicit parameter [today].
    - A CSV file is embedded by what [pandas.read_csv] makes of it: the
      table of typed rows, or a failure to read or parse.  Every amount and
      date of a row is present; a text cell that is missing is the empty
      text.
    - [DataFrame.sort_values] sorts with numpy's [argsort], whose default
      kind leaves the order of rows with equal keys unspecified: the
      [argsort] is part of the world, and every statement holds for every
      one.
    - Opening a file for writing empties it.  A write can be refused when
      the file is opened, or fail after that, which leaves the file cut
      off. *)

From Stdlib Require Import ZArith QArith Qminmax Qabs Qround Lqa Lia.
From Stdlib Require Import List String Ascii Sorted Permutation DecimalString.
From stdpp Require Import gmap strings list.
Import ListNotations.

Local Open Scope Z_scope.

(** ** Dates and rows *)

Definition date := Z.

Record income_row := IncomeRow
  { inc_description : string; inc_amount : Q; inc_date : date }.

Record essential_row := EssentialRow
  { ess_category : string; ess_expected : Q; ess_actual : Q }.

Record bill_row := BillRow
  { bill_name : string; amount_due : Q; due_date : date; status : string }.

Record non_essential_row := NonEssentialRow
  { ne_expense : string; ne_amount : Q; ne_date : date; ne_notes : string }.

Record savings_row := SavingsRow
  { sav_deposit : Q; sav_date : date }.

(** ** [DataFrame.sort_values] on a date column

    pandas sorts a table by taking its rows in the order that numpy's
    [argsort] gives for the key column.  The default kind of sort,
    'quicksort', is not stable: among rows with equal keys any order can
    come out.  An [argsort] is therefore any function from the direction and
    the key column to a list of positions; [sort_by] takes what it answers
    when that is a permutation of the positions that puts the keys in order,
    and the answer of the stable sort otherwise. *)

Definition argsort := bool -> list Z -> list nat.

Definition comes_before {A} (key : A -> Z) (ascending : bool) (x y : A) : bool :=
  if ascending then key x <=? key y else key y <=? key x.

Fixpoint insert_sorted {A} (key : A -> Z) (ascending : bool) (x : A) (l : list A)
  : list A :=
  match l with
  | [] => [x]
  | y :: l' =>
      if comes_before key ascending x y then x :: y :: l'
      else y :: insert_sorted key ascending x l'
  end.

Fixpoint insertion_sort {A} (key : A -> Z) (ascending : bool) (l : list A)
  : list A :=
  match l with
  | [] => []
  | x :: l' => insert_sorted key ascending x (insertion_sort key ascending l')
  end.

(** The [argsort] of a stable sort: the positions in the order of their
    keys, equal keys in the order of the column. *)
Definition stable_argsort : argsort :=
  fun ascending keys =>
    fst <$> insertion_sort snd ascending (zip (seq 0 (length keys)) keys).

(** [df.iloc[positions]] *)
Definition iloc {A} (df : list A) (positions : list nat) : list A :=
  omap (fun i => df !! i) positions.

Fixpoint in_order (ascending : bool) (keys : list Z) : bool :=
  match keys with
  | [] => true
  | k1 :: rest =>
      match rest with
      | [] => true
      | k2 :: _ =>
          (if ascending then k1 <=? k2 else k2 <=? k1) && in_order ascending rest
      end
  end.

(** [order] sorts [keys]: it is a permutation of the positions, and the
    keys taken in that order are in order. *)
Definition is_argsort (ascending : bool) (keys : list Z) (order : list nat)
  : bool :=
  bool_decide (order ≡ₚ seq 0 (length keys)) && in_order ascending (iloc keys order).

Definition sort_by (numpy : argsort) {A} (key : A -> Z) (ascending : bool)
    (df : list A) : list A :=
  let keys := List.map key df in
  let order := numpy ascending keys in
  iloc df (if is_argsort ascending keys order then order
           else stable_argsort ascending keys).

(** [df.empty] *)
Definition empty {A} (df : list A) : bool :=
  match df with [] => true | _ => false end.

(** ** The backing store *)

Inductive csv_file (A : Type) :=
| Readable (rows : list A)
| Corrupt.
Arguments Readable {A} rows.
Arguments Corrupt {A}.

Record store := Store
  { income_csv : csv_file income_row;
    essentials_csv : csv_file essential_row;
    bills_csv : csv_file bill_row;
    non_essentials_csv : csv_file non_essential_row;
    savings_csv : csv_file savings_row }.

(** ** Settings values and the settings files *)

(** The values a settings dictionary can hold: the scalars, lists and
    booleans of the defaults, and, beside them, what [json] does not store
    as it is: a tuple, and any other object, of which only its [str()] is
    kept. *)
#[local] Set Warnings "-register-all".

Inductive pyval :=
| PNone
| PBool (b : bool)
| PInt (n : Z)
| PFloat (x : Q)
| PStr (s : string)
| PList (items : list pyval)
| PTuple (items : list pyval)
| PObject (str : string).

(** The values of a JSON document. *)
Inductive json :=
| JNull
| JBool (b : bool)
| JInt (n : Z)
| JFloat (x : Q)
| JString (s : string)
| JArray (items : list json).

(** [data/settings.json] as [json.load] finds it: an object whose values
    are scalars, booleans or lists of them, as [save_settings] writes them
    for the settings of the program, or text that is not JSON.  A JSON
    document that is not an object, and objects inside the values, are
    outside the embedding. *)
Inductive json_file :=
| JsonObject (members : gmap string json)
| JsonGarbage.

(** A cell of the [Value] column of [data/settings.csv]: JSON text, the
    text of a boolean, or the value as pandas writes it. *)
Inductive csv_cell :=
| CellJson (j : json)
| CellText (s : string)
| CellValue (v : pyval).

(** ** The world of a method

    The files under [data/], what the environment does with a write, what
    has been printed, the names of the files every write was directed at,
    and the [argsort] that numpy answers with.  A settings file that does
    not exist is [None]. *)

(** What becomes of a write: it goes through; or the file cannot be opened
    and is left as it was; or the file is opened, and so emptied, and the
    write fails after [kept] of its rows reached the file, or before even
    the header did ([None]). *)
Inductive write_access :=
| Granted
| Refused
| Interrupted (kept : option nat).

Definition access_of_bool (b : bool) : write_access :=
  if b then Granted else Refused.
Coercion access_of_bool : bool >-> write_access.
Arguments access_of_bool !b /.

Record world := World
  { files : store;
    settings_json : option json_file;
    settings_csv : option (gmap string csv_cell);
    writable : write_access;
    stdout : list string;
    write_log : list string;
    numpy_argsort : argsort }.

Inductive exn :=
| OSError
| ValueError
| TypeError
| ZeroDivisionError
| IndexError
| Wrapped (prefix : string) (cause : exn).

Inductive result (A : Type) :=
| Ok (a : A)
| Raise (e : exn).
Arguments Ok {A} a.
Arguments Raise {A} e.

(** A method is a state transformer that returns or raises. *)
Definition M (A : Type) : Type := world -> result A * world.

Definition ret {A} (a : A) : M A := fun w => (Ok a, w).
Definition raise {A} (e : exn) : M A := fun w => (Raise e, w).
Definition bind {A B} (m : M A) (k : A -> M B) : M B :=
  fun w => match m w with
           | (Ok a, w') => k a w'
           | (Raise e, w') => (Raise e, w')
           end.
Definition try_except {A} (body : M A) (handler : exn -> M A) : M A :=
  fun w => match body w with
           | (Ok a, w') => (Ok a, w')
           | (Raise e, w') => handler e w'
           end.

Notation "'do' x <- m ; k" := (bind m (fun x => k))
  (at level 10, x name, m at level 100, k at level 200).
Notation "'run' m ; k" := (bind m (fun _ => k))
  (at level 10, m at level 100, k at level 200).

Definition print (msg : string) : M unit :=
  fun w => (Ok tt, {| files := files w; settings_json := settings_json w;
                      settings_csv := settings_csv w; writable := writable w;
                      stdout := stdout w ++ [msg]; write_log := write_log w;
                      numpy_argsort := numpy_argsort w |}).

(** Opening [name] for writing: noted in the log of writes, and refused
    when the environment does not allow it. *)
Definition open_for_writing (name : string) : M unit :=
  fun w =>
    let w' := {| files := files w; settings_json := settings_json w;
                 settings_csv := settings_csv w; writable := writable w;
                 stdout := stdout w; write_log := write_log w ++ [name];
                 numpy_argsort := numpy_argsort w |} in
    match writable w with
    | Granted | Interrupted _ => (Ok tt, w')
    | Refused => (Raise OSError, w')
    end.

Definition set_files (f : store -> store) : M unit :=
  fun w => (Ok tt, {| files := f (files w); settings_json := settings_json w;
                      settings_csv := settings_csv w; writable := writable w;
                      stdout := stdout w; write_log := write_log w;
                      numpy_argsort := numpy_argsort w |}).

Definition set_settings_json (j : json_file) : M unit :=
  fun w => (Ok tt, {| files := files w; settings_json := Some j;
                      settings_csv := settings_csv w; writable := writable w;
                      stdout := stdout w; write_log := write_log w;
                      numpy_argsort := numpy_argsort w |}).

Definition set_settings_csv (c : gmap string csv_cell) : M unit :=
  fun w => (Ok tt, {| files := files w; settings_json := settings_json w;
                      settings_csv := Some c; writable := writable w;
                      stdout := stdout w; write_log := write_log w;
                      numpy_argsort := numpy_argsort w |}).

(** Writing to a file that has been opened: the file comes to hold its new
    content, or, when the write is interrupted, what reached it before the
    failure, which is then raised.  Nothing is written to a file that could
    not be opened. *)
Definition write_or_fail (complete : M unit) (interrupted : option nat -> M unit)
  : M unit :=
  fun w => match writable w with
           | Granted => complete w
           | Refused => raise OSError w
           | Interrupted kept => (run interrupted kept; raise OSError) w
           end.

(** [pd.read_csv(path)] followed by the date conversion of the loader: the
    table, or an exception. *)
Definition read_csv {A} (file : store -> csv_file A) : M (list A) :=
  fun w => match file (files w) with
           | Readable rows => (Ok rows, w)
           | Corrupt => (Raise ValueError, w)
           end.

(** [df.sort_values(column, ascending=...)] *)
Definition sort_values {A} (key : A -> Z) (ascending : bool) (df : list A)
  : M (list A) :=
  fun w => (Ok (sort_by (numpy_argsort w) key ascending df), w).

(** What an interrupted write of the table [df] leaves in its file: the
    header and the first [n] rows, or nothing at all, which cannot be
    read. *)
Definition truncated {A} (kept : option nat) (df : list A) : csv_file A :=
  match kept with
  | Some n => Readable (take n df)
  | None => Corrupt
  end.

(** [df.to_csv(path, index=False)]: raises when the file cannot be opened
    for writing and then leaves it alone; otherwise the file is opened,
    which empties it, and comes to hold the table, or a part of it when the
    write fails on the way.  The rows are kept as they are written: what
    [read_csv] makes of a text that reads like a number or like a missing
    value is outside the embedding. *)
Definition to_csv {A} (name : string) (put : csv_file A -> store -> store)
    (df : list A) : M unit :=
  run open_for_writing name;
  write_or_fail (set_files (put (Readable df)))
                (fun kept => set_files (put (truncated kept df))).

Definition put_income f s := {| income_csv := f; essentials_csv := essentials_csv s;
  bills_csv := bills_csv s; non_essentials_csv := non_essentials_csv s;
  savings_csv := savings_csv s |}.
Definition put_essentials f s := {| income_csv := income_csv s; essentials_csv := f;
  bills_csv := bills_csv s; non_essentials_csv := non_essentials_csv s;
  savings_csv := savings_csv s |}.
Definition put_bills f s := {| income_csv := income_csv s;
  essentials_csv := essentials_csv s; bills_csv := f;
  non_essentials_csv := non_essentials_csv s; savings_csv := savings_csv s |}.
Definition put_non_essentials f s := {| income_csv := income_csv s;
  essentials_csv := essentials_csv s; bills_csv := bills_csv s;
  non_essentials_csv := f; savings_csv := savings_csv s |}.
Definition put_savings f s := {| income_csv := income_csv s;
  essentials_csv := essentials_csv s; bills_csv := bills_csv s;
  non_essentials_csv := non_essentials_csv s; savings_csv := f |}.

(** ** [DataManager]: the five collections

    The text of the caught exception that the program appends to its
    messages ([f"...: {e}"]) is kept as the wrapped cause, not as text. *)

(** [pd.to_datetime(date).date()] on an argument of an [add_*] method:
    [None] stands for an argument that does not denote a date. *)
Definition to_datetime (d : option date) : M date :=
  match d with
  | Some d => ret d
  | None => raise ValueError
  end.

(** *** Income *)

Definition get_income_data : M (list income_row) :=
  try_except
    (do df <- read_csv income_csv;
     if empty df then ret df else sort_values inc_date false df)
    (fun e => run print "Error loading income data"; ret []).

Definition add_income (description : string) (amount : Q) (d : option date)
  : M unit :=
  try_except
    (do df <- get_income_data;
     do d' <- to_datetime d;
     to_csv "income.csv" put_income (df ++ [IncomeRow description amount d']))
    (fun e => raise (Wrapped "Error adding income" e)).

Definition delete_income (index : Z) : M unit :=
  try_except
    (do df <- get_income_data;
     if (0 <=? index) && (index <? Z.of_nat (length df))
     then to_csv "income.csv" put_income (delete (Z.to_nat index) df)
     else ret tt)
    (fun e => raise (Wrapped "Error deleting income" e)).

(** *** Essentials *)

Definition get_essentials_data : M (list essential_row) :=
  try_except
    (read_csv essentials_csv)
    (fun e => run print "Error loading essentials data"; ret []).

Definition add_essential (category : string) (expected actual : Q) : M unit :=
  try_except
    (do df <- get_essentials_data;
     to_csv "essentials.csv" put_essentials
       (df ++ [EssentialRow category expected actual]))
    (fun e => raise (Wrapped "Error adding essential" e)).

Definition delete_essential (index : Z) : M unit :=
  try_except
    (do df <- get_essentials_data;
     if (0 <=? index) && (index <? Z.of_nat (length df))
     then to_csv "essentials.csv" put_essentials (delete (Z.to_nat index) df)
     else ret tt)
    (fun e => raise (Wrapped "Error deleting essential" e)).

(** *** Bills *)

Definition get_bills_data : M (list bill_row) :=
  try_except
    (do df <- read_csv bills_csv;
     if empty df then ret df else sort_values due_date true df)
    (fun e => run print "Error loading bills data"; ret []).

Definition add_bill (name : string) (amount : Q) (d : option date)
    (st : string) : M unit :=
  try_except
    (do df <- get_bills_data;
     do d' <- to_datetime d;
     to_csv "bills.csv" put_bills (df ++ [BillRow name amount d' st]))
    (fun e => raise (Wrapped "Error adding bill" e)).

Definition set_status (new_status : string) (r : bill_row) : bill_row :=
  {| bill_name := bill_name r; amount_due := amount_due r;
     due_date := due_date r; status := new_status |}.

Definition toggle_bill_status (index : Z) : M unit :=
  try_except
    (do df <- get_bills_data;
     if (0 <=? index) && (index <? Z.of_nat (length df))
     then
       match df !! Z.to_nat index with
       | Some r =>
           let current_status := status r in
           let new_status :=
             if String.eqb current_status "Unpaid" then "Paid" else "Unpaid" in
           to_csv "bills.csv" put_bills
             (<[Z.to_nat index := set_status new_status r]> df)
       | None => raise IndexError
       end
     else ret tt)
    (fun e => raise (Wrapped "Error toggling bill status" e)).

Definition delete_bill (index : Z) : M unit :=
  try_except
    (do df <- get_bills_data;
     if (0 <=? index) && (index <? Z.of_nat (length df))
     then to_csv "bills.csv" put_bills (delete (Z.to_nat index) df)
     else ret tt)
    (fun e => raise (Wrapped "Error deleting bill" e)).

(** *** Non-essentials *)

Definition get_non_essentials_data : M (list non_essential_row) :=
  try_except
    (do df <- read_csv non_essentials_csv;
     if empty df then ret df else sort_values ne_date false df)
    (fun e => run print "Error loading non-essentials data"; ret []).

Definition add_non_essential (expense : string) (amount : Q) (d : option date)
    (notes : string) : M unit :=
  try_except
    (do df <- get_non_essentials_data;
     do d' <- to_datetime d;
     to_csv "non_essentials.csv" put_non_essentials
       (df ++ [NonEssentialRow expense amount d' notes]))
    (fun e => raise (Wrapped "Error adding non-essential" e)).

Definition delete_non_essential (index : Z) : M unit :=
  try_except
    (do df <- get_non_essentials_data;
     if (0 <=? index) && (index <? Z.of_nat (length df))
     then to_csv "non_essentials.csv" put_non_essentials
            (delete (Z.to_nat index) df)
     else ret tt)
    (fun e => raise (Wrapped "Error deleting non-essential" e)).

(** *** Savings *)

Definition get_savings_data : M (list savings_row) :=
  try_except
    (do df <- read_csv savings_csv;
     if empty df then ret df else sort_values sav_date false df)
    (fun e => run print "Error loading savings data"; ret []).

Definition add_savings (deposit : Q) (d : option date) : M unit :=
  try_except
    (do df <- get_savings_data;
     do d' <- to_datetime d;
     to_csv "savings.csv" put_savings (df ++ [SavingsRow deposit d']))
    (fun e => raise (Wrapped "Error adding savings" e)).

Definition delete_savings (index : Z) : M unit :=
  try_except
    (do df <- get_savings_data;
     if (0 <=? index) && (index <? Z.of_nat (length df))
     then to_csv "savings.csv" put_savings (delete (Z.to_nat index) df)
     else ret tt)
    (fun e => raise (Wrapped "Error deleting savings" e)).

(** ** [DataManager]: budget calculations *)

Local Open Scope Q_scope.

(** [a > b] on amounts *)
Definition Qgtb (a b : Q) : bool := negb (Qle_bool a b).

(** [a / b] of Python, which raises on a zero divisor *)
Definition pydiv (a b : Q) : M Q :=
  if Qeq_bool b 0 then raise ZeroDivisionError else ret (a / b).

(** [df[column].sum()] *)
Definition column_sum {A} (column : A -> Q) (df : list A) : Q :=
  fold_left Qplus (List.map column df) 0.

Record allocations := Allocations
  { total_income : Q;
    essentials_target : Q;
    non_essentials_target : Q;
    savings_target : Q }.

Record actual_spending := ActualSpending
  { essentials_actual : Q;
    non_essentials_actual : Q;
    savings_actual : Q }.

Record category_summary := CategorySummary
  { target : Q; actual : Q; difference : Q; percentage : Q }.

Record budget_summary := BudgetSummary
  { essentials : category_summary;
    non_essentials : category_summary;
    savings : category_summary;
    summary_total_income : Q }.

Definition calculate_budget_allocations : M allocations :=
  do income_data <- get_income_data;
  let total_income :=
    if negb (empty income_data) then column_sum inc_amount income_data else 0 in
  ret {| total_income := total_income;
         essentials_target := total_income * 0.5;
         non_essentials_target := total_income * 0.3;
         savings_target := total_income * 0.2 |}.

Definition calculate_actual_spending : M actual_spending :=
  do essentials_data <- get_essentials_data;
  do non_essentials_data <- get_non_essentials_data;
  do savings_data <- get_savings_data;
  ret {| essentials_actual :=
           if negb (empty essentials_data)
           then column_sum ess_actual essentials_data else 0;
         non_essentials_actual :=
           if negb (empty non_essentials_data)
           then column_sum ne_amount non_essentials_data else 0;
         savings_actual :=
           if negb (empty savings_data)
           then column_sum sav_deposit savings_data else 0 |}.

(** [(actual / total_income * 100) if total_income > 0 else 0] *)
Definition percentage_of_income (actual total_income : Q) : M Q :=
  if Qgtb total_income 0
  then do r <- pydiv actual total_income; ret (r * 100)
  else ret 0.

Definition get_budget_summary : M budget_summary :=
  do allocations <- calculate_budget_allocations;
  do actuals <- calculate_actual_spending;
  do p1 <- percentage_of_income (essentials_actual actuals) (total_income allocations);
  do p2 <- percentage_of_income (non_essentials_actual actuals)
             (total_income allocations);
  do p3 <- percentage_of_income (savings_actual actuals) (total_income allocations);
  ret {| essentials :=
           {| target := essentials_target allocations;
              actual := essentials_actual actuals;
              difference := essentials_actual actuals - essentials_target allocations;
              percentage := p1 |};
         non_essentials :=
           {| target := non_essentials_target allocations;
              actual := non_essentials_actual actuals;
              difference :=
                non_essentials_actual actuals - non_essentials_target allocations;
              percentage := p2 |};
         savings :=
           {| target := savings_target allocations;
              actual := savings_actual actuals;
              difference := savings_actual actuals - savings_target allocations;
              percentage := p3 |};
         summary_total_income := total_income allocations |}.

(** ** [DataManager]: analytics *)

(** [(df['Date'] >= start) & (df['Date'] <= end)] *)
Definition in_window (start_date end_date d : date) : bool :=
  (start_date <=? d)%Z && (d <=? end_date)%Z.

(** One step of [groupby('Date')[column].sum()]: the groups are kept in
    ascending order of their key and a group's sum grows in row order. *)
Fixpoint group_add (d : date) (a : Q) (groups : list (date * Q))
  : list (date * Q) :=
  match groups with
  | [] => [(d, a)]
  | (d', s) :: rest =>
      if (d <? d')%Z then (d, a) :: (d', s) :: rest
      else if (d =? d')%Z then (d', s + a) :: rest
      else (d', s) :: group_add d a rest
  end.

(** [df.groupby('Date')[column].sum().reset_index()] *)
Definition groupby_sum {A} (key : A -> date) (column : A -> Q) (df : list A)
  : list (date * Q) :=
  fold_left (fun groups r => group_add (key r) (column r) groups) df [].

Fixpoint cumsum_from (acc : Q) (l : list Q) : list Q :=
  match l with
  | [] => []
  | x :: l' => (acc + x) :: cumsum_from (acc + x) l'
  end.

(** [series.cumsum()] *)
Definition cumsum (l : list Q) : list Q :=
  match l with
  | [] => []
  | x :: l' => x :: cumsum_from x l'
  end.

(** The dictionary returned by [get_spending_trends]: a key is present only
    when its collection is not empty. *)
Record trends := Trends
  { trend_non_essentials : option (list (date * Q));
    trend_income : option (list (date * Q));
    trend_savings : option (list (savings_row * Q)) }.

Definition get_spending_trends (today : date) (days : Z) : M trends :=
  let end_date := today in
  let start_date := (end_date - days)%Z in
  do non_essentials <- get_non_essentials_data;
  let t1 :=
    if negb (empty non_essentials)
    then
      let recent := List.filter (fun r => in_window start_date end_date (ne_date r))
                      non_essentials in
      Some (groupby_sum ne_date ne_amount recent)
    else None in
  do income <- get_income_data;
  let t2 :=
    if negb (empty income)
    then
      let recent := List.filter (fun r => in_window start_date end_date (inc_date r))
                      income in
      Some (groupby_sum inc_date inc_amount recent)
    else None in
  do savings <- get_savings_data;
  let t3 :=
    if negb (empty savings)
    then
      let recent := List.filter (fun r => in_window start_date end_date (sav_date r))
                      savings in
      Some (combine recent (cumsum (List.map sav_deposit recent)))
    else None in
  ret {| trend_non_essentials := t1; trend_income := t2; trend_savings := t3 |}.

Definition get_overdue_bills (today : date) : M (list bill_row) :=
  do bills <- get_bills_data;
  if empty bills then ret []
  else
    let overdue :=
      List.filter (fun b => String.eqb (status b) "Unpaid"
                            && (due_date b <? today)%Z) bills in
    sort_values due_date true overdue.

Definition get_upcoming_bills (today : date) (days : Z) : M (list bill_row) :=
  do bills <- get_bills_data;
  if empty bills then ret []
  else
    let future_date := (today + days)%Z in
    let upcoming :=
      List.filter (fun b => String.eqb (status b) "Unpaid"
                            && (today <=? due_date b)%Z
                            && (due_date b <=? future_date)%Z) bills in
    sort_values due_date true upcoming.

(** ** [ChartManager.create_spending_trend_chart]

    Of the figure only what is plotted is kept: the message of an empty
    chart, or the dense daily series and the level of the average line. *)

Inductive figure :=
| NoSpendingData
| NoSpendingDataForLast (days : Z)
| SpendingTrend (complete_data : list (date * Q)) (avg_spending : Q).

(** [pd.date_range(start=start_date, end=end_date, freq='D')] *)
Definition date_range (start_date end_date : date) : list date :=
  List.map (fun i => (start_date + Z.of_nat i)%Z)
    (seq 0 (Z.to_nat (end_date - start_date + 1))).

(** [left.merge(right, on='Date', how='left')]: every left row, once per
    matching right row, or once with a missing amount. *)
Definition merge_left (left : list date) (right : list (date * Q))
  : list (date * option Q) :=
  flat_map
    (fun d =>
       match List.filter (fun g => (fst g =? d)%Z) right with
       | [] => [(d, None)]
       | matches => List.map (fun g => (d, Some (snd g))) matches
       end)
    left.

(** [df['Amount'].fillna(0)] *)
Definition fillna0 (df : list (date * option Q)) : list (date * Q) :=
  List.map (fun r => (fst r, match snd r with Some a => a | None => 0 end)) df.

Definition create_spending_trend_chart (today : date)
    (non_essentials_data : list non_essential_row) (days : Z) : figure :=
  if empty non_essentials_data then NoSpendingData
  else
    let end_date := today in
    let start_date := (end_date - days)%Z in
    let data := List.filter (fun r => in_window start_date end_date (ne_date r))
                  non_essentials_data in
    if empty data then NoSpendingDataForLast days
    else
      let daily_spending := groupby_sum ne_date ne_amount data in
      let complete_data :=
        fillna0 (merge_left (date_range start_date end_date) daily_spending) in
      let avg_spending :=
        column_sum snd complete_data / inject_Z (Z.of_nat (length complete_data)) in
      SpendingTrend complete_data avg_spending.

(** ** [show_analytics]: the figures behind the analytics page *)

(** Round to the nearest integer, ties to the even one. *)
Definition round_half_even (q : Q) : Z :=
  let f := Qfloor q in
  let r := q - inject_Z f in
  match Qcompare r (1 # 2) with
  | Lt => f
  | Gt => (f + 1)%Z
  | Eq => if Z.even f then f else (f + 1)%Z
  end.

Definition string_of_nonneg (n : Z) : string :=
  NilZero.string_of_uint (N.to_uint (Z.to_N n)).

(** [f"{q:.1f}"] *)
Definition format_1f (q : Q) : string :=
  let n := round_half_even (Qabs q * 10) in
  ((if Qle_bool 0 q then "" else "-")
   +:+ string_of_nonneg (n / 10) +:+ "." +:+ string_of_nonneg (n mod 10))%string.

(** [((actual - target) / target * 100) if target > 0 else 0] *)
Definition variance_of (actual target : Q) : M Q :=
  if Qgtb target 0
  then do r <- pydiv (actual - target) target; ret (r * 100)
  else ret 0.

(** [f"{'Over' if variance > 0 else 'Under'} by {abs(variance):.1f}%"] *)
Definition variance_text (variance : Q) : string :=
  ((if Qgtb variance 0 then "Over" else "Under")
   +:+ " by " +:+ format_1f (Qabs variance) +:+ "%")%string.

(** The state the loop over the categories leaves behind: the labels it
    has made, and the loop variable [variance], which Python keeps after
    the loop. *)
Record adherence := Adherence
  { labels : list string; variance : Q }.

Fixpoint for_each {A S} (items : list A) (body : A -> S -> M S) (s : S) : M S :=
  match items with
  | [] => ret s
  | x :: rest => do s' <- body x s; for_each rest body s'
  end.

Record score_components := ScoreComponents
  { savings_rate_score : Q;
    budget_adherence_score : Q;
    emergency_fund_score : Q;
    expense_control_score : Q }.

Record analytics := Analytics
  { savings_rate : Q;
    expense_ratio : Q;
    adherence_labels : list string;
    components : score_components;
    total_score : Q;
    interpretation : string }.

Definition show_analytics : M analytics :=
  do income_data <- get_income_data;
  do essentials_data <- get_essentials_data;
  do bills_data <- get_bills_data;
  do non_essentials_data <- get_non_essentials_data;
  do savings_data <- get_savings_data;
  let total_income :=
    if negb (empty income_data) then column_sum inc_amount income_data else 0 in
  let total_essentials :=
    if negb (empty essentials_data)
    then column_sum ess_actual essentials_data else 0 in
  let total_non_essentials :=
    if negb (empty non_essentials_data)
    then column_sum ne_amount non_essentials_data else 0 in
  let total_savings :=
    if negb (empty savings_data) then column_sum sav_deposit savings_data else 0 in
  let total_expenses := total_essentials + total_non_essentials in
  let target_essentials := total_income * 0.5 in
  let target_non_essentials := total_income * 0.3 in
  let target_savings := total_income * 0.2 in
  do savings_rate <-
    (if Qgtb total_income 0
     then do r <- pydiv total_savings total_income; ret (r * 100) else ret 0);
  do expense_ratio <-
    (if Qgtb total_income 0
     then do r <- pydiv total_expenses total_income; ret (r * 100) else ret 0);
  let categories :=
    [("Essentials (50%)"%string, total_essentials, target_essentials);
     ("Non-Essentials (30%)"%string, total_non_essentials, target_non_essentials);
     ("Savings (20%)"%string, total_savings, target_savings)] in
  do loop <-
    for_each categories
      (fun '(category, actual, target) s =>
         do progress_value <-
           (if Qgtb target 0 then pydiv actual target else ret 0);
         do variance <- variance_of actual target;
         ret {| labels := labels s ++ [variance_text variance];
                variance := variance |})
      {| labels := []; variance := 0 |};
  let variance := variance loop in
  do emergency <-
    (if Qgtb total_expenses 0
     then do r <- pydiv total_savings (total_expenses * 3);
          ret (Qmin (r * 25) 25)
     else ret 0);
  let score_components :=
    {| savings_rate_score := Qmin (savings_rate / 20 * 25) 25;
       budget_adherence_score := Qmax 0 (25 - Qabs variance / 10 * 25);
       emergency_fund_score := emergency;
       expense_control_score :=
         if Qgtb expense_ratio 80
         then Qmax 0 (25 - (expense_ratio - 80) / 20 * 25) else 25 |} in
  let total_score :=
    0 + savings_rate_score score_components
      + budget_adherence_score score_components
      + emergency_fund_score score_components
      + expense_control_score score_components in
  let interpretation :=
    if Qle_bool 80 total_score then "Excellent financial health!"%string
    else if Qle_bool 60 total_score then "Good financial management"%string
    else if Qle_bool 40 total_score then "Needs improvement"%string
    else "Critical - Review budget immediately"%string in
  ret {| savings_rate := savings_rate;
         expense_ratio := expense_ratio;
         adherence_labels := labels loop;
         components := score_components;
         total_score := total_score;
         interpretation := interpretation |}.

(** ** [SettingsManager] *)

Local Close Scope Q_scope.

(** The object: its one attribute that the methods below read. *)
Record SettingsManager := { default_settings : gmap string pyval }.

Definition get_default_settings : gmap string pyval :=
  list_to_map
    [("theme", PStr "dark");
     ("currency", PStr "PHP");
     ("date_format", PStr "%Y-%m-%d");
     ("window_geometry", PStr "1400x800");
     ("auto_save", PBool true);
     ("backup_frequency", PInt 7);
     ("last_backup", PNone);
     ("notifications_enabled", PBool true);
     ("budget_alerts", PBool true);
     ("overspending_alert_threshold", PInt 10);
     ("currency_symbol", PStr "₱");
     ("decimal_places", PInt 2);
     ("first_time_setup", PBool true);
     ("language", PStr "en");
     ("export_format", PStr "xlsx");
     ("chart_style", PStr "default");
     ("sidebar_expanded", PBool true);
     ("default_page", PStr "dashboard");
     ("income_categories",
      PList [PStr "Salary"; PStr "Freelance"; PStr "Investments";
             PStr "Business"; PStr "Other"]);
     ("essential_categories",
      PList [PStr "Housing"; PStr "Utilities"; PStr "Groceries";
             PStr "Transportation"; PStr "Insurance"; PStr "Healthcare";
             PStr "Debt Payments"]);
     ("non_essential_categories",
      PList [PStr "Entertainment"; PStr "Dining Out"; PStr "Shopping";
             PStr "Hobbies"; PStr "Travel"; PStr "Subscriptions";
             PStr "Personal Care"])].

(** [SettingsManager()] *)
Definition new_settings_manager : SettingsManager :=
  {| default_settings := get_default_settings |}.

(** What [json.dump(value, f, default=str)] writes for a value: a tuple
    becomes an array, and an object [json] does not know becomes its
    [str()]. *)
Fixpoint json_dump (v : pyval) : json :=
  match v with
  | PNone => JNull
  | PBool b => JBool b
  | PInt n => JInt n
  | PFloat x => JFloat x
  | PStr s => JString s
  | PList items => JArray (List.map json_dump items)
  | PTuple items => JArray (List.map json_dump items)
  | PObject str => JString str
  end.

(** What [json.load] makes of a JSON value. *)
Fixpoint json_load (j : json) : pyval :=
  match j with
  | JNull => PNone
  | JBool b => PBool b
  | JInt n => PInt n
  | JFloat x => PFloat x
  | JString s => PStr s
  | JArray items => PList (List.map json_load items)
  end.

(** [json.dumps(value)], without a [default]: an object [json] does not
    know is a [TypeError]. *)
Fixpoint json_dumps (v : pyval) : option json :=
  match v with
  | PNone => Some JNull
  | PBool b => Some (JBool b)
  | PInt n => Some (JInt n)
  | PFloat x => Some (JFloat x)
  | PStr s => Some (JString s)
  | PList items => JArray <$> mapM json_dumps items
  | PTuple items => JArray <$> mapM json_dumps items
  | PObject _ => None
  end.

(** The cell [save_settings_to_csv] writes for a value. *)
Definition csv_cell_of (value : pyval) : option csv_cell :=
  match value with
  | PList _ => CellJson <$> json_dumps value
  | PBool b => Some (CellText (if b then "true" else "false"))
  | _ => Some (CellValue value)
  end.

(** What an interrupted write leaves of the rows of the legacy settings
    table; a file without its header is not told apart from an empty
    table. *)
Definition cut_off {A} (kept : option nat) (data : list A) : list A :=
  match kept with
  | Some n => take n data
  | None => []
  end.

(** What an interrupted [json.dump] leaves: text that is cut off is not
    JSON, unless all of it had reached the file. *)
Definition cut_off_json (kept : option nat) (members : gmap string json)
  : json_file :=
  match kept with
  | Some n => if decide (size members <= n)%nat then JsonObject members
              else JsonGarbage
  | None => JsonGarbage
  end.

Definition save_settings_to_csv (self : SettingsManager)
    (settings : gmap string pyval) : M unit :=
  try_except
    (match mapM (fun kv => pair (fst kv) <$> csv_cell_of (snd kv))
             (map_to_list settings) with
     | Some data =>
         run open_for_writing "settings.csv";
         write_or_fail (set_settings_csv (list_to_map data))
           (fun kept => set_settings_csv (list_to_map (cut_off kept data)))
     | None => raise TypeError
     end)
    (fun e => print "Error saving CSV settings").

(** [save_settings].  The directory [data/] that
    [ensure_settings_directory] makes sure of is there in every world. *)
Definition save_settings (self : SettingsManager)
    (settings : gmap string pyval) : M unit :=
  try_except
    (run open_for_writing "settings.json";
     run write_or_fail (set_settings_json (JsonObject (json_dump <$> settings)))
           (fun kept => set_settings_json (cut_off_json kept (json_dump <$> settings)));
     save_settings_to_csv self settings)
    (fun e =>
       run print "Error saving settings";
       raise (Wrapped "Failed to save settings" e)).

(** [load_settings].  The loader of the legacy CSV file, reached only when
    there is no JSON file, coerces each cell by its key; it is taken as a
    parameter [load_settings_from_csv]. *)
Definition load_settings (load_settings_from_csv : M (gmap string pyval))
    (self : SettingsManager) : M (gmap string pyval) :=
  try_except
    (fun w =>
       match settings_json w with
       | Some file =>
           match file with
           | JsonObject members =>
               let settings := json_load <$> members in
               (* merged_settings = defaults.copy(); merged_settings.update(settings) *)
               ret (settings ∪ default_settings self) w
           | JsonGarbage => raise ValueError w
           end
       | None => load_settings_from_csv w
       end)
    (fun e => run print "Error loading settings"; ret (default_settings self)).

(** [set_setting] *)
Definition set_setting (load_settings_from_csv : M (gmap string pyval))
    (self : SettingsManager) (key : string) (value : pyval) : M unit :=
  do settings <- load_settings load_settings_from_csv self;
  save_settings self (<[key := value]> settings).

(** ** [DataManager]: resetting and validating the data *)

(** [reset_all_data]: every CSV file is rewritten with its header alone,
    income first and the legacy settings file last; [settings.json] is not
    among them. *)
Definition reset_all_data : M unit :=
  try_except
    (run to_csv "income.csv" put_income [];
     run to_csv "essentials.csv" put_essentials [];
     run to_csv "bills.csv" put_bills [];
     run to_csv "non_essentials.csv" put_non_essentials [];
     run to_csv "savings.csv" put_savings [];
     run open_for_writing "settings.csv";
     write_or_fail (set_settings_csv ∅) (fun kept => set_settings_csv ∅))
    (fun e => raise (Wrapped "Error resetting data" e)).

(** [df[column].min()] of a table that is not empty *)
Definition column_min {A} (column : A -> Q) (df : list A) : Q :=
  match df with
  | [] => 0%Q
  | r :: rest => fold_left (fun m r' => Qmin m (column r')) rest (column r)
  end.

(** [value <= 0] *)
Definition Qleb0 (value : Q) : bool := Qle_bool value 0.

(** [value < 0] *)
Definition Qltb0 (value : Q) : bool := Qgtb 0 value.

(** [df.isnull().any().any()] on the income table.  The amounts and the
    dates of the typed rows are all present, so that of their cells only a
    description can be missing, and it is when it is empty; the check of the
    program also fires on a missing amount or date. *)
Definition income_isnull (df : list income_row) : bool :=
  existsb (fun r => String.eqb (inc_description r) "") df.

(** [validate_data_integrity]: the issues found per collection, the
    collections without issues left out. *)
Definition validate_data_integrity : M (gmap string (list string)) :=
  do income <- get_income_data;
  let income_issues :=
    if negb (empty income)
    then (if Qleb0 (column_min inc_amount income)
          then ["Negative or zero income amounts found"] else [])
         ++ (if income_isnull income then ["Missing values found"] else [])
    else [] in
  do essentials <- get_essentials_data;
  let essentials_issues :=
    if negb (empty essentials)
    then (if existsb (fun r => Qltb0 (ess_expected r)) essentials
             || existsb (fun r => Qltb0 (ess_actual r)) essentials
          then ["Negative amounts found"] else [])
    else [] in
  do bills <- get_bills_data;
  let bills_issues :=
    if negb (empty bills)
    then (if Qleb0 (column_min amount_due bills)
          then ["Non-positive bill amounts found"] else [])
         ++ (if existsb (fun r => negb (String.eqb (status r) "Paid"
                                        || String.eqb (status r) "Unpaid")) bills
             then ["Invalid status values found"] else [])
    else [] in
  do non_essentials <- get_non_essentials_data;
  let non_essentials_issues :=
    if negb (empty non_essentials)
    then (if Qleb0 (column_min ne_amount non_essentials)
          then ["Non-positive expense amounts found"] else [])
    else [] in
  do savings <- get_savings_data;
  let savings_issues :=
    if negb (empty savings)
    then (if Qleb0 (column_min sav_deposit savings)
          then ["Non-positive savings amounts found"] else [])
    else [] in
  ret (list_to_map
         (List.filter (fun kv => negb (empty (snd kv)))
            [("income", income_issues);
             ("essentials", essentials_issues);
             ("bills", bills_issues);
             ("non_essentials", non_essentials_issues);
             ("savings", savings_issues)])).

(** ** [BudgetTrackerApp]: the income form and the recommendations *)

(** The message box a handler ends with. *)
Inductive dialog :=
| ShowError (message : string)
| ShowInfo (message : string).


(** The recommendations of [show_analytics], from the same totals. *)
Definition show_analytics_recommendations : M (list string) :=
  do income_data <- get_income_data;
  do essentials_data <- get_essentials_data;
  do bills_data <- get_bills_data;
  do non_essentials_data <- get_non_essentials_data;
  do savings_data <- get_savings_data;
  let total_income :=
    if negb (empty income_data) then column_sum inc_amount income_data else 0%Q in
  let total_essentials :=
    if negb (empty essentials_data)
    then column_sum ess_actual essentials_data else 0%Q in
  let total_non_essentials :=
    if negb (empty non_essentials_data)
    then column_sum ne_amount non_essentials_data else 0%Q in
  let total_savings :=
    if negb (empty savings_data) then column_sum sav_deposit savings_data else 0%Q in
  let total_expenses := (total_essentials + total_non_essentials)%Q in
  let target_essentials := (total_income * 0.5)%Q in
  let target_non_essentials := (total_income * 0.3)%Q in
  do savings_rate <-
    (if Qgtb total_income 0
     then do r <- pydiv total_savings total_income; ret (r * 100)%Q else ret 0%Q);
  let recommendations :=
    (if Qgtb 20 savings_rate
     then ["• Increase your savings rate to reach the 20% target"] else [])
    ++ (if Qgtb total_essentials target_essentials
        then ["• Review essential expenses - you're over the 50% target"] else [])
    ++ (if Qgtb total_non_essentials target_non_essentials
        then ["• Reduce non-essential spending to stay within 30% budget"] else [])
    ++ (if (0 <? Z.of_nat (length (List.filter
                                     (fun b => String.eqb (status b) "Unpaid")
                                     bills_data)))%Z
        then ["• Pay outstanding bills to avoid late fees"] else [])
    ++ (if Qgtb (total_expenses * 3) total_savings
        then ["• Build emergency fund to cover 3-6 months of expenses"] else []) in
  ret (if empty recommendations
       then ["• Great job! Your budget is well-balanced"]
       else recommendations).

(** ** [SettingsManager]: single settings, reset and migration *)

(** [get_setting(key, default)] *)
Definition get_setting (load_settings_from_csv : M (gmap string pyval))
    (self : SettingsManager) (key : string) (default : pyval) : M pyval :=
  do settings <- load_settings load_settings_from_csv self;
  ret (match settings !! key with Some v => v | None => default end).

(** [reset_settings] *)
Definition reset_settings (self : SettingsManager) : M unit :=
  save_settings self (default_settings self).

(** One turn of the loop of [migrate_settings]. *)
Definition migrate_step (acc : gmap string pyval * bool) (kv : string * pyval)
  : gmap string pyval * bool :=
  match fst acc !! fst kv with
  | Some _ => acc
  | None => (<[fst kv := snd kv]> (fst acc), true)
  end.

(** [migrate_settings]: the defaults are gone through in the order of the
    map, which the result does not depend on. *)
Definition migrate_settings (load_settings_from_csv : M (gmap string pyval))
    (self : SettingsManager) : M bool :=
  do settings <- load_settings load_settings_from_csv self;
  let result :=
    fold_left migrate_step (map_to_list (default_settings self)) (settings, false) in
  if snd result
  then (run save_settings self (fst result); ret true)
  else ret false.

(** ** [BudgetTrackerApp]: the delete buttons *)

(** What can leave a handler that catches nothing: an exception of the
    [DataManager]. *)
Inductive app_exn :=
| FromDataManager (e : exn).

(** How a handler ends: the user declined, a message box was shown, or an
    exception escaped to the event loop. *)
Inductive handler_outcome :=
| Declined
| Shown (d : dialog)
| Escaped (e : app_exn).

Definition run_handler (body : M dialog) (w : world) : handler_outcome * world :=
  match body w with
  | (Ok d, w') => (Shown d, w')
  | (Raise e, w') => (Escaped (FromDataManager e), w')
  end.

(** [BudgetTrackerApp.delete_income]; [confirmed] is the answer to
    [askyesno], and refreshing the list reads the income again. *)
Definition app_delete_income (confirmed : bool) (index : Z) (w : world)
  : handler_outcome * world :=
  if confirmed
  then run_handler
         (run delete_income index;
          run get_income_data;
          ret (ShowInfo "Income entry deleted successfully!")) w
  else (Declined, w).

(** [BudgetTrackerApp.delete_bill] *)
Definition app_delete_bill (confirmed : bool) (index : Z) (w : world)
  : handler_outcome * world :=
  if confirmed
  then run_handler
         (run delete_bill index;
          run get_bills_data;
          ret (ShowInfo "Bill deleted successfully!")) w
  else (Declined, w).

(** ** Vocabulary of the statements *)

(** The rows a file holds; a file that cannot be read holds none. *)
Definition stored {A} (f : csv_file A) : list A :=
  match f with
  | Readable rows => rows
  | Corrupt => []
  end.

(** The order [sort_values] establishes on a date column. *)
Definition ordered {A} (key : A -> Z) (ascending : bool) (x y : A) : Prop :=
  comes_before key ascending x y = true.

Definition by_due_date (a b : bill_row) : Prop := (due_date a <= due_date b)%Z.

Definition is_overdue (today : date) (b : bill_row) : bool :=
  bool_decide (status b = "Unpaid" /\ (due_date b < today)%Z).

Definition is_upcoming (today : date) (horizon : Z) (b : bill_row) : bool :=
  bool_decide (status b = "Unpaid"
               /\ (today <= due_date b)%Z /\ (due_date b <= today + horizon)%Z).

(** A method that returns, leaves every file as it was and directs no
    write at any file. *)
Definition silent_no_op (m : M unit) (w : world) : Prop :=
  fst (m w) = Ok tt
  /\ files (snd (m w)) = files w
  /\ settings_json (snd (m w)) = settings_json w
  /\ settings_csv (snd (m w)) = settings_csv w
  /\ write_log (snd (m w)) = write_log w.


(** The amounts and the date of a row: the cells that are written and read
    back as they are, whatever [read_csv] makes of the texts beside them. *)
Definition income_cells (r : income_row) : Q * date :=
  (inc_amount r, inc_date r).
Definition essential_cells (r : essential_row) : Q * Q :=
  (ess_expected r, ess_actual r).
Definition bill_cells (r : bill_row) : Q * date :=
  (amount_due r, due_date r).
Definition non_essential_cells (r : non_essential_row) : Q * date :=
  (ne_amount r, ne_date r).
Definition savings_cells (r : savings_row) : Q * date :=
  (sav_deposit r, sav_date r).




(** The methods that take a position in a collection. *)
Inductive position_method :=
| DeleteIncome
| DeleteEssential
| DeleteBill
| DeleteNonEssential
| DeleteSavings
| ToggleBillStatus.

Definition call (m : position_method) (index : Z) : M unit :=
  match m with
  | DeleteIncome => delete_income index
  | DeleteEssential => delete_essential index
  | DeleteBill => delete_bill index
  | DeleteNonEssential => delete_non_essential index
  | DeleteSavings => delete_savings index
  | ToggleBillStatus => toggle_bill_status index
  end.

(** The length of the stored collection a method works on. *)
Definition collection_length (m : position_method) (w : world) : nat :=
  match m with
  | DeleteIncome => length (stored (income_csv (files w)))
  | DeleteEssential => length (stored (essentials_csv (files w)))
  | DeleteBill | ToggleBillStatus => length (stored (bills_csv (files w)))
  | DeleteNonEssential => length (stored (non_essentials_csv (files w)))
  | DeleteSavings => length (stored (savings_csv (files w)))
  end.

(** The listing of the bills: what [get_bills_data] returns. *)
Definition bills_listing (w : world) : list bill_row :=
  sort_by (numpy_argsort w) due_date true (stored (bills_csv (files w))).

(** *** Snapshots *)

Local Open Scope Q_scope.

(** The amounts of a snapshot that the calculator adds up are not
    negative. *)
Definition nonneg_snapshot (fs : store) : Prop :=
  Forall (fun r => 0 <= inc_amount r) (stored (income_csv fs))
  /\ Forall (fun r => 0 <= ess_actual r) (stored (essentials_csv fs))
  /\ Forall (fun r => 0 <= ne_amount r) (stored (non_essentials_csv fs))
  /\ Forall (fun r => 0 <= sav_deposit r) (stored (savings_csv fs)).

(** The totals of a snapshot, over the rows as they are stored. *)
Definition income_total (fs : store) : Q :=
  column_sum inc_amount (stored (income_csv fs)).
Definition essentials_total (fs : store) : Q :=
  column_sum ess_actual (stored (essentials_csv fs)).
Definition non_essentials_total (fs : store) : Q :=
  column_sum ne_amount (stored (non_essentials_csv fs)).
Definition savings_total (fs : store) : Q :=
  column_sum sav_deposit (stored (savings_csv fs)).

(** *** The health score, in the words of its description *)

Definition described_savings_rate (savings income : Q) : Q :=
  if Qeq_bool income 0 then 0 else savings / income * 100.

Definition described_expense_ratio (expenses income : Q) : Q :=
  if Qeq_bool income 0 then 0 else expenses / income * 100.

Definition described_variance (actual target : Q) : Q :=
  if Qeq_bool target 0 then 0 else (actual - target) / target * 100.

Definition described_savings_rate_score (savings income : Q) : Q :=
  Qmin (described_savings_rate savings income / 20 * 25) 25.

Definition described_budget_adherence_score (savings income : Q) : Q :=
  Qmax 0 (25 - Qabs (described_variance savings (0.2 * income)) / 10 * 25).

Definition described_emergency_fund_score (savings expenses : Q) : Q :=
  if Qeq_bool expenses 0 then 0 else Qmin (savings / (3 * expenses) * 25) 25.

Definition described_expense_control_score (expenses income : Q) : Q :=
  let ratio := described_expense_ratio expenses income in
  if Qle_bool ratio 80 then 25 else Qmax 0 (25 - (ratio - 80) / 20 * 25).

(** *** Trends *)

(** What was spent on day [d]. *)
Definition day_total {A} (key : A -> date) (column : A -> Q) (d : date)
    (df : list A) : Q :=
  column_sum column (List.filter (fun r => (key r =? d)%Z) df).

(** The sum a group-by holds for day [d], if it has a group for it. *)
Fixpoint find_group (d : date) (groups : list (date * Q)) : option Q :=
  match groups with
  | [] => None
  | (d', s) :: rest => if (d' =? d)%Z then Some s else find_group d rest
  end.

(** The sum of day [d] as it grows while the rows are read. *)
Definition grow_group {A} (key : A -> date) (column : A -> Q) (d : date)
    (o : option Q) (r : A) : option Q :=
  if (key r =? d)%Z
  then Some (match o with Some s => s + column r | None => column r end)
  else o.

(** The groups of a group-by come in ascending order, one per day. *)
Definition increasing_keys (groups : list (date * Q)) : Prop :=
  Sorted Z.lt (List.map fst groups).

(** A series that covers the trailing [days] days up to [today]: one entry
    per day, [days + 1] of them, in calendar order without a gap. *)
Definition covers_range (today : date) (days : Z) (series : list (date * Q))
  : Prop :=
  Z.of_nat (length series) = (days + 1)%Z
  /\ forall (i : nat) (d : date) (a : Q),
      series !! i = Some (d, a) -> d = (today - days + Z.of_nat i)%Z.

(** The non-essentials series of [get_spending_trends] covers the range. *)
Definition trend_covers_range (today : date) (days : Z) (w : world) : Prop :=
  exists t w' series,
    get_spending_trends today days w = (Ok t, w')
    /\ trend_non_essentials t = Some series
    /\ covers_range today days series.

Local Close Scope Q_scope.

(** *** Settings *)

(** A value that is a scalar, a boolean or a list of such values. *)
Fixpoint json_native (v : pyval) : bool :=
  match v with
  | PNone | PBool _ | PInt _ | PFloat _ | PStr _ => true
  | PList items => forallb json_native items
  | PTuple _ | PObject _ => false
  end.

(** *** Sample data

    Dates are ordinals: 2024-01-01 is day 738886. *)

Definition empty_store : store :=
  {| income_csv := Readable []; essentials_csv := Readable [];
     bills_csv := Readable []; non_essentials_csv := Readable [];
     savings_csv := Readable [] |}.

(** A world without settings files, in which nothing has been printed or
    written and numpy sorts stably. *)
Definition world_of (fs : store) (can_write : bool) : world :=
  {| files := fs; settings_json := None; settings_csv := None;
     writable := can_write; stdout := []; write_log := [];
     numpy_argsort := stable_argsort |}.



Definition scenario_store : store :=
  {| income_csv := Readable [IncomeRow "Salary" 1000 738886];
     essentials_csv := Readable [EssentialRow "Housing" 500 600];
     bills_csv := Readable [BillRow "A" 100 738886 "Unpaid";
                            BillRow "B" 50 738895 "Paid"];
     non_essentials_csv := Readable [NonEssentialRow "Cinema" 10 738886 "";
                                     NonEssentialRow "Dinner" 20 738888 ""];
     savings_csv := Readable [SavingsRow 150 738887] |}.


Definition unreadable_store : store :=
  {| income_csv := Corrupt; essentials_csv := Corrupt; bills_csv := Corrupt;
     non_essentials_csv := Corrupt; savings_csv := Corrupt |}.

(** A world whose settings are kept in the legacy table alone, with the
    theme "light", and a loader of that table for it, which of the rows of
    the table reads the theme alone. *)
Definition legacy_settings_world : world :=
  {| files := scenario_store; settings_json := None;
     settings_csv := Some {["theme" := CellValue (PStr "light")]};
     writable := true; stdout := []; write_log := [];
     numpy_argsort := stable_argsort |}.

Definition read_theme : M (gmap string pyval) :=
  fun w =>
    (Ok match settings_csv w with
        | Some cells =>
            match cells !! "theme" with
            | Some (CellValue theme) => <["theme" := theme]> get_default_settings
            | _ => get_default_settings
            end
        | None => get_default_settings
        end, w).

(** *** Listings and what a method does to the files *)

Definition income_listing (w : world) : list income_row :=
  sort_by (numpy_argsort w) inc_date false (stored (income_csv (files w))).

Definition non_essentials_listing (w : world) : list non_essential_row :=
  sort_by (numpy_argsort w) ne_date false (stored (non_essentials_csv (files w))).

Definition savings_listing (w : world) : list savings_row :=
  sort_by (numpy_argsort w) sav_date false (stored (savings_csv (files w))).

(** Later dates first. *)
Definition newest_first {A} (key : A -> date) (a b : A) : Prop :=
  (key b <= key a)%Z.

(** A loader that returns [l] and writes nothing. *)
Definition reads_without_writing {A} (load : M (list A)) (w : world)
    (l : list A) : Prop :=
  exists w',
    load w = (Ok l, w')
    /\ files w' = files w
    /\ settings_json w' = settings_json w
    /\ settings_csv w' = settings_csv w
    /\ write_log w' = write_log w.

(** An add that returns, writes the file [name] once, and after which the
    loader lists, in order, rows with the amounts and dates of the rows
    [before] and of one more row, those of [new]. *)
Definition adds_row {A B} (add : M unit) (load : M (list A)) (name : string)
    (cells : A -> B) (new : B) (before : list A) (in_order : list A -> Prop)
    (w : world) : Prop :=
  exists w' l,
    add w = (Ok tt, w')
    /\ write_log w' = write_log w ++ [name]
    /\ load w' = (Ok l, w')
    /\ Permutation (List.map cells l) (new :: List.map cells before)
    /\ in_order l.

(** A delete that returns, writes the file [name] once, and after which
    the loader lists, in order, rows with the amounts and dates of the rows
    of [listing] without the one at [index]. *)
Definition deletes_position {A B} (del : M unit) (load : M (list A))
    (name : string) (cells : A -> B) (index : Z) (listing : list A)
    (in_order : list A -> Prop) (w : world) : Prop :=
  exists w' l,
    del w = (Ok tt, w')
    /\ write_log w' = write_log w ++ [name]
    /\ load w' = (Ok l, w')
    /\ Permutation (List.map cells l)
         (delete (Z.to_nat index) (List.map cells listing))
    /\ in_order l.

(** A listing sorted by [sorted] that has the amounts and dates of
    [listing] without its row at [index], place for place, when no two rows
    of [listing] have the same date. *)
Definition in_place {A B} (key : A -> date) (cells : A -> B)
    (sorted : list A -> Prop) (index : Z) (listing : list A) (l : list A)
  : Prop :=
  sorted l
  /\ (NoDup (List.map key listing) ->
      List.map cells l = delete (Z.to_nat index) (List.map cells listing)).

(** A method that raises [e], attempts no write and leaves the files. *)
Definition raises_before_writing (m : M unit) (e : exn) (w : world) : Prop :=
  fst (m w) = Raise e
  /\ files (snd (m w)) = files w
  /\ write_log (snd (m w)) = write_log w.

(** *** Integrity *)

(** The rows that [validate_data_integrity] finds no issue with. *)
Definition passes_integrity (fs : store) : Prop :=
  Forall (fun r => (0 < inc_amount r)%Q /\ inc_description r <> "")
    (stored (income_csv fs))
  /\ Forall (fun r => (0 <= ess_expected r)%Q /\ (0 <= ess_actual r)%Q)
       (stored (essentials_csv fs))
  /\ Forall (fun r => (0 < amount_due r)%Q
                      /\ (status r = "Paid" \/ status r = "Unpaid"))
       (stored (bills_csv fs))
  /\ Forall (fun r => (0 < ne_amount r)%Q) (stored (non_essentials_csv fs))
  /\ Forall (fun r => (0 < sav_deposit r)%Q) (stored (savings_csv fs)).

(** *** Settings maps *)

(** A settings map all of whose values are scalars, booleans or lists of
    them. *)
Definition native_settings (m : gmap string pyval) : Prop :=
  forall k v, m !! k = Some v -> json_native v = true.

(** ** Facts about [sort_values] *)

Section SortValues.
Context {A : Type} (key : A -> Z) (ascending : bool).

Lemma insert_sorted_perm (x : A) (l : list A) :
  Permutation (insert_sorted key ascending x l) (x :: l).
Proof.
  induction l as [|y l IH]; simpl.
  - reflexivity.
  - destruct (comes_before key ascending x y).
    + reflexivity.
    + rewrite IH. apply perm_swap.
Qed.

Lemma insertion_sort_perm (l : list A) :
  Permutation (insertion_sort key ascending l) l.
Proof.
  induction l as [|x l IH]; simpl.
  - reflexivity.
  - rewrite insert_sorted_perm. now rewrite IH.
Qed.

Lemma comes_before_total (x y : A) :
  comes_before key ascending x y = false ->
  comes_before key ascending y x = true.
Proof. unfold comes_before. destruct ascending; lia. Qed.

Lemma insert_sorted_hd (x a : A) (l : list A) :
  ordered key ascending a x ->
  HdRel (ordered key ascending) a l ->
  HdRel (ordered key ascending) a (insert_sorted key ascending x l).
Proof.
  intros Hax Hl. destruct l as [|y l]; simpl.
  - now constructor.
  - destruct (comes_before key ascending x y); constructor; auto.
    now inversion Hl.
Qed.

Lemma insert_sorted_sorted (x : A) (l : list A) :
  Sorted (ordered key ascending) l ->
  Sorted (ordered key ascending) (insert_sorted key ascending x l).
Proof.
  induction l as [|y l IH]; simpl; intros Hs.
  - repeat constructor.
  - destruct (comes_before key ascending x y) eqn:E.
    + constructor; [assumption | now constructor].
    + apply Sorted_inv in Hs as [Hs Hhd].
      constructor; [now apply IH |].
      apply insert_sorted_hd; [| assumption].
      now apply comes_before_total.
Qed.

Lemma insertion_sort_sorted (l : list A) :
  Sorted (ordered key ascending) (insertion_sort key ascending l).
Proof.
  induction l as [|x l IH]; simpl.
  - constructor.
  - now apply insert_sorted_sorted.
Qed.

(** Being in order depends on the keys alone. *)
Lemma sorted_same_keys (l1 l2 : list A) :
  List.map key l1 = List.map key l2 ->
  Sorted (ordered key ascending) l1 -> Sorted (ordered key ascending) l2.
Proof.
  revert l2. induction l1 as [|x l1 IH]; intros [|y l2] Hk Hs;
    simpl in Hk; try discriminate; [constructor |].
  injection Hk as Hxy Hk.
  apply Sorted_inv in Hs as [Hs Hhd].
  constructor; [now apply IH |].
  destruct l1 as [|x' l1], l2 as [|y' l2]; simpl in Hk; try discriminate;
    constructor.
  injection Hk as Hxy' _. inversion Hhd as [|? ? Hrel]; subst.
  unfold ordered, comes_before in *. now rewrite <- Hxy, <- Hxy'.
Qed.

Lemma in_order_sorted (l : list A) :
  in_order ascending (List.map key l) = true <-> Sorted (ordered key ascending) l.
Proof.
  induction l as [|x l IH]; [split; [constructor | reflexivity] |].
  destruct l as [|y l].
  - split; [repeat constructor | reflexivity].
  - change (in_order ascending (List.map key (x :: y :: l)))
      with (comes_before key ascending x y
            && in_order ascending (List.map key (y :: l))).
    rewrite andb_true_iff, IH. split.
    + intros [Hxy Hs]. constructor; [assumption | now constructor].
    + intros Hs. apply Sorted_inv in Hs as [Hs Hhd]. now inversion Hhd.
Qed.

Lemma ordered_trans (a b c : A) :
  ordered key ascending a b -> ordered key ascending b c ->
  ordered key ascending a c.
Proof. unfold ordered, comes_before. destruct ascending; lia. Qed.

Lemma ordered_same_key (a b : A) :
  ordered key ascending a b -> ordered key ascending b a -> key a = key b.
Proof. unfold ordered, comes_before. destruct ascending; lia. Qed.

(** Two tables in order that hold the same rows have the same key column:
    they differ at most in the order of rows with equal keys. *)
Lemma sorted_perm_same_keys (l1 l2 : list A) :
  Sorted (ordered key ascending) l1 -> Sorted (ordered key ascending) l2 ->
  Permutation l1 l2 -> List.map key l1 = List.map key l2.
Proof.
  revert l2. induction l1 as [|x l1 IH]; intros l2 Hs1 Hs2 Hp.
  { apply Permutation_nil in Hp. now subst. }
  destruct l2 as [|y l2]; [symmetry in Hp; now apply Permutation_nil_cons in Hp |].
  assert (Hx : List.Forall (ordered key ascending x) l1).
  { apply Sorted_StronglySorted in Hs1; [| intros a b c; apply ordered_trans].
    now inversion Hs1. }
  assert (Hy : List.Forall (ordered key ascending y) l2).
  { apply Sorted_StronglySorted in Hs2; [| intros a b c; apply ordered_trans].
    now inversion Hs2. }
  rewrite List.Forall_forall in Hx, Hy.
  assert (Hxin : In x (y :: l2))
    by (apply (Permutation_in _ Hp); now left).
  assert (Hk : key x = key y).
  { assert (Hyin : In y (x :: l1))
      by (apply (Permutation_in _ (Permutation_sym Hp)); now left).
    destruct Hyin as [-> | Hyin]; [reflexivity |].
    destruct Hxin as [-> | Hxin]; [reflexivity |].
    apply ordered_same_key; auto. }
  apply Sorted_inv in Hs1 as [Hs1 _]. apply Sorted_inv in Hs2 as [Hs2 _].
  simpl. f_equal; [exact Hk |].
  destruct Hxin as [-> | Hxin].
  { apply IH; try assumption. now apply Permutation_cons_inv in Hp. }
  apply in_split in Hxin as (l2a & l2b & ->).
  assert (Hkeys : List.map key (l2a ++ y :: l2b) = List.map key (l2a ++ x :: l2b))
    by (rewrite !List.map_app; simpl; now rewrite Hk).
  rewrite <- Hkeys. apply IH; [assumption | |].
  - apply (sorted_same_keys (l2a ++ x :: l2b)); [now symmetry | assumption].
  - apply (Permutation_cons_inv (a := x)). rewrite Hp.
    rewrite <- !Permutation_middle. apply perm_swap.
Qed.

Lemma map_lookup (l : list A) (i : nat) :
  List.map key l !! i = key <$> l !! i.
Proof. apply (list_lookup_fmap key l i). Qed.

(** A row whose key no other row has is at the same position in every
    table in order that holds the same rows. *)
Lemma sorted_perm_position (l1 l2 : list A) (i : nat) (r : A) :
  Sorted (ordered key ascending) l1 -> Sorted (ordered key ascending) l2 ->
  Permutation l1 l2 ->
  l1 !! i = Some r ->
  (forall k r', l1 !! k = Some r' -> key r' = key r -> k = i) ->
  l2 !! i = Some r.
Proof.
  intros Hs1 Hs2 Hp Hr Hunique.
  assert (Hkeys := sorted_perm_same_keys l1 l2 Hs1 Hs2 Hp).
  assert (Hlen : length l2 = length l1)
    by (symmetry; now apply Permutation_length).
  destruct (lookup_lt_is_Some_2 l2 i) as [r2 Hr2].
  { rewrite Hlen. eapply lookup_lt_Some; eassumption. }
  assert (Hk2 : key r2 = key r).
  { assert (H1 : List.map key l1 !! i = Some (key r))
      by (rewrite map_lookup, Hr; reflexivity).
    assert (H2 : List.map key l2 !! i = Some (key r2))
      by (rewrite map_lookup, Hr2; reflexivity).
    rewrite Hkeys in H1. congruence. }
  assert (Hin : r2 ∈ l1).
  { rewrite Hp. eapply list_elem_of_lookup_2; eassumption. }
  apply list_elem_of_lookup_1 in Hin as [k Hk].
  rewrite (Hunique k r2 Hk Hk2) in Hk. congruence.
Qed.

(** Tables in order that hold the same rows are equal when no two rows
    have the same key. *)
Lemma sorted_perm_unique (l1 l2 : list A) :
  Sorted (ordered key ascending) l1 -> Sorted (ordered key ascending) l2 ->
  Permutation l1 l2 -> NoDup (List.map key l1) -> l2 = l1.
Proof.
  intros Hs1 Hs2 Hp Hnd. apply list_eq. intros i.
  destruct (l1 !! i) as [r|] eqn:Hr.
  - apply (sorted_perm_position l1 l2 i r); try assumption.
    intros k r' Hk Hd.
    apply (NoDup_lookup (List.map key l1) k i (key r)); [assumption | |].
    + rewrite map_lookup, Hk. cbn. congruence.
    + rewrite map_lookup, Hr. reflexivity.
  - apply lookup_ge_None. apply lookup_ge_None in Hr.
    now rewrite <- (Permutation_length Hp).
Qed.
End SortValues.

(** *** Taking rows by position *)

Lemma iloc_cons {A} (df : list A) (i : nat) (positions : list nat) :
  iloc df (i :: positions)
  = match df !! i with
    | Some r => r :: iloc df positions
    | None => iloc df positions
    end.
Proof. reflexivity. Qed.

Lemma iloc_seq_app {A} (l1 l2 : list A) :
  iloc (l1 ++ l2) (seq (length l1) (length l2)) = l2.
Proof.
  revert l1. induction l2 as [|x l2 IH]; intros l1; [reflexivity |].
  cbn [length seq]. rewrite iloc_cons, list_lookup_middle by reflexivity.
  f_equal.
  replace (l1 ++ x :: l2) with ((l1 ++ [x]) ++ l2) by now rewrite <- app_assoc.
  replace (S (length l1)) with (length (l1 ++ [x]))
    by (rewrite length_app; simpl; lia).
  apply IH.
Qed.

Lemma iloc_seq {A} (df : list A) : iloc df (seq 0 (length df)) = df.
Proof. apply (iloc_seq_app [] df). Qed.

Lemma iloc_perm {A} (df : list A) (order : list nat) :
  Permutation order (seq 0 (length df)) -> Permutation (iloc df order) df.
Proof.
  intros Hp. rewrite <- (iloc_seq df) at 2. unfold iloc.
  now apply omap_Permutation.
Qed.

Lemma iloc_map {A} (key : A -> Z) (df : list A) (order : list nat) :
  List.map key (iloc df order) = iloc (List.map key df) order.
Proof.
  induction order as [|i order IH]; [reflexivity |].
  rewrite !iloc_cons, map_lookup.
  destruct (df !! i); simpl; [f_equal |]; exact IH.
Qed.

Lemma stable_argsort_sorts (ascending : bool) (keys : list Z) :
  is_argsort ascending keys (stable_argsort ascending keys) = true.
Proof.
  unfold is_argsort, stable_argsort.
  set (pairs := zip (seq 0 (length keys)) keys).
  set (sorted := insertion_sort snd ascending pairs).
  assert (Hp : Permutation sorted pairs) by apply insertion_sort_perm.
  apply andb_true_iff. split.
  - apply bool_decide_eq_true. rewrite Hp. unfold pairs.
    rewrite fst_zip; [reflexivity |]. now rewrite length_seq.
  - assert (Hall : List.Forall (fun p => keys !! fst p = Some (snd p)) sorted).
    { apply (Permutation_Forall (Permutation_sym Hp)).
      apply List.Forall_forall. intros [i k] Hin.
      apply list_elem_of_In, list_elem_of_lookup_1 in Hin as [j Hj].
      unfold pairs in Hj. apply lookup_zip_with_Some in Hj.
      destruct Hj as (i' & k' & [= <- <-] & Hi & Hk).
      apply lookup_seq in Hi as [-> _]. exact Hk. }
    assert (Hkeys : iloc keys (fst <$> sorted) = List.map snd sorted).
    { clear -Hall. induction Hall as [|p l Hp _ IH]; [reflexivity |].
      rewrite fmap_cons, iloc_cons, Hp. simpl. now f_equal. }
    rewrite Hkeys. apply in_order_sorted, insertion_sort_sorted.
Qed.

(** *** The table that [sort_values] returns *)

Section SortBy.
Context (numpy : argsort) {A : Type} (key : A -> Z) (ascending : bool).

(** The order the rows are taken in is an [argsort] of the key column. *)
Lemma sort_by_argsort (df : list A) :
  exists order,
    sort_by numpy key ascending df = iloc df order
    /\ is_argsort ascending (List.map key df) order = true.
Proof.
  unfold sort_by. cbv zeta.
  destruct (is_argsort ascending (List.map key df)
              (numpy ascending (List.map key df))) eqn:E.
  - eexists. split; [reflexivity | exact E].
  - eexists. split; [reflexivity | apply stable_argsort_sorts].
Qed.

Lemma sort_values_perm (l : list A) :
  Permutation (sort_by numpy key ascending l) l.
Proof.
  destruct (sort_by_argsort l) as (order & -> & Hsorts).
  apply andb_true_iff in Hsorts as [Hp _]. apply bool_decide_eq_true in Hp.
  apply iloc_perm. now rewrite length_map in Hp.
Qed.

Lemma sort_values_length (l : list A) :
  length (sort_by numpy key ascending l) = length l.
Proof. apply Permutation_length, sort_values_perm. Qed.

Lemma sort_values_sorted (l : list A) :
  Sorted (ordered key ascending) (sort_by numpy key ascending l).
Proof.
  destruct (sort_by_argsort l) as (order & -> & Hsorts).
  apply andb_true_iff in Hsorts as [_ Hs].
  apply in_order_sorted. now rewrite iloc_map.
Qed.

Lemma sort_values_empty (l : list A) :
  empty (sort_by numpy key ascending l) = empty l.
Proof.
  pose proof (sort_values_length l) as Hlen.
  destruct l, (sort_by numpy key ascending _); simpl in *; congruence.
Qed.

(** A table that is in order already is listed with the same key column;
    rows with equal keys may have changed places. *)
Lemma sort_values_sorted_keys (l : list A) :
  Sorted (ordered key ascending) l ->
  List.map key (sort_by numpy key ascending l) = List.map key l.
Proof.
  intros Hs. apply sorted_perm_same_keys with (ascending := ascending);
    [apply sort_values_sorted | assumption | apply sort_values_perm].
Qed.
End SortBy.

Lemma sorted_by_due_date (l : list bill_row) :
  Sorted (ordered due_date true) l <-> Sorted by_due_date l.
Proof.
  assert (Hrel : forall a b, ordered due_date true a b <-> by_due_date a b).
  { intros a b. unfold ordered, comes_before, by_due_date. lia. }
  split; intros Hs; induction Hs as [|a l Hs IH Hhd]; constructor; auto;
    destruct Hhd; constructor; now apply Hrel.
Qed.

Lemma filter_perm {A} (f : A -> bool) (l1 l2 : list A) :
  Permutation l1 l2 -> Permutation (List.filter f l1) (List.filter f l2).
Proof.
  induction 1 as [|x l1 l2 _ IH|x y l|l1 l2 l3 _ IH1 _ IH2]; simpl.
  - reflexivity.
  - destruct (f x); [now constructor | assumption].
  - destruct (f x), (f y); try reflexivity. apply perm_swap.
  - now transitivity (List.filter f l2).
Qed.

(** ** The loaders *)

Lemma sort_by_nil (numpy : argsort) {A} (key : A -> Z) (ascending : bool) :
  sort_by numpy key ascending [] = [].
Proof. apply nil_length_inv. now rewrite sort_values_length. Qed.

Lemma sort_or_keep {A} (key : A -> Z) (ascending : bool) (df : list A)
    (w : world) :
  (if empty df then ret df else sort_values key ascending df) w
  = (Ok (sort_by (numpy_argsort w) key ascending df), w).
Proof. destruct df; [now rewrite sort_by_nil | reflexivity]. Qed.

Ltac unfold_loader :=
  cbv [get_income_data get_essentials_data get_bills_data
       get_non_essentials_data get_savings_data try_except bind read_csv].

Lemma get_income_data_eq (w : world) :
  get_income_data w =
  match income_csv (files w) with
  | Readable rows => (Ok (sort_by (numpy_argsort w) inc_date false rows), w)
  | Corrupt => (Ok [], snd (print "Error loading income data" w))
  end.
Proof.
  unfold_loader. destruct (income_csv (files w)); [| reflexivity].
  now rewrite sort_or_keep.
Qed.

Lemma get_essentials_data_eq (w : world) :
  get_essentials_data w =
  match essentials_csv (files w) with
  | Readable rows => (Ok rows, w)
  | Corrupt => (Ok [], snd (print "Error loading essentials data" w))
  end.
Proof. unfold_loader. now destruct (essentials_csv (files w)). Qed.

Lemma get_bills_data_eq (w : world) :
  get_bills_data w =
  match bills_csv (files w) with
  | Readable rows => (Ok (sort_by (numpy_argsort w) due_date true rows), w)
  | Corrupt => (Ok [], snd (print "Error loading bills data" w))
  end.
Proof.
  unfold_loader. destruct (bills_csv (files w)); [| reflexivity].
  now rewrite sort_or_keep.
Qed.

Lemma get_non_essentials_data_eq (w : world) :
  get_non_essentials_data w =
  match non_essentials_csv (files w) with
  | Readable rows => (Ok (sort_by (numpy_argsort w) ne_date false rows), w)
  | Corrupt => (Ok [], snd (print "Error loading non-essentials data" w))
  end.
Proof.
  unfold_loader. destruct (non_essentials_csv (files w)); [| reflexivity].
  now rewrite sort_or_keep.
Qed.

Lemma get_savings_data_eq (w : world) :
  get_savings_data w =
  match savings_csv (files w) with
  | Readable rows => (Ok (sort_by (numpy_argsort w) sav_date false rows), w)
  | Corrupt => (Ok [], snd (print "Error loading savings data" w))
  end.
Proof.
  unfold_loader. destruct (savings_csv (files w)); [| reflexivity].
  now rewrite sort_or_keep.
Qed.

(** The guard [0 <= index < len(df)] of the methods that take a position. *)
Lemma guard_out_of_range (index : Z) (n : nat) :
  (index < 0 \/ Z.of_nat n <= index)%Z ->
  (0 <=? index)%Z && (index <? Z.of_nat n)%Z = false.
Proof. intros [H | H]; apply andb_false_iff; lia. Qed.

Lemma guard_in_range (index : Z) (n : nat) :
  (0 <= index < Z.of_nat n)%Z ->
  (0 <=? index)%Z && (index <? Z.of_nat n)%Z = true.
Proof. intros H. apply andb_true_iff. lia. Qed.

(** ** Positions out of range *)

Ltac unfold_position_method :=
  cbv [call delete_income delete_essential delete_bill delete_non_essential
       delete_savings toggle_bill_status collection_length silent_no_op
       try_except bind].

(** C7. For every stored collection and every position outside
    [0, length), the delete methods and the status toggle return without an
    error, direct no write at any file and leave every file as it was. *)
Theorem out_of_range_position_is_ignored
    (m : position_method) (index : Z) (w : world) :
  (index < 0 \/ Z.of_nat (collection_length m w) <= index)%Z ->
  silent_no_op (call m index) w.
Proof.
  destruct m; unfold_position_method; intros Hout.
  - rewrite get_income_data_eq.
    destruct (income_csv (files w)) as [rows|]; simpl in *;
      rewrite ?sort_values_length, guard_out_of_range by assumption;
      now cbv.
  - rewrite get_essentials_data_eq.
    destruct (essentials_csv (files w)) as [rows|]; simpl in *;
      rewrite guard_out_of_range by assumption; now cbv.
  - rewrite get_bills_data_eq.
    destruct (bills_csv (files w)) as [rows|]; simpl in *;
      rewrite ?sort_values_length, guard_out_of_range by assumption;
      now cbv.
  - rewrite get_non_essentials_data_eq.
    destruct (non_essentials_csv (files w)) as [rows|]; simpl in *;
      rewrite ?sort_values_length, guard_out_of_range by assumption;
      now cbv.
  - rewrite get_savings_data_eq.
    destruct (savings_csv (files w)) as [rows|]; simpl in *;
      rewrite ?sort_values_length, guard_out_of_range by assumption;
      now cbv.
  - rewrite get_bills_data_eq.
    destruct (bills_csv (files w)) as [rows|]; simpl in *;
      rewrite ?sort_values_length, guard_out_of_range by assumption;
      now cbv.
Qed.

(** ** Failures of reading and of writing *)










(** ** Overdue and upcoming bills *)

Lemma selected_bills (f : bill_row -> bool) (bills : list bill_row) (w : world) :
  (if empty bills then ret []
   else sort_values due_date true (List.filter f bills)) w
  = (Ok (sort_by (numpy_argsort w) due_date true (List.filter f bills)), w).
Proof. destruct bills; [cbn; now rewrite sort_by_nil | reflexivity]. Qed.

Lemma selected_bills_perm (numpy : argsort) (f g : bill_row -> bool)
    (rows : list bill_row) :
  (forall b, f b = g b) ->
  Permutation
    (sort_by numpy due_date true
       (List.filter f (sort_by numpy due_date true rows)))
    (List.filter g rows).
Proof.
  intros Hfg. rewrite sort_values_perm.
  rewrite (filter_ext f g Hfg).
  apply filter_perm, sort_values_perm.
Qed.

Lemma overdue_test (today : date) (b : bill_row) :
  String.eqb (status b) "Unpaid" && (due_date b <? today)%Z = is_overdue today b.
Proof.
  unfold is_overdue.
  destruct (String.eqb_spec (status b) "Unpaid"), (Z.ltb_spec (due_date b) today);
    simpl; case_bool_decide; try reflexivity; exfalso;
    first [ tauto | lia ].
Qed.

Lemma upcoming_test (today : date) (days : Z) (b : bill_row) :
  String.eqb (status b) "Unpaid" && (today <=? due_date b)%Z
  && (due_date b <=? today + days)%Z = is_upcoming today days b.
Proof.
  unfold is_upcoming.
  destruct (String.eqb_spec (status b) "Unpaid"),
    (Z.leb_spec today (due_date b)), (Z.leb_spec (due_date b) (today + days));
    simpl; case_bool_decide; try reflexivity; exfalso;
    first [ tauto | lia ].
Qed.

(** The scenario of the description: A is unpaid and due on 2024-01-01,
    B is paid and due on 2024-01-10, today is 2024-01-05. *)
Example overdue_and_upcoming_scenario :
  fst (get_overdue_bills 738890 (world_of scenario_store true))
  = Ok [BillRow "A" 100 738886 "Unpaid"]
  /\ fst (get_upcoming_bills 738890 7 (world_of scenario_store true)) = Ok [].
Proof. split; vm_compute; reflexivity. Qed.

(** C6. The overdue bills are exactly the stored bills that are unpaid and
    due strictly before today, and the upcoming bills exactly those unpaid
    and due from today to today plus the horizon, each in ascending order of
    due date; no bill is in both. *)
Theorem overdue_and_upcoming_bills (today : date) (horizon : Z) (w : world) :
  exists overdue upcoming w1 w2,
    get_overdue_bills today w = (Ok overdue, w1)
    /\ get_upcoming_bills today horizon w = (Ok upcoming, w2)
    /\ Permutation overdue
         (List.filter (is_overdue today) (stored (bills_csv (files w))))
    /\ Sorted by_due_date overdue
    /\ Permutation upcoming
         (List.filter (is_upcoming today horizon) (stored (bills_csv (files w))))
    /\ Sorted by_due_date upcoming
    /\ (forall b, In b overdue -> In b upcoming -> False).
Proof.
  unfold get_overdue_bills, get_upcoming_bills, bind.
  rewrite get_bills_data_eq.
  destruct (bills_csv (files w)) as [rows|]; cbn [stored].
  - rewrite !selected_bills.
    do 4 eexists. split; [reflexivity |]. split; [reflexivity |].
    assert (Hover := selected_bills_perm (numpy_argsort w) _ _ rows
                       (overdue_test today)).
    assert (Hup := selected_bills_perm (numpy_argsort w) _ _ rows
                     (upcoming_test today horizon)).
    repeat split.
    + exact Hover.
    + apply sorted_by_due_date, sort_values_sorted.
    + exact Hup.
    + apply sorted_by_due_date, sort_values_sorted.
    + intros b Hb1 Hb2.
      apply (Permutation_in _ Hover), filter_In in Hb1 as [_ Hb1].
      apply (Permutation_in _ Hup), filter_In in Hb2 as [_ Hb2].
      unfold is_overdue in Hb1. unfold is_upcoming in Hb2.
      apply bool_decide_eq_true in Hb1, Hb2. lia.
  - cbn. do 4 eexists. repeat split; try reflexivity; try constructor.
    intros b [].
Qed.

(** ** Toggling the status of a bill *)


(** One toggle on a readable, writable bills file: the file now holds the
    listing with the status of the row at the position replaced. *)
Lemma toggle_bill_status_once (index : Z) (w : world) (rows : list bill_row)
    (r : bill_row) :
  bills_csv (files w) = Readable rows ->
  writable w = true ->
  (0 <= index)%Z ->
  sort_by (numpy_argsort w) due_date true rows !! Z.to_nat index = Some r ->
  exists w',
    toggle_bill_status index w = (Ok tt, w')
    /\ files w' =
       put_bills
         (Readable
            (<[Z.to_nat index :=
                 set_status (if String.eqb (status r) "Unpaid"
                             then "Paid" else "Unpaid") r]>
               (sort_by (numpy_argsort w) due_date true rows)))
         (files w)
    /\ writable w' = true
    /\ numpy_argsort w' = numpy_argsort w.
Proof.
  intros Hfile Hw Hpos Hr.
  unfold toggle_bill_status, try_except, bind.
  rewrite get_bills_data_eq, Hfile.
  assert (Hlt : (Z.to_nat index
                 < length (sort_by (numpy_argsort w) due_date true rows))%nat)
    by (eapply lookup_lt_Some; eassumption).
  rewrite guard_in_range by lia.
  rewrite Hr.
  destruct w as [fs sj sc wr out wl np]; cbn in Hw; subst wr.
  cbn. eexists. repeat split.
Qed.




Lemma out_of_range_position_is_ignored_witness :
  (Z.of_nat (collection_length ToggleBillStatus (world_of scenario_store true))
   <= 2)%Z
  /\ silent_no_op (call ToggleBillStatus 2) (world_of scenario_store true).
Proof.
  split; [vm_compute; discriminate |].
  apply (out_of_range_position_is_ignored ToggleBillStatus 2
           (world_of scenario_store true)).
  right. vm_compute. discriminate.
Defined.


(** ** Sums of a column *)

Local Open Scope Q_scope.

Lemma fold_left_Qplus_acc (l : list Q) (a : Q) :
  fold_left Qplus l a == a + fold_left Qplus l 0.
Proof.
  revert a. induction l as [|x l IH]; intros a; simpl.
  - lra.
  - rewrite (IH (a + x)), (IH (0 + x)). lra.
Qed.

Lemma column_sum_cons {A} (column : A -> Q) (x : A) (df : list A) :
  column_sum column (x :: df) == column x + column_sum column df.
Proof.
  unfold column_sum. simpl. rewrite fold_left_Qplus_acc. lra.
Qed.

Lemma column_sum_perm {A} (column : A -> Q) (df1 df2 : list A) :
  Permutation df1 df2 -> column_sum column df1 == column_sum column df2.
Proof.
  induction 1 as [|x l1 l2 _ IH|x y l|l1 l2 l3 _ IH1 _ IH2].
  - reflexivity.
  - rewrite !column_sum_cons, IH. reflexivity.
  - rewrite !column_sum_cons. lra.
  - now rewrite IH1.
Qed.

Lemma column_sum_nonneg {A} (column : A -> Q) (df : list A) :
  Forall (fun r => 0 <= column r) df -> 0 <= column_sum column df.
Proof.
  induction 1 as [|x l Hx _ IH].
  - unfold column_sum. simpl. lra.
  - rewrite column_sum_cons. lra.
Qed.

Lemma column_sum_sorted (numpy : argsort) {A} (column : A -> Q) (key : A -> Z)
    (asc : bool) (df : list A) :
  column_sum column (sort_by numpy key asc df) == column_sum column df.
Proof. apply column_sum_perm, sort_values_perm. Qed.

(** [df[column].sum() if not df.empty else 0] *)
Lemma sum_or_zero {A} (column : A -> Q) (df : list A) :
  (if negb (empty df) then column_sum column df else 0) = column_sum column df.
Proof. now destruct df. Qed.

(** ** The loaders return and leave the files alone *)

Lemma get_income_data_run (w : world) :
  exists w',
    get_income_data w
    = (Ok (sort_by (numpy_argsort w) inc_date false (stored (income_csv (files w)))), w')
    /\ files w' = files w
    /\ numpy_argsort w' = numpy_argsort w.
Proof.
  rewrite get_income_data_eq.
  destruct (income_csv (files w)); cbn [stored]; rewrite ?sort_by_nil; eauto.
Qed.

Lemma get_essentials_data_run (w : world) :
  exists w',
    get_essentials_data w = (Ok (stored (essentials_csv (files w))), w')
    /\ files w' = files w
    /\ numpy_argsort w' = numpy_argsort w.
Proof.
  rewrite get_essentials_data_eq. destruct (essentials_csv (files w)); eauto.
Qed.

Lemma get_bills_data_run (w : world) :
  exists w',
    get_bills_data w = (Ok (bills_listing w), w')
    /\ files w' = files w
    /\ numpy_argsort w' = numpy_argsort w.
Proof.
  unfold bills_listing. rewrite get_bills_data_eq.
  destruct (bills_csv (files w)); cbn [stored]; rewrite ?sort_by_nil; eauto.
Qed.

Lemma get_non_essentials_data_run (w : world) :
  exists w',
    get_non_essentials_data w
    = (Ok (sort_by (numpy_argsort w) ne_date false (stored (non_essentials_csv (files w)))), w')
    /\ files w' = files w
    /\ numpy_argsort w' = numpy_argsort w.
Proof.
  rewrite get_non_essentials_data_eq.
  destruct (non_essentials_csv (files w)); cbn [stored]; rewrite ?sort_by_nil;
    eauto.
Qed.

Lemma get_savings_data_run (w : world) :
  exists w',
    get_savings_data w
    = (Ok (sort_by (numpy_argsort w) sav_date false (stored (savings_csv (files w)))), w')
    /\ files w' = files w
    /\ numpy_argsort w' = numpy_argsort w.
Proof.
  rewrite get_savings_data_eq.
  destruct (savings_csv (files w)); cbn [stored]; rewrite ?sort_by_nil; eauto.
Qed.

(** ** Allocations *)

Lemma calculate_budget_allocations_run (w : world) :
  exists w',
    calculate_budget_allocations w
    = (Ok (let total :=
             column_sum inc_amount
               (sort_by (numpy_argsort w) inc_date false (stored (income_csv (files w)))) in
           {| total_income := total;
              essentials_target := total * 0.5;
              non_essentials_target := total * 0.3;
              savings_target := total * 0.2 |}), w')
    /\ files w' = files w
    /\ numpy_argsort w' = numpy_argsort w.
Proof.
  destruct (get_income_data_run w) as (w' & Hrun & Hfiles).
  exists w'. split; [| assumption].
  unfold calculate_budget_allocations, bind. rewrite Hrun.
  now rewrite sum_or_zero.
Qed.

(** C5. The three targets are 0.5, 0.3 and 0.2 times the total income,
    the total income is the sum of the stored income amounts, and the
    targets add up to the total income. *)
Theorem allocations_follow_50_30_20 (w : world) :
  exists a w',
    calculate_budget_allocations w = (Ok a, w')
    /\ total_income a == income_total (files w)
    /\ essentials_target a = total_income a * 0.5
    /\ non_essentials_target a = total_income a * 0.3
    /\ savings_target a = total_income a * 0.2
    /\ essentials_target a + non_essentials_target a + savings_target a
       == total_income a.
Proof.
  destruct (calculate_budget_allocations_run w) as (w' & Hrun & _).
  eexists _, w'. split; [exact Hrun |]. cbn.
  repeat split.
  - apply column_sum_sorted.
  - lra.
Qed.

(** ** Guarded divisions *)

Lemma Qgtb_true (a b : Q) : Qgtb a b = true <-> b < a.
Proof.
  unfold Qgtb. rewrite negb_true_iff, <- not_true_iff_false, Qle_bool_iff.
  split; [apply Qnot_le_lt | apply Qlt_not_le].
Qed.

Lemma Qgtb_false (a b : Q) : Qgtb a b = false <-> a <= b.
Proof. unfold Qgtb. now rewrite negb_false_iff, Qle_bool_iff. Qed.

Lemma pydiv_run (a d : Q) (w : world) :
  ~ d == 0 -> pydiv a d w = (Ok (a / d), w).
Proof.
  intros Hd. unfold pydiv.
  destruct (Qeq_bool d 0) eqn:E; [| reflexivity].
  now apply Qeq_bool_iff in E.
Qed.

(** [f(a / d) if g > 0 else z], where [g > 0] keeps [d] from being zero,
    returns and raises nothing. *)
Lemma guarded_pydiv {B} (a g d : Q) (f : Q -> B) (z : B) (w : world) :
  (0 < g -> ~ d == 0) ->
  (if Qgtb g 0 then (do r <- pydiv a d; ret (f r)) else ret z) w
  = (Ok (if Qgtb g 0 then f (a / d) else z), w).
Proof.
  intros Hd. destruct (Qgtb g 0) eqn:E; [| reflexivity].
  apply Qgtb_true in E. unfold bind. now rewrite pydiv_run by auto.
Qed.

Lemma positive_not_zero (g : Q) : 0 < g -> ~ g == 0.
Proof. intros Hg Hz. rewrite Hz in Hg. now apply Qlt_irrefl in Hg. Qed.

Lemma percentage_of_income_run (a total : Q) (w : world) :
  percentage_of_income a total w
  = (Ok (if Qgtb total 0 then a / total * 100 else 0), w).
Proof.
  unfold percentage_of_income.
  apply (guarded_pydiv a total total (fun r => r * 100)), positive_not_zero.
Qed.

Lemma variance_of_run (a t : Q) (w : world) :
  variance_of a t w = (Ok (if Qgtb t 0 then (a - t) / t * 100 else 0), w).
Proof.
  unfold variance_of.
  apply (guarded_pydiv (a - t) t t (fun r => r * 100)), positive_not_zero.
Qed.

(** ** The budget summary *)

Lemma calculate_actual_spending_run (w : world) :
  exists w',
    calculate_actual_spending w
    = (Ok {| essentials_actual :=
               column_sum ess_actual (stored (essentials_csv (files w)));
             non_essentials_actual :=
               column_sum ne_amount
                 (sort_by (numpy_argsort w) ne_date false (stored (non_essentials_csv (files w))));
             savings_actual :=
               column_sum sav_deposit
                 (sort_by (numpy_argsort w) sav_date false (stored (savings_csv (files w)))) |},
       w')
    /\ files w' = files w
    /\ numpy_argsort w' = numpy_argsort w.
Proof.
  destruct (get_essentials_data_run w) as (w1 & Hrun1 & Hfiles1 & Hnp1).
  destruct (get_non_essentials_data_run w1) as (w2 & Hrun2 & Hfiles2 & Hnp2).
  destruct (get_savings_data_run w2) as (w3 & Hrun3 & Hfiles3 & Hnp3).
  exists w3. split; [| split; congruence].
  unfold calculate_actual_spending, bind.
  rewrite Hrun1, Hrun2, Hrun3, !sum_or_zero.
  rewrite Hfiles2, Hfiles1, Hnp2, Hnp1. reflexivity.
Qed.

Lemma sort_values_nil_stored (numpy : argsort) {A} (key : A -> Z) (asc : bool)
    (f : csv_file A) :
  stored f = [] -> sort_by numpy key asc (stored f) = [].
Proof. intros ->. apply sort_by_nil. Qed.

(** C3. The budget summary always returns, so no division by zero is
    raised; when the total income is 0, as it is when there are no income
    entries, every target and every percentage of income is 0; and the
    actual of a category whose collection is empty is 0. *)
Theorem budget_summary_without_income (w : world) :
  exists s w',
    get_budget_summary w = (Ok s, w')
    /\ (summary_total_income s == 0 ->
        target (essentials s) == 0
        /\ target (non_essentials s) == 0
        /\ target (savings s) == 0
        /\ percentage (essentials s) = 0
        /\ percentage (non_essentials s) = 0
        /\ percentage (savings s) = 0)
    /\ (stored (income_csv (files w)) = [] -> summary_total_income s = 0)
    /\ (stored (essentials_csv (files w)) = [] -> actual (essentials s) = 0)
    /\ (stored (non_essentials_csv (files w)) = [] ->
        actual (non_essentials s) = 0)
    /\ (stored (savings_csv (files w)) = [] -> actual (savings s) = 0).
Proof.
  destruct (calculate_budget_allocations_run w) as (w1 & Hrun1 & Hfiles1 & Hnp1).
  destruct (calculate_actual_spending_run w1) as (w2 & Hrun2 & Hfiles2 & Hnp2).
  eexists _, w2. split.
  { unfold get_budget_summary, bind.
    rewrite Hrun1, Hrun2, !percentage_of_income_run. reflexivity. }
  cbn. rewrite Hfiles1.
  set (total := column_sum inc_amount _).
  split; [intros Hzero
         | subst total; repeat split; intros Hnil;
           rewrite Hnil, ?sort_by_nil; reflexivity].
  assert (Hgt : Qgtb total 0 = false) by (apply Qgtb_false; lra).
  rewrite Hgt. repeat split; lra.
Qed.

(** ** Variance *)

Example format_1f_examples :
  format_1f 20 = "20.0"%string
  /\ format_1f (1 # 4) = "0.2"%string
  /\ format_1f (7 # 20) = "0.4"%string
  /\ format_1f (1999 # 100) = "20.0"%string
  /\ format_1f 0 = "0.0"%string.
Proof. repeat split; vm_compute; reflexivity. Qed.

(** C4. The variance is [(actual - target) / target * 100] when the
    target is positive and 0 when the target is 0; a positive variance is
    labelled "Over" and a negative one "Under"; with an income of 1000 and
    600 spent on essentials, the target is 500, the difference 100, the
    variance 20 and the label "Over by 20.0%". *)
Theorem variance_formula_and_label (spent goal : Q) (w : world) :
  (exists v,
      variance_of spent goal w = (Ok v, w)
      /\ (0 < goal -> v == (spent - goal) / goal * 100)
      /\ (goal == 0 -> v = 0)
      /\ (0 < v ->
          variance_text v = ("Over by " +:+ format_1f (Qabs v) +:+ "%")%string)
      /\ (v < 0 ->
          variance_text v = ("Under by " +:+ format_1f (Qabs v) +:+ "%")%string))
  /\ (exists s a v w1 w2,
         get_budget_summary (world_of scenario_store true) = (Ok s, w1)
         /\ summary_total_income s == 1000
         /\ actual (essentials s) == 600
         /\ target (essentials s) == 500
         /\ difference (essentials s) == 100
         /\ variance_of (actual (essentials s)) (target (essentials s)) w
            = (Ok v, w)
         /\ v == 20
         /\ variance_text v = "Over by 20.0%"%string
         /\ show_analytics (world_of scenario_store true) = (Ok a, w2)
         /\ head (adherence_labels a) = Some "Over by 20.0%"%string).
Proof.
  split.
  - eexists. split; [apply variance_of_run |].
    repeat split.
    + intros Ht. apply Qgtb_true in Ht. rewrite Ht. reflexivity.
    + intros Ht. assert (Hf : Qgtb goal 0 = false)
        by (apply Qgtb_false; lra).
      now rewrite Hf.
    + intros Hv. apply Qgtb_true in Hv. unfold variance_text.
      now rewrite Hv.
    + intros Hv. assert (Hf : Qgtb (if Qgtb goal 0
                                    then (spent - goal) / goal * 100
                                    else 0) 0 = false)
        by (apply Qgtb_false; lra).
      unfold variance_text. now rewrite Hf.
  - eexists _, _, _, _, _.
    split; [vm_compute; reflexivity |].
    split; [vm_compute; reflexivity |].
    split; [vm_compute; reflexivity |].
    split; [vm_compute; reflexivity |].
    split; [vm_compute; reflexivity |].
    split; [apply variance_of_run |].
    split; [vm_compute; reflexivity |].
    split; [vm_compute; reflexivity |].
    split; [vm_compute; reflexivity |].
    vm_compute; reflexivity.
Qed.

(** ** The health score *)

Lemma guard_agrees {B} (g : Q) (x z : B) :
  0 <= g -> (if Qgtb g 0 then x else z) = (if Qeq_bool g 0 then z else x).
Proof.
  intros Hg.
  destruct (Qgtb g 0) eqn:E1, (Qeq_bool g 0) eqn:E2; try reflexivity.
  - apply Qgtb_true in E1. apply Qeq_bool_iff in E2. lra.
  - apply Qgtb_false in E1. apply Qeq_bool_neq in E2.
    exfalso. apply E2. lra.
Qed.

Lemma ratio_nonneg (a b : Q) :
  0 <= a -> 0 <= b -> 0 <= (if Qeq_bool b 0 then 0 else a / b * 100).
Proof.
  intros Ha Hb. destruct (Qeq_bool b 0) eqn:E; [lra |].
  apply Qeq_bool_neq in E.
  assert (Hpos : 0 < b) by (apply Qle_lteq in Hb as [Hb | Hb]; [assumption |];
                            exfalso; apply E; lra).
  assert (0 <= a / b) by (apply Qle_shift_div_l; lra).
  lra.
Qed.

Lemma capped_score_bounds (x : Q) : 0 <= x -> 0 <= Qmin x 25 <= 25.
Proof.
  intros Hx. destruct (Q.min_spec x 25) as [[H E] | [H E]]; rewrite E; lra.
Qed.

Lemma floored_score_bounds (x : Q) : 0 <= x -> 0 <= Qmax 0 (25 - x) <= 25.
Proof.
  intros Hx. destruct (Q.max_spec 0 (25 - x)) as [[H E] | [H E]]; rewrite E; lra.
Qed.

Lemma savings_rate_score_bounds (s i : Q) :
  0 <= s -> 0 <= i -> 0 <= described_savings_rate_score s i <= 25.
Proof.
  intros Hs Hi. unfold described_savings_rate_score, described_savings_rate.
  apply capped_score_bounds.
  pose proof (ratio_nonneg s i Hs Hi) as Hr.
  unfold Qdiv at 1. cbn [Qinv Qnum Qden]. lra.
Qed.

Lemma budget_adherence_score_bounds (s i : Q) :
  0 <= described_budget_adherence_score s i <= 25.
Proof.
  unfold described_budget_adherence_score.
  apply floored_score_bounds.
  pose proof (Qabs_nonneg (described_variance s (0.2 * i))) as Ha.
  unfold Qdiv. cbn [Qinv Qnum Qden]. lra.
Qed.

Lemma emergency_fund_score_bounds (s x : Q) :
  0 <= s -> 0 <= x -> 0 <= described_emergency_fund_score s x <= 25.
Proof.
  intros Hs Hx. unfold described_emergency_fund_score.
  destruct (Qeq_bool x 0) eqn:E; [lra |].
  apply capped_score_bounds. apply Qeq_bool_neq in E.
  assert (Hpos : 0 < 3 * x).
  { apply Qle_lteq in Hx as [Hx | Hx]; [lra | exfalso; apply E; lra]. }
  assert (0 <= s / (3 * x)) by (apply Qle_shift_div_l; lra).
  lra.
Qed.

Lemma expense_control_score_bounds (x i : Q) :
  0 <= described_expense_control_score x i <= 25.
Proof.
  unfold described_expense_control_score.
  destruct (Qle_bool (described_expense_ratio x i) 80) eqn:E; [lra |].
  assert (Hgt : 80 < described_expense_ratio x i).
  { apply Qnot_le_lt. intros Hle. apply Qle_bool_iff in Hle. congruence. }
  apply floored_score_bounds.
  unfold Qdiv. cbn [Qinv Qnum Qden]. lra.
Qed.

Lemma variance_agrees (s i : Q) :
  0 <= i ->
  (if Qgtb (i * 0.2) 0 then (s - i * 0.2) / (i * 0.2) * 100 else 0)
  == described_variance s (0.2 * i).
Proof.
  intros Hi. rewrite guard_agrees by lra. unfold described_variance.
  assert (Hc : i * 0.2 == 0.2 * i) by lra.
  destruct (Qeq_bool (i * 0.2) 0) eqn:E1, (Qeq_bool (0.2 * i) 0) eqn:E2.
  - reflexivity.
  - apply Qeq_bool_iff in E1. apply Qeq_bool_neq in E2.
    exfalso. apply E2. lra.
  - apply Qeq_bool_neq in E1. apply Qeq_bool_iff in E2.
    exfalso. apply E1. lra.
  - now rewrite Hc.
Qed.

Lemma emergency_agrees (s x : Q) :
  0 <= x ->
  (if Qgtb x 0 then Qmin (s / (x * 3) * 25) 25 else 0)
  == described_emergency_fund_score s x.
Proof.
  intros Hx. rewrite guard_agrees by assumption.
  unfold described_emergency_fund_score.
  destruct (Qeq_bool x 0); [reflexivity |].
  assert (Hc : x * 3 == 3 * x) by lra.
  now rewrite Hc.
Qed.

Lemma expense_control_agrees (r : Q) :
  (if Qgtb r 80 then Qmax 0 (25 - (r - 80) / 20 * 25) else 25)
  = (if Qle_bool r 80 then 25 else Qmax 0 (25 - (r - 80) / 20 * 25)).
Proof. unfold Qgtb. now destruct (Qle_bool r 80). Qed.

Lemma bind_ok {A B} (m : M A) (k : A -> M B) (w w' : world) (a : A) :
  m w = (Ok a, w') -> (do x <- m; k x) w = k a w'.
Proof. intros Hm. unfold bind. now rewrite Hm. Qed.

Lemma progress_value_run (a t : Q) (w : world) :
  (if Qgtb t 0 then pydiv a t else ret 0) w
  = (Ok (if Qgtb t 0 then a / t else 0), w).
Proof.
  destruct (Qgtb t 0) eqn:E; [| reflexivity].
  apply Qgtb_true in E. apply pydiv_run. now apply positive_not_zero.
Qed.

Lemma bind_run {A B} (m : M A) (k : A -> M B) (w w1 : world) (a : A)
    (r : result B * world) :
  m w = (Ok a, w1) -> k a w1 = r -> (do x <- m; k x) w = r.
Proof. intros Hm Hk. unfold bind. now rewrite Hm. Qed.

Ltac run_method :=
  lazymatch goal with
  | |- bind _ _ _ = _ => eapply bind_run; [run_method | cbv beta; run_method]
  | |- ret _ _ = _ => reflexivity
  | |- variance_of _ _ _ = _ => apply variance_of_run
  | |- (if Qgtb _ 0 then pydiv _ _ else ret 0) _ = _ => apply progress_value_run
  end.

(** The loop over the three categories leaves the variance of the last
    one, savings against its target, in [variance]. *)
Lemma categories_loop_run (c1 c2 c3 : string) (e te n tn s ts : Q) (w : world) :
  for_each [(c1, e, te); (c2, n, tn); (c3, s, ts)]
    (fun '(category, actual, target) st =>
       do progress_value <-
         (if Qgtb target 0 then pydiv actual target else ret 0);
       do variance <- variance_of actual target;
       ret {| labels := labels st ++ [variance_text variance];
              variance := variance |})
    {| labels := []; variance := 0 |} w
  = (Ok {| labels :=
             [variance_text (if Qgtb te 0 then (e - te) / te * 100 else 0);
              variance_text (if Qgtb tn 0 then (n - tn) / tn * 100 else 0);
              variance_text (if Qgtb ts 0 then (s - ts) / ts * 100 else 0)];
           variance := if Qgtb ts 0 then (s - ts) / ts * 100 else 0 |}, w).
Proof.
  cbn [for_each]. run_method.
Qed.

(** C2. On a snapshot whose amounts are not negative, a total income of 0
    included, the analytics return; the four components of the health score
    are the described savings-rate, budget-adherence (on the variance of
    savings against its target), emergency-fund and expense-control scores;
    the score is their sum; each component lies in [0, 25] and the score in
    [0, 100]. *)
Theorem health_score_components_and_bounds (w : world) :
  nonneg_snapshot (files w) ->
  exists a w' income expenses savings,
    show_analytics w = (Ok a, w')
    /\ income == income_total (files w)
    /\ expenses == essentials_total (files w) + non_essentials_total (files w)
    /\ savings == savings_total (files w)
    /\ savings_rate_score (components a)
       == described_savings_rate_score savings income
    /\ budget_adherence_score (components a)
       == described_budget_adherence_score savings income
    /\ emergency_fund_score (components a)
       == described_emergency_fund_score savings expenses
    /\ expense_control_score (components a)
       == described_expense_control_score expenses income
    /\ total_score a
       == savings_rate_score (components a)
          + budget_adherence_score (components a)
          + emergency_fund_score (components a)
          + expense_control_score (components a)
    /\ 0 <= savings_rate_score (components a) <= 25
    /\ 0 <= budget_adherence_score (components a) <= 25
    /\ 0 <= emergency_fund_score (components a) <= 25
    /\ 0 <= expense_control_score (components a) <= 25
    /\ 0 <= total_score a <= 100.
Proof.
  intros (Hinc & Hess & Hne & Hsav).
  destruct (get_income_data_run w) as (w1 & Hrun1 & Hfiles1 & Hnp1).
  destruct (get_essentials_data_run w1) as (w2 & Hrun2 & Hfiles2 & Hnp2).
  destruct (get_bills_data_run w2) as (w3 & Hrun3 & Hfiles3 & Hnp3).
  destruct (get_non_essentials_data_run w3) as (w4 & Hrun4 & Hfiles4 & Hnp4).
  destruct (get_savings_data_run w4) as (w5 & Hrun5 & Hfiles5 & Hnp5).
  rewrite Hfiles4, Hfiles3, Hfiles2, Hfiles1 in Hrun5.
  rewrite Hfiles3, Hfiles2, Hfiles1 in Hrun4.
  rewrite Hfiles1 in Hrun2.
  unfold show_analytics.
  erewrite bind_ok by exact Hrun1.
  erewrite bind_ok by exact Hrun2.
  erewrite bind_ok by exact Hrun3.
  erewrite bind_ok by exact Hrun4.
  erewrite bind_ok by exact Hrun5.
  rewrite !sum_or_zero.
  set (I := column_sum inc_amount _).
  set (E := column_sum ess_actual _).
  set (N := column_sum ne_amount _).
  set (S := column_sum sav_deposit _).
  cbv zeta.
  erewrite bind_ok by apply (guarded_pydiv S I I (fun r => r * 100)), positive_not_zero.
  erewrite bind_ok by apply (guarded_pydiv (E + N) I I (fun r => r * 100)), positive_not_zero.
  erewrite bind_ok by apply categories_loop_run.
  cbn [variance labels].
  erewrite bind_ok
    by (apply (guarded_pydiv S (E + N) ((E + N) * 3) (fun r => Qmin (r * 25) 25));
        intros Hpos Hz; lra).
  assert (HI : I == income_total (files w)) by apply column_sum_sorted.
  assert (HN : N == non_essentials_total (files w)) by apply column_sum_sorted.
  assert (HS : S == savings_total (files w)) by apply column_sum_sorted.
  assert (HI0 : 0 <= I) by (rewrite HI; now apply column_sum_nonneg).
  assert (HE0 : 0 <= E) by now apply column_sum_nonneg.
  assert (HN0 : 0 <= N) by (rewrite HN; now apply column_sum_nonneg).
  assert (HS0 : 0 <= S) by (rewrite HS; now apply column_sum_nonneg).
  assert (HX0 : 0 <= E + N) by lra.
  eexists _, w5, I, (E + N), S.
  split; [reflexivity |].
  cbn [components total_score savings_rate_score budget_adherence_score
       emergency_fund_score expense_control_score].
  assert (H1 : Qmin ((if Qgtb I 0 then S / I * 100 else 0) / 20 * 25) 25
               == described_savings_rate_score S I).
  { rewrite guard_agrees by assumption. reflexivity. }
  assert (H2 : Qmax 0
                 (25 - Qabs (if Qgtb (I * 0.2) 0
                             then (S - I * 0.2) / (I * 0.2) * 100 else 0)
                       / 10 * 25)
               == described_budget_adherence_score S I).
  { rewrite variance_agrees by assumption. reflexivity. }
  assert (H3 : (if Qgtb (E + N) 0 then Qmin (S / ((E + N) * 3) * 25) 25 else 0)
               == described_emergency_fund_score S (E + N))
    by now apply emergency_agrees.
  assert (H4 : (if Qgtb (if Qgtb I 0 then (E + N) / I * 100 else 0) 80
                then Qmax 0 (25 - ((if Qgtb I 0 then (E + N) / I * 100 else 0)
                                   - 80) / 20 * 25)
                else 25)
               == described_expense_control_score (E + N) I).
  { rewrite expense_control_agrees, guard_agrees by assumption. reflexivity. }
  pose proof (savings_rate_score_bounds S I HS0 HI0) as B1.
  pose proof (budget_adherence_score_bounds S I) as B2.
  pose proof (emergency_fund_score_bounds S (E + N) HS0 HX0) as B3.
  pose proof (expense_control_score_bounds (E + N) I) as B4.
  rewrite H1, H2, H3, H4.
  repeat split; try assumption; try reflexivity; try lra.
  unfold E, essentials_total. rewrite HN. reflexivity.
Qed.

Lemma health_score_components_and_bounds_witness :
  nonneg_snapshot scenario_store
  /\ exists a w',
      show_analytics (world_of scenario_store true) = (Ok a, w')
      /\ 0 <= total_score a <= 100.
Proof.
  assert (Hnn : nonneg_snapshot scenario_store).
  { unfold nonneg_snapshot, scenario_store. cbn.
    repeat split; repeat constructor; cbn; unfold Qle; cbn; lia. }
  split; [exact Hnn |].
  destruct (health_score_components_and_bounds (world_of scenario_store true) Hnn)
    as (a & w' & income & expenses & savings & Hrun & Hrest).
  exists a, w'. split; [exact Hrun |].
  apply Hrest.
Defined.

(** ** Group-by sums *)

Local Open Scope Z_scope.

Lemma increasing_keys_hd (d : date) (s : Q) (rest : list (date * Q)) (d' : date) :
  increasing_keys ((d, s) :: rest) -> d' <= d -> find_group d' rest = None.
Proof.
  unfold increasing_keys. cbn [List.map fst]. intros Hs Hle.
  apply Sorted_StronglySorted in Hs; [| intros x y z; lia].
  apply StronglySorted_inv in Hs as [_ Hall].
  induction rest as [|[d2 s2] rest IH]; [reflexivity |].
  cbn [List.map fst] in Hall. apply Forall_cons in Hall as [Hlt Hall].
  cbn [find_group]. destruct (Z.eqb_spec d2 d'); [lia |]. now apply IH.
Qed.

Lemma group_add_increasing (d : date) (a : Q) (groups : list (date * Q)) :
  increasing_keys groups -> increasing_keys (group_add d a groups).
Proof.
  unfold increasing_keys.
  induction groups as [|[d' s] rest IH]; intros Hs; cbn [group_add].
  - repeat constructor.
  - destruct (Z.ltb_spec d d'); [| destruct (Z.eqb_spec d d')].
    + cbn [List.map fst]. constructor; [assumption | now constructor].
    + exact Hs.
    + cbn [List.map fst] in *. apply Sorted_inv in Hs as [Hs Hhd].
      constructor; [now apply IH |].
      destruct rest as [|[d2 s2] rest]; cbn [group_add List.map fst].
      * constructor. lia.
      * destruct (Z.ltb_spec d d2); [| destruct (Z.eqb_spec d d2)];
          cbn [List.map fst]; constructor; try lia;
          now inversion Hhd.
Qed.

Lemma find_group_add (d d' : date) (a : Q) (groups : list (date * Q)) :
  increasing_keys groups ->
  find_group d' (group_add d a groups)
  = if d =? d'
    then Some (match find_group d groups with
               | Some s => (s + a)%Q
               | None => a
               end)
    else find_group d' groups.
Proof.
  induction groups as [|[d2 s] rest IH]; intros Hs; cbn [group_add find_group].
  - reflexivity.
  - assert (Hrest : increasing_keys rest).
    { unfold increasing_keys in *. cbn [List.map] in Hs.
      now apply Sorted_inv in Hs. }
    destruct (Z.ltb_spec d d2); [| destruct (Z.eqb_spec d d2) as [-> | Hne]].
    + cbn [find_group].
      destruct (Z.eqb_spec d2 d); [lia |].
      rewrite (increasing_keys_hd d2 s rest d Hs) by lia.
      reflexivity.
    + cbn [find_group]. rewrite Z.eqb_refl.
      destruct (Z.eqb_spec d2 d'); reflexivity.
    + cbn [find_group]. destruct (Z.eqb_spec d2 d); [lia |].
      rewrite (IH Hrest).
      destruct (Z.eqb_spec d2 d'); [| reflexivity].
      destruct (Z.eqb_spec d d'); [lia | reflexivity].
Qed.

Section GroupBy.
Context {A : Type} (key : A -> date) (column : A -> Q).

Lemma groupby_fold_increasing (df : list A) (groups : list (date * Q)) :
  increasing_keys groups ->
  increasing_keys
    (fold_left (fun g r => group_add (key r) (column r) g) df groups).
Proof.
  revert groups. induction df as [|r df IH]; intros groups Hs; cbn; auto.
  apply IH. now apply group_add_increasing.
Qed.

Lemma groupby_sum_increasing (df : list A) :
  increasing_keys (groupby_sum key column df).
Proof. apply groupby_fold_increasing. constructor. Qed.

Lemma groupby_fold_find (d : date) (df : list A) (groups : list (date * Q)) :
  increasing_keys groups ->
  find_group d (fold_left (fun g r => group_add (key r) (column r) g) df groups)
  = fold_left (grow_group key column d) df (find_group d groups).
Proof.
  revert groups. induction df as [|r df IH]; intros groups Hs; cbn [fold_left].
  - reflexivity.
  - rewrite IH by now apply group_add_increasing.
    f_equal. rewrite find_group_add by assumption.
    unfold grow_group. destruct (Z.eqb_spec (key r) d) as [-> | _]; reflexivity.
Qed.

Lemma grow_group_some (d : date) (df : list A) (s : Q) :
  exists t,
    fold_left (grow_group key column d) df (Some s) = Some t
    /\ (t == s + day_total key column d df)%Q.
Proof.
  revert s. induction df as [|r df IH]; intros s; cbn [fold_left].
  - exists s. split; [reflexivity |]. unfold day_total, column_sum. cbn. lra.
  - unfold grow_group at 2, day_total. cbn [List.filter].
    destruct (Z.eqb_spec (key r) d) as [Hk | Hk].
    + destruct (IH (s + column r)%Q) as (t & Ht & Hsum).
      exists t. split; [exact Ht |].
      rewrite Hsum, column_sum_cons. unfold day_total. lra.
    + apply IH.
Qed.

Lemma grow_group_none (d : date) (df : list A) :
  match fold_left (grow_group key column d) df None with
  | Some t => (t == day_total key column d df)%Q /\ exists r, In r df /\ key r = d
  | None => forall r, In r df -> key r <> d
  end.
Proof.
  induction df as [|r df IH]; cbn [fold_left].
  - intros r [].
  - unfold grow_group at 2.
    destruct (Z.eqb_spec (key r) d) as [Hk | Hk].
    + destruct (grow_group_some d df (column r)) as (t & Ht & Hsum).
      rewrite Ht. split.
      * rewrite Hsum. unfold day_total. cbn [List.filter].
        destruct (Z.eqb_spec (key r) d); [| contradiction].
        now rewrite column_sum_cons.
      * exists r. split; [now left | assumption].
    + destruct (fold_left (grow_group key column d) df None) as [t|].
      * destruct IH as (Hsum & r' & Hin & Hd). split.
        -- rewrite Hsum. unfold day_total. cbn [List.filter].
           destruct (Z.eqb_spec (key r) d); [contradiction | reflexivity].
        -- exists r'. split; [now right | assumption].
      * intros r' [<- | Hin]; [assumption | now apply IH].
Qed.

(** What a group-by holds for a day: the sum of the rows of that day, or
    nothing when the day has no row. *)
Lemma find_group_groupby_sum (d : date) (df : list A) :
  match find_group d (groupby_sum key column df) with
  | Some t => (t == day_total key column d df)%Q /\ exists r, In r df /\ key r = d
  | None => forall r, In r df -> key r <> d
  end.
Proof.
  unfold groupby_sum. rewrite groupby_fold_find by constructor.
  apply grow_group_none.
Qed.
End GroupBy.

Lemma find_group_in (d : date) (a : Q) (groups : list (date * Q)) :
  increasing_keys groups ->
  In (d, a) groups <-> find_group d groups = Some a.
Proof.
  induction groups as [|[d' s] rest IH]; intros Hs; cbn [find_group In].
  - split; [intros [] | discriminate].
  - assert (Hrest : increasing_keys rest).
    { unfold increasing_keys in *. cbn [List.map] in Hs.
      now apply Sorted_inv in Hs. }
    destruct (Z.eqb_spec d' d) as [-> | Hne].
    + split.
      * intros [Heq | Hin]; [congruence |].
        apply (IH Hrest) in Hin.
        rewrite (increasing_keys_hd d s rest d Hs) in Hin by lia.
        discriminate.
      * intros [= ->]. now left.
    + rewrite <- (IH Hrest). split; [| tauto].
      intros [Heq | Hin]; [congruence | assumption].
Qed.

Lemma filter_key_find (d : date) (groups : list (date * Q)) :
  increasing_keys groups ->
  List.filter (fun g => fst g =? d) groups
  = match find_group d groups with
    | Some s => [(d, s)]
    | None => []
    end.
Proof.
  induction groups as [|[d' s] rest IH]; intros Hs; cbn [find_group List.filter fst].
  - reflexivity.
  - assert (Hrest : increasing_keys rest).
    { unfold increasing_keys in *. cbn [List.map] in Hs.
      now apply Sorted_inv in Hs. }
    rewrite (IH Hrest).
    destruct (Z.eqb_spec d' d) as [-> | Hne]; [| reflexivity].
    now rewrite (increasing_keys_hd d s rest d Hs) by lia.
Qed.

(** Against a right table with one row per day, a left merge keeps one row
    per left row. *)
Lemma merge_left_fillna0 (left : list date) (right : list (date * Q)) :
  increasing_keys right ->
  fillna0 (merge_left left right)
  = List.map (fun d => (d, match find_group d right with
                           | Some a => a
                           | None => 0%Q
                           end)) left.
Proof.
  intros Hs. unfold fillna0, merge_left.
  induction left as [|d left IH]; [reflexivity |].
  assert (Hcons : forall f : date -> list (date * option Q),
             flat_map f (d :: left) = f d ++ flat_map f left) by reflexivity.
  rewrite Hcons, List.map_app.
  transitivity
    ([(d, match find_group d right with Some a => a | None => 0%Q end)]
     ++ List.map (fun d => (d, match find_group d right with
                               | Some a => a
                               | None => 0%Q
                               end)) left); [| reflexivity].
  f_equal; [| exact IH].
  rewrite (filter_key_find d right Hs).
  now destruct (find_group d right).
Qed.

Lemma date_range_length (start_date end_date : date) :
  length (date_range start_date end_date)
  = Z.to_nat (end_date - start_date + 1).
Proof. unfold date_range. now rewrite length_map, length_seq. Qed.

Lemma date_range_lookup (start_date end_date : date) (i : nat) (d : date) :
  date_range start_date end_date !! i = Some d -> d = start_date + Z.of_nat i.
Proof.
  unfold date_range.
  change (List.map ?f ?l) with (f <$> l).
  rewrite list_lookup_fmap. intros Hd.
  destruct (seq 0 _ !! i) as [n|] eqn:Hn; [| discriminate].
  apply lookup_seq in Hn as [-> _]. cbn in Hd. now injection Hd as <-.
Qed.

Lemma filter_filter {A} (f g : A -> bool) (l : list A) :
  List.filter f (List.filter g l) = List.filter (fun x => f x && g x) l.
Proof.
  induction l as [|x l IH]; cbn; [reflexivity |].
  destruct (g x); cbn; rewrite ?IH, ?andb_true_r, ?andb_false_r;
    [destruct (f x) |]; reflexivity.
Qed.

(** Within the window, the rows of a day are the same before and after
    the window is cut out. *)
Lemma day_total_in_window {A} (key : A -> date) (column : A -> Q)
    (start_date end_date d : date) (df : list A) :
  in_window start_date end_date d = true ->
  day_total key column d
    (List.filter (fun r => in_window start_date end_date (key r)) df)
  = day_total key column d df.
Proof.
  intros Hw. unfold day_total. rewrite filter_filter. f_equal.
  apply filter_ext. intros r.
  destruct (Z.eqb_spec (key r) d) as [-> | _]; [now rewrite Hw | reflexivity].
Qed.

Lemma day_total_perm {A} (key : A -> date) (column : A -> Q) (d : date)
    (df1 df2 : list A) :
  Permutation df1 df2 ->
  (day_total key column d df1 == day_total key column d df2)%Q.
Proof. intros Hp. unfold day_total. now apply column_sum_perm, filter_perm. Qed.

(** ** The trend series *)

Lemma no_row_day_total {A} (key : A -> date) (column : A -> Q) (d : date)
    (df : list A) :
  (forall r, In r df -> key r <> d) -> day_total key column d df = 0%Q.
Proof.
  intros Hno. unfold day_total.
  replace (List.filter (fun r => key r =? d) df) with (@nil A); [reflexivity |].
  symmetry. induction df as [|r df IH]; cbn; [reflexivity |].
  destruct (Z.eqb_spec (key r) d) as [Hk | _].
  - exfalso. apply (Hno r); [now left | assumption].
  - apply IH. intros r' Hin. apply Hno. now right.
Qed.

Lemma in_window_bounds (start_date end_date d : date) :
  in_window start_date end_date d = true <-> start_date <= d <= end_date.
Proof. unfold in_window. rewrite andb_true_iff. lia. Qed.

(** The series of the chart: one entry for every day of the window, with
    what was spent that day. *)
Lemma chart_series (today : date) (days : Z) (data : list non_essential_row) :
  0 <= days ->
  let start_date := today - days in
  let complete :=
    fillna0
      (merge_left (date_range start_date today)
         (groupby_sum ne_date ne_amount
            (List.filter (fun r => in_window start_date today (ne_date r)) data))) in
  covers_range today days complete
  /\ forall (i : nat) (d : date) (a : Q),
      complete !! i = Some (d, a) ->
      (a == day_total ne_date ne_amount d data)%Q
      /\ ((forall r, In r data -> ne_date r <> d) -> a = 0%Q).
Proof.
  intros Hdays start_date complete. subst complete.
  rewrite merge_left_fillna0 by apply groupby_sum_increasing.
  set (recent := List.filter _ data).
  assert (Hlookup : forall (i : nat) (d : date) (a : Q),
             List.map (fun d => (d, match find_group d (groupby_sum ne_date ne_amount recent) with
                                    | Some a => a
                                    | None => 0%Q
                                    end)) (date_range start_date today) !! i
             = Some (d, a) ->
             d = start_date + Z.of_nat i
             /\ (Z.of_nat i <= days)
             /\ a = match find_group d (groupby_sum ne_date ne_amount recent) with
                    | Some a => a
                    | None => 0%Q
                    end).
  { intros i d a. change (List.map ?f ?l) with (f <$> l).
    rewrite list_lookup_fmap. intros Hl.
    destruct (date_range start_date today !! i) as [d0|] eqn:Hd0; [| discriminate].
    cbn in Hl. injection Hl as <- <-.
    pose proof (lookup_lt_Some _ _ _ Hd0) as Hlt.
    rewrite date_range_length in Hlt.
    apply date_range_lookup in Hd0. subst start_date. repeat split; lia. }
  split.
  - split.
    + rewrite length_map, date_range_length. subst start_date. lia.
    + intros i d a Hl. now apply Hlookup in Hl as (-> & _ & _).
  - intros i d a Hl. apply Hlookup in Hl as (Hd & Hi & ->).
    assert (Hwin : in_window start_date today d = true).
    { apply in_window_bounds. subst start_date. lia. }
    pose proof (find_group_groupby_sum ne_date ne_amount d recent) as Hfind.
    destruct (find_group d (groupby_sum ne_date ne_amount recent)) as [t|].
    + destruct Hfind as (Hsum & r & Hin & Hr). split.
      * rewrite Hsum. unfold recent. now rewrite day_total_in_window.
      * intros Hno. exfalso. apply filter_In in Hin as [Hin _].
        now apply (Hno r).
    + assert (Hno : forall r, In r data -> ne_date r <> d).
      { intros r Hin Hr. apply (Hfind r); [| assumption].
        apply filter_In. split; [assumption |]. now rewrite Hr. }
      split; [| reflexivity].
      now rewrite no_row_day_total.
Qed.

(** What [get_spending_trends] returns for non-essentials: nothing when
    the collection is empty, otherwise one entry for every day of the window
    that has a row, in ascending order, with the sum of that day. *)
Lemma get_spending_trends_non_essentials (today : date) (days : Z) (w : world) :
  exists t w',
    get_spending_trends today days w = (Ok t, w')
    /\ let rows := stored (non_essentials_csv (files w)) in
       match trend_non_essentials t with
       | None => rows = []
       | Some series =>
           rows <> []
           /\ increasing_keys series
           /\ (forall d a, In (d, a) series ->
                 in_window (today - days) today d = true
                 /\ (exists r, In r rows /\ ne_date r = d)
                 /\ (a == day_total ne_date ne_amount d rows)%Q)
           /\ (forall r, In r rows ->
                 in_window (today - days) today (ne_date r) = true ->
                 exists a, In (ne_date r, a) series)
       end.
Proof.
  destruct (get_non_essentials_data_run w) as (w1 & Hrun1 & Hfiles1 & Hnp1).
  destruct (get_income_data_run w1) as (w2 & Hrun2 & Hfiles2 & Hnp2).
  destruct (get_savings_data_run w2) as (w3 & Hrun3 & Hfiles3 & Hnp3).
  unfold get_spending_trends. cbv zeta.
  erewrite bind_ok by exact Hrun1.
  erewrite bind_ok by exact Hrun2.
  erewrite bind_ok by exact Hrun3.
  eexists _, w3. split; [reflexivity |].
  cbn [trend_non_essentials].
  set (rows := stored (non_essentials_csv (files w))).
  set (sorted := sort_by (numpy_argsort w) ne_date false rows).
  assert (Hperm : Permutation sorted rows) by apply sort_values_perm.
  rewrite (sort_values_empty (numpy_argsort w) ne_date false rows
           : empty sorted = empty rows).
  destruct (empty rows) eqn:Hempty; cbn [negb].
  { now destruct rows. }
  set (recent := List.filter _ sorted).
  assert (Hinc : increasing_keys (groupby_sum ne_date ne_amount recent))
    by apply groupby_sum_increasing.
  split; [intros Hnil; now rewrite Hnil in Hempty |].
  split; [exact Hinc |].
  split; [intros d a H; repeat split |].
  - apply (find_group_in _ _ _ Hinc) in H.
    pose proof (find_group_groupby_sum ne_date ne_amount d recent) as Hfind.
    rewrite H in Hfind. destruct Hfind as (_ & r & Hin & Hr).
    apply filter_In in Hin as [_ Hwin]. now rewrite Hr in Hwin.
  - apply (find_group_in _ _ _ Hinc) in H.
    pose proof (find_group_groupby_sum ne_date ne_amount d recent) as Hfind.
    rewrite H in Hfind. destruct Hfind as (_ & r & Hin & Hr).
    apply filter_In in Hin as [Hin _].
    exists r. split; [| assumption]. now apply (Permutation_in _ Hperm).
  - apply (find_group_in _ _ _ Hinc) in H.
    pose proof (find_group_groupby_sum ne_date ne_amount d recent) as Hfind.
    rewrite H in Hfind. destruct Hfind as (Hsum & r & Hin & Hr).
    apply filter_In in Hin as [_ Hwin]. rewrite Hr in Hwin.
    rewrite Hsum. unfold recent. rewrite day_total_in_window by assumption.
    now apply day_total_perm.
  - intros r Hin Hwin.
    pose proof (find_group_groupby_sum ne_date ne_amount (ne_date r) recent)
      as Hfind.
    destruct (find_group (ne_date r) (groupby_sum ne_date ne_amount recent))
      as [a|] eqn:Hf.
    + exists a. now apply (find_group_in _ _ _ Hinc).
    + exfalso. apply (Hfind r); [| reflexivity].
      apply filter_In. split; [| assumption].
      apply (Permutation_in _ (Permutation_sym Hperm)), Hin.
Qed.

(** C1 fails on [get_spending_trends]: with entries on two days of a
    window of six, its series has two entries, so it does not cover the
    range. *)
Lemma get_spending_trends_omits_empty_days :
  ~ trend_covers_range 738890 5 (world_of scenario_store true).
Proof.
  intros (t & w' & series & Hrun & Hseries & Hlen & _).
  vm_compute in Hrun. injection Hrun as <- _.
  cbn in Hseries. injection Hseries as <-.
  cbn in Hlen. discriminate.
Qed.

(** C1, as the code has it. Whenever an entry falls in the window, the
    series that [create_spending_trend_chart] plots covers the complete
    range of the trailing days: [days + 1] entries, one per day without a
    gap, each with the sum of its day, which is 0 for a day without
    entries. [get_spending_trends] itself groups by day: its series has one
    entry, in ascending order, for every day of the window that has an
    entry, and no key at all when the collection is empty. *)
Theorem trend_is_dense_in_the_chart (today : date) (days : Z) (w : world)
    (data : list non_essential_row) :
  (exists r, In r data /\ in_window (today - days) today (ne_date r) = true) ->
  (exists complete avg,
      create_spending_trend_chart today data days = SpendingTrend complete avg
      /\ covers_range today days complete
      /\ forall (i : nat) (d : date) (a : Q),
          complete !! i = Some (d, a) ->
          (a == day_total ne_date ne_amount d data)%Q
          /\ ((forall r, In r data -> ne_date r <> d) -> a = 0%Q))
  /\ (exists t w',
         get_spending_trends today days w = (Ok t, w')
         /\ let rows := stored (non_essentials_csv (files w)) in
            match trend_non_essentials t with
            | None => rows = []
            | Some series =>
                rows <> []
                /\ increasing_keys series
                /\ (forall d a, In (d, a) series ->
                      in_window (today - days) today d = true
                      /\ (exists r, In r rows /\ ne_date r = d)
                      /\ (a == day_total ne_date ne_amount d rows)%Q)
                /\ (forall r, In r rows ->
                      in_window (today - days) today (ne_date r) = true ->
                      exists a, In (ne_date r, a) series)
            end).
Proof.
  intros (r & Hin & Hwin).
  split; [| apply get_spending_trends_non_essentials].
  assert (Hdays : 0 <= days) by (apply in_window_bounds in Hwin; lia).
  assert (He1 : empty data = false) by (destruct data; [destruct Hin | reflexivity]).
  assert (He2 : empty (List.filter
                         (fun r => in_window (today - days) today (ne_date r))
                         data) = false).
  { assert (Hr : In r (List.filter
                         (fun r => in_window (today - days) today (ne_date r))
                         data))
      by (apply filter_In; split; assumption).
    destruct (List.filter _ data); [destruct Hr | reflexivity]. }
  unfold create_spending_trend_chart. cbv zeta. rewrite He1, He2.
  eexists _, _. split; [reflexivity |].
  apply (chart_series today days data Hdays).
Qed.

Lemma trend_is_dense_in_the_chart_witness :
  (exists r,
      In r (stored (non_essentials_csv scenario_store))
      /\ in_window (738890 - 5) 738890 (ne_date r) = true)
  /\ exists complete avg,
      create_spending_trend_chart 738890
        (stored (non_essentials_csv scenario_store)) 5
      = SpendingTrend complete avg
      /\ covers_range 738890 5 complete.
Proof.
  assert (Hin : exists r,
             In r (stored (non_essentials_csv scenario_store))
             /\ in_window (738890 - 5) 738890 (ne_date r) = true).
  { exists (NonEssentialRow "Cinema" 10 738886 ""). split; [now left | reflexivity]. }
  split; [exact Hin |].
  destruct (trend_is_dense_in_the_chart 738890 5 (world_of scenario_store true)
              (stored (non_essentials_csv scenario_store)) Hin)
    as [(complete & avg & Hrun & Hcover & _) _].
  exists complete, avg. split; assumption.
Defined.

(** The scenario of the description: entries of 10 and 20 on the first and
    third day of a window; the plotted series has an entry for every day,
    with 0 on the days without entries. *)
Example chart_series_scenario :
  exists avg,
    create_spending_trend_chart 738890
      (stored (non_essentials_csv scenario_store)) 4
    = SpendingTrend
        [(738886, 10%Q); (738887, 0%Q); (738888, 20%Q); (738889, 0%Q);
         (738890, 0%Q)] avg.
Proof. eexists. vm_compute. reflexivity. Qed.

(** ** The settings file *)

(** What [json] writes for a scalar, a boolean or a list of them is read
    back as the same value. *)
Lemma json_round_trip (v : pyval) :
  json_native v = true -> json_load (json_dump v) = v.
Proof.
  revert v. fix IH 1.
  intros [ | b | n | x | s | items | items | str] Hn; cbn in *;
    try reflexivity; try discriminate.
  f_equal. induction items as [|v items IHitems]; cbn in *; [reflexivity |].
  apply andb_true_iff in Hn as [Hv Hn].
  f_equal; [apply IH, Hv | apply IHitems, Hn].
Qed.

(** A tuple is read back as a list, and an object as its text. *)
Example json_round_trip_needs_native :
  json_load (json_dump (PTuple [PInt 1; PInt 2])) = PList [PInt 1; PInt 2]
  /\ json_load (json_dump (PObject "2024-01-01")) = PStr "2024-01-01".
Proof. split; reflexivity. Qed.

Lemma settings_round_trip_values (settings : gmap string pyval) :
  (forall k v, settings !! k = Some v -> json_native v = true) ->
  json_load <$> (json_dump <$> settings) = settings.
Proof.
  intros Hnative. apply map_eq. intros k.
  rewrite !lookup_fmap.
  destruct (settings !! k) as [v|] eqn:Hk; cbn; [| reflexivity].
  f_equal. eapply json_round_trip, Hnative, Hk.
Qed.

Lemma union_with_known_keys (settings defaults : gmap string pyval) :
  dom defaults ⊆ dom settings -> settings ∪ defaults = settings.
Proof.
  intros Hdom. apply map_eq. intros k.
  destruct (settings !! k) as [v|] eqn:Hk.
  - now apply lookup_union_Some_l.
  - apply lookup_union_None. split; [assumption |].
    apply not_elem_of_dom. intros Hin. apply Hdom in Hin.
    now apply not_elem_of_dom in Hk.
Qed.

(** The copy kept in the legacy CSV file never makes a save fail, and does
    not touch the JSON file. *)
Lemma save_settings_to_csv_run (self : SettingsManager)
    (settings : gmap string pyval) (w : world) :
  exists w',
    save_settings_to_csv self settings w = (Ok tt, w')
    /\ settings_json w' = settings_json w
    /\ files w' = files w.
Proof.
  unfold save_settings_to_csv, try_except, bind, open_for_writing,
    write_or_fail, set_settings_csv, raise, print.
  destruct (mapM _ (map_to_list settings)); [destruct (writable w) |];
    cbn; eauto.
Qed.

(** C9. After a save of a settings map whose values are scalars, booleans
    or lists of them, a load returns the saved map merged over the default
    settings; when the saved map has every default key, the load returns the
    saved map. *)
Theorem settings_round_trip (load_settings_from_csv : M (gmap string pyval))
    (self : SettingsManager) (settings : gmap string pyval) (w : world) :
  writable w = true ->
  (forall k v, settings !! k = Some v -> json_native v = true) ->
  exists w1 w2,
    save_settings self settings w = (Ok tt, w1)
    /\ load_settings load_settings_from_csv self w1
       = (Ok (settings ∪ default_settings self), w2)
    /\ (dom (default_settings self) ⊆ dom settings ->
        load_settings load_settings_from_csv self w1 = (Ok settings, w2)).
Proof.
  intros Hw Hnative.
  destruct w as [fs sj sc wr out wl np]; cbn in Hw; subst wr.
  set (w0 := {| files := fs;
                settings_json := Some (JsonObject (json_dump <$> settings));
                settings_csv := sc; writable := Granted; stdout := out;
                write_log := wl ++ ["settings.json"]; numpy_argsort := np |}).
  destruct (save_settings_to_csv_run self settings w0) as (w1 & Hcsv & Hjson & _).
  exists w1, w1.
  assert (Hsave : save_settings self settings
                    {| files := fs; settings_json := sj; settings_csv := sc;
                       writable := true; stdout := out; write_log := wl;
                       numpy_argsort := np |}
                  = (Ok tt, w1)).
  { unfold save_settings, try_except, bind, open_for_writing, write_or_fail,
      set_settings_json.
    cbn. fold w0. now rewrite Hcsv. }
  assert (Hload : load_settings load_settings_from_csv self w1
                  = (Ok (settings ∪ default_settings self), w1)).
  { unfold load_settings, try_except. rewrite Hjson. cbn.
    now rewrite settings_round_trip_values. }
  repeat split; try assumption.
  intros Hdom. rewrite Hload. now rewrite union_with_known_keys.
Qed.

Lemma settings_round_trip_witness :
  exists w1 w2,
    save_settings new_settings_manager
      (<["theme" := PStr "light"]> get_default_settings)
      (world_of empty_store true) = (Ok tt, w1)
    /\ load_settings (ret get_default_settings) new_settings_manager w1
       = (Ok (<["theme" := PStr "light"]> get_default_settings), w2).
Proof.
  destruct (settings_round_trip (ret get_default_settings) new_settings_manager
              (<["theme" := PStr "light"]> get_default_settings)
              (world_of empty_store true) eq_refl)
    as (w1 & w2 & Hsave & _ & Hload).
  { intros k v Hk.
    apply lookup_insert_Some in Hk as [[_ <-] | [_ Hk]]; [reflexivity |].
    unfold get_default_settings in Hk.
    apply elem_of_list_to_map_2 in Hk.
    repeat (apply elem_of_cons in Hk as [[= _ ->] | Hk]; [reflexivity |]).
    now apply elem_of_nil in Hk. }
  exists w1, w2. split; [exact Hsave |].
  apply Hload. cbn [default_settings new_settings_manager].
  rewrite dom_insert_L. set_solver.
Defined.

(** * Further properties of the code *)

(** ** Listing, adding and deleting *)

Lemma sorted_newest_first {A} (key : A -> date) (l : list A) :
  Sorted (ordered key false) l <-> Sorted (newest_first key) l.
Proof.
  assert (Hrel : forall a b, ordered key false a b <-> newest_first key a b).
  { intros a b. unfold ordered, comes_before, newest_first. lia. }
  split; intros Hs; induction Hs as [|a l' Hs IH Hhd]; constructor; auto;
    destruct Hhd; constructor; now apply Hrel.
Qed.

Lemma ordered_transitive {A} (key : A -> Z) (asc : bool) (a b c : A) :
  ordered key asc a b -> ordered key asc b c -> ordered key asc a c.
Proof. unfold ordered, comes_before. destruct asc; lia. Qed.

Lemma in_delete {A} (x : A) (i : nat) (l : list A) :
  In x (delete i l) -> In x l.
Proof.
  revert i. induction l as [|a l IH]; intros [|i]; cbn; auto.
  intros [-> | Hin]; [now left | right; eauto].
Qed.

Lemma strongly_sorted_delete {A} (R : A -> A -> Prop) (i : nat) (l : list A) :
  StronglySorted R l -> StronglySorted R (delete i l).
Proof.
  intros Hs. revert i. induction Hs as [|a l Hs IH Hall]; intros [|i]; cbn.
  - constructor.
  - constructor.
  - assumption.
  - constructor; [apply IH |].
    apply List.Forall_forall. intros x Hx.
    rewrite List.Forall_forall in Hall. eapply Hall, in_delete, Hx.
Qed.

Lemma sorted_delete {A} (key : A -> Z) (asc : bool) (i : nat) (l : list A) :
  Sorted (ordered key asc) l -> Sorted (ordered key asc) (delete i l).
Proof.
  intros Hs. apply StronglySorted_Sorted, strongly_sorted_delete.
  apply Sorted_StronglySorted; [| assumption].
  intros a b c. apply ordered_transitive.
Qed.

(** X1. Every loader returns the stored rows, writes nothing and leaves
    the files alone: income, non-essentials and savings newest first, bills
    by due date, essentials in the order of the file. *)
Theorem loaders_list_in_order (w : world) :
  exists li le lb ln ls,
    reads_without_writing get_income_data w li
    /\ Permutation li (stored (income_csv (files w)))
    /\ Sorted (newest_first inc_date) li
    /\ reads_without_writing get_essentials_data w le
    /\ le = stored (essentials_csv (files w))
    /\ reads_without_writing get_bills_data w lb
    /\ Permutation lb (stored (bills_csv (files w)))
    /\ Sorted by_due_date lb
    /\ reads_without_writing get_non_essentials_data w ln
    /\ Permutation ln (stored (non_essentials_csv (files w)))
    /\ Sorted (newest_first ne_date) ln
    /\ reads_without_writing get_savings_data w ls
    /\ Permutation ls (stored (savings_csv (files w)))
    /\ Sorted (newest_first sav_date) ls.
Proof.
  exists (income_listing w), (stored (essentials_csv (files w))),
    (bills_listing w), (non_essentials_listing w), (savings_listing w).
  unfold reads_without_writing, income_listing, bills_listing,
    non_essentials_listing, savings_listing.
  rewrite get_income_data_eq, get_essentials_data_eq, get_bills_data_eq,
    get_non_essentials_data_eq, get_savings_data_eq.
  repeat split;
    try apply sort_values_perm;
    try (apply sorted_newest_first, sort_values_sorted);
    try (apply sorted_by_due_date, sort_values_sorted).
  - destruct (income_csv (files w)); cbn [stored]; rewrite ?sort_by_nil; eexists;
      repeat split.
  - destruct (essentials_csv (files w)); eexists; repeat split.
  - destruct (bills_csv (files w)); cbn [stored]; rewrite ?sort_by_nil; eexists;
      repeat split.
  - destruct (non_essentials_csv (files w)); cbn [stored]; rewrite ?sort_by_nil; eexists;
      repeat split.
  - destruct (savings_csv (files w)); cbn [stored]; rewrite ?sort_by_nil; eexists;
      repeat split.
Qed.

Lemma sorted_append_perm (numpy : argsort) {A} (key : A -> Z) (asc : bool)
    (rows : list A) (r : A) :
  Permutation (sort_by numpy key asc (sort_by numpy key asc rows ++ [r]))
    (r :: rows).
Proof.
  rewrite sort_values_perm, sort_values_perm.
  symmetry. apply Permutation_cons_append.
Qed.

Ltac start_writable w Hw :=
  destruct w as [fs sj sc wr out wl np]; cbn in Hw; subst wr.

Lemma cells_after_add (numpy : argsort) {A B} (key : A -> Z) (asc : bool)
    (cells : A -> B) (rows : list A) (r : A) :
  Permutation
    (List.map cells
       (sort_by numpy key asc (sort_by numpy key asc rows ++ [r])))
    (cells r :: List.map cells rows).
Proof.
  change (cells r :: List.map cells rows) with (List.map cells (r :: rows)).
  apply Permutation_map, sorted_append_perm.
Qed.

Lemma cells_of_one (numpy : argsort) {A B} (key : A -> Z) (asc : bool)
    (cells : A -> B) (r : A) :
  Permutation (List.map cells (sort_by numpy key asc [r])) [cells r].
Proof.
  change [cells r] with (List.map cells [r]).
  apply Permutation_map, sort_values_perm.
Qed.

Ltac add_runs eq :=
  cbn; eexists _, _; (split; [reflexivity |]); (split; [reflexivity |]);
  rewrite eq; cbn; (split; [reflexivity |]).

(** X2. With the write permitted and a date that parses, every add
    returns and writes its file once; afterwards the loader lists, in the
    order of the listing, rows with the amounts and dates of the rows stored
    before and of the new row. The texts are not compared. A file that
    could not be read counts as holding no rows: it is replaced by a file
    with the new row alone. *)
Theorem add_then_list (w : world) :
  writable w = true ->
  (forall description amount d,
      adds_row (add_income description amount (Some d)) get_income_data
        "income.csv" income_cells (amount, d)
        (stored (income_csv (files w))) (Sorted (newest_first inc_date)) w)
  /\ (forall category expected actual,
         adds_row (add_essential category expected actual) get_essentials_data
           "essentials.csv" essential_cells (expected, actual)
           (stored (essentials_csv (files w)))
           (fun l => List.map essential_cells l
                     = List.map essential_cells
                         (stored (essentials_csv (files w)))
                       ++ [(expected, actual)]) w)
  /\ (forall name amount d st,
         adds_row (add_bill name amount (Some d) st) get_bills_data
           "bills.csv" bill_cells (amount, d)
           (stored (bills_csv (files w))) (Sorted by_due_date) w)
  /\ (forall expense amount d notes,
         adds_row (add_non_essential expense amount (Some d) notes)
           get_non_essentials_data "non_essentials.csv"
           non_essential_cells (amount, d)
           (stored (non_essentials_csv (files w)))
           (Sorted (newest_first ne_date)) w)
  /\ (forall deposit d,
         adds_row (add_savings deposit (Some d)) get_savings_data
           "savings.csv" savings_cells (deposit, d)
           (stored (savings_csv (files w)))
           (Sorted (newest_first sav_date)) w).
Proof.
  intros Hw. start_writable w Hw. cbn [files]. repeat apply conj.
  - intros description amount d.
    unfold adds_row, add_income, try_except, bind.
    rewrite get_income_data_eq. cbn [files].
    destruct (income_csv fs) as [rows|]; add_runs get_income_data_eq.
    + split; [apply (cells_after_add np inc_date false income_cells)
             | apply sorted_newest_first, sort_values_sorted].
    + split; [apply (cells_of_one np inc_date false income_cells)
             | apply sorted_newest_first, sort_values_sorted].
  - intros category expected actual.
    unfold adds_row, add_essential, try_except, bind.
    rewrite get_essentials_data_eq. cbn [files].
    destruct (essentials_csv fs) as [rows|]; add_runs get_essentials_data_eq.
    + rewrite List.map_app. split; [| reflexivity].
      symmetry. apply Permutation_cons_append.
    + split; reflexivity.
  - intros name amount d st.
    unfold adds_row, add_bill, try_except, bind.
    rewrite get_bills_data_eq. cbn [files].
    destruct (bills_csv fs) as [rows|]; add_runs get_bills_data_eq.
    + split; [apply (cells_after_add np due_date true bill_cells)
             | apply sorted_by_due_date, sort_values_sorted].
    + split; [apply (cells_of_one np due_date true bill_cells)
             | apply sorted_by_due_date, sort_values_sorted].
  - intros expense amount d notes.
    unfold adds_row, add_non_essential, try_except, bind.
    rewrite get_non_essentials_data_eq. cbn [files].
    destruct (non_essentials_csv fs) as [rows|];
      add_runs get_non_essentials_data_eq.
    + split; [apply (cells_after_add np ne_date false non_essential_cells)
             | apply sorted_newest_first, sort_values_sorted].
    + split; [apply (cells_of_one np ne_date false non_essential_cells)
             | apply sorted_newest_first, sort_values_sorted].
  - intros deposit d.
    unfold adds_row, add_savings, try_except, bind.
    rewrite get_savings_data_eq. cbn [files].
    destruct (savings_csv fs) as [rows|]; add_runs get_savings_data_eq.
    + split; [apply (cells_after_add np sav_date false savings_cells)
             | apply sorted_newest_first, sort_values_sorted].
    + split; [apply (cells_of_one np sav_date false savings_cells)
             | apply sorted_newest_first, sort_values_sorted].
Qed.

Lemma add_then_list_witness :
  adds_row (add_bill "C" 75 (Some 738880) "Unpaid") get_bills_data "bills.csv"
    bill_cells (75%Q, 738880)
    (stored (bills_csv (files (world_of scenario_store true))))
    (Sorted by_due_date) (world_of scenario_store true).
Proof.
  apply (add_then_list (world_of scenario_store true) eq_refl).
Defined.

Lemma delete_keeps_places (numpy : argsort) {A} (key : A -> Z) (asc : bool)
    (i : nat) (listing : list A) :
  Sorted (ordered key asc) listing ->
  NoDup (List.map key listing) ->
  sort_by numpy key asc (delete i listing) = delete i listing.
Proof.
  intros Hs Hnd.
  apply (sorted_perm_unique key asc).
  - now apply sorted_delete.
  - apply sort_values_sorted.
  - symmetry. apply sort_values_perm.
  - change (List.map key (delete i listing)) with (key <$> delete i listing).
    rewrite list_fmap_delete. eapply sublist_NoDup; [exact Hnd |].
    apply sublist_delete.
Qed.

Lemma cells_after_delete (numpy : argsort) {A B} (key : A -> Z) (asc : bool)
    (cells : A -> B) (i : nat) (listing : list A) :
  Permutation (List.map cells (sort_by numpy key asc (delete i listing)))
    (delete i (List.map cells listing)).
Proof.
  change (delete i (List.map cells listing)) with (delete i (cells <$> listing)).
  rewrite <- list_fmap_delete. apply (Permutation_map cells), sort_values_perm.
Qed.

Lemma cells_in_place (numpy : argsort) {A B} (key : A -> Z) (asc : bool)
    (cells : A -> B) (i : nat) (listing : list A) :
  Sorted (ordered key asc) listing ->
  NoDup (List.map key listing) ->
  List.map cells (sort_by numpy key asc (delete i listing))
  = delete i (List.map cells listing).
Proof.
  intros Hs Hnd. rewrite delete_keeps_places by assumption.
  apply (list_fmap_delete cells).
Qed.

Ltac delete_runs eq :=
  cbn; eexists _, _; (split; [reflexivity |]); (split; [reflexivity |]);
  rewrite eq; cbn; (split; [reflexivity |]);
  (split; [apply cells_after_delete |]).

(** X3. With the write permitted, a delete at a position of the listing
    returns and writes its file once; afterwards the loader lists, in the
    order of the listing, rows with the amounts and dates of the rows it
    listed before without the one at that position: place for place for
    the essentials, and for the dated collections whenever no two rows of
    the listing have the same date. The texts are not compared. *)
Theorem delete_removes_the_listed_row (w : world) (index : Z) :
  writable w = true ->
  ((0 <= index < Z.of_nat (collection_length DeleteIncome w))%Z ->
   deletes_position (delete_income index) get_income_data "income.csv"
     income_cells index (income_listing w)
     (in_place inc_date income_cells (Sorted (newest_first inc_date)) index
        (income_listing w)) w)
  /\ ((0 <= index < Z.of_nat (collection_length DeleteEssential w))%Z ->
      deletes_position (delete_essential index) get_essentials_data
        "essentials.csv" essential_cells index
        (stored (essentials_csv (files w)))
        (fun l => List.map essential_cells l
                  = delete (Z.to_nat index)
                      (List.map essential_cells
                         (stored (essentials_csv (files w))))) w)
  /\ ((0 <= index < Z.of_nat (collection_length DeleteBill w))%Z ->
      deletes_position (delete_bill index) get_bills_data "bills.csv"
        bill_cells index (bills_listing w)
        (in_place due_date bill_cells (Sorted by_due_date) index
           (bills_listing w)) w)
  /\ ((0 <= index < Z.of_nat (collection_length DeleteNonEssential w))%Z ->
      deletes_position (delete_non_essential index) get_non_essentials_data
        "non_essentials.csv" non_essential_cells index
        (non_essentials_listing w)
        (in_place ne_date non_essential_cells (Sorted (newest_first ne_date))
           index (non_essentials_listing w)) w)
  /\ ((0 <= index < Z.of_nat (collection_length DeleteSavings w))%Z ->
      deletes_position (delete_savings index) get_savings_data "savings.csv"
        savings_cells index (savings_listing w)
        (in_place sav_date savings_cells (Sorted (newest_first sav_date)) index
           (savings_listing w)) w).
Proof.
  intros Hw. start_writable w Hw.
  unfold collection_length, income_listing, bills_listing,
    non_essentials_listing, savings_listing, in_place.
  cbn [files numpy_argsort].
  repeat apply conj; intros Hin.
  - unfold deletes_position, delete_income, try_except, bind.
    rewrite get_income_data_eq. cbn [files numpy_argsort].
    destruct (income_csv fs) as [rows|]; cbn in Hin; [| lia]. cbn [stored].
    rewrite sort_values_length, guard_in_range by assumption.
    delete_runs get_income_data_eq.
    split; [apply sorted_newest_first, sort_values_sorted |].
    apply cells_in_place, sort_values_sorted.
  - unfold deletes_position, delete_essential, try_except, bind.
    rewrite get_essentials_data_eq. cbn [files].
    destruct (essentials_csv fs) as [rows|]; cbn in Hin; [| lia].
    rewrite guard_in_range by assumption. cbn.
    eexists _, _. split; [reflexivity |]. split; [reflexivity |].
    rewrite get_essentials_data_eq. cbn. split; [reflexivity |].
    rewrite (list_fmap_delete essential_cells). split; reflexivity.
  - unfold deletes_position, delete_bill, try_except, bind.
    rewrite get_bills_data_eq. cbn [files numpy_argsort].
    destruct (bills_csv fs) as [rows|]; cbn in Hin; [| lia]. cbn [stored].
    rewrite sort_values_length, guard_in_range by assumption.
    delete_runs get_bills_data_eq.
    split; [apply sorted_by_due_date, sort_values_sorted |].
    apply cells_in_place, sort_values_sorted.
  - unfold deletes_position, delete_non_essential, try_except, bind.
    rewrite get_non_essentials_data_eq. cbn [files numpy_argsort].
    destruct (non_essentials_csv fs) as [rows|]; cbn in Hin; [| lia].
    cbn [stored].
    rewrite sort_values_length, guard_in_range by assumption.
    delete_runs get_non_essentials_data_eq.
    split; [apply sorted_newest_first, sort_values_sorted |].
    apply cells_in_place, sort_values_sorted.
  - unfold deletes_position, delete_savings, try_except, bind.
    rewrite get_savings_data_eq. cbn [files numpy_argsort].
    destruct (savings_csv fs) as [rows|]; cbn in Hin; [| lia]. cbn [stored].
    rewrite sort_values_length, guard_in_range by assumption.
    delete_runs get_savings_data_eq.
    split; [apply sorted_newest_first, sort_values_sorted |].
    apply cells_in_place, sort_values_sorted.
Qed.

Lemma delete_removes_the_listed_row_witness :
  deletes_position (delete_bill 0) get_bills_data "bills.csv" bill_cells 0
    (bills_listing (world_of scenario_store true))
    (in_place due_date bill_cells (Sorted by_due_date) 0
       (bills_listing (world_of scenario_store true)))
    (world_of scenario_store true).
Proof.
  apply (delete_removes_the_listed_row (world_of scenario_store true) 0 eq_refl).
  cbn. lia.
Defined.

(** X4. An add whose date does not parse raises to the caller, wrapped in
    the message of the method, before any write is attempted; the files are
    as they were. *)
Theorem add_with_bad_date_raises_before_writing (w : world) :
  (forall description amount,
      raises_before_writing (add_income description amount None)
        (Wrapped "Error adding income" ValueError) w)
  /\ (forall name amount st,
         raises_before_writing (add_bill name amount None st)
           (Wrapped "Error adding bill" ValueError) w)
  /\ (forall expense amount notes,
         raises_before_writing (add_non_essential expense amount None notes)
           (Wrapped "Error adding non-essential" ValueError) w)
  /\ (forall deposit,
         raises_before_writing (add_savings deposit None)
           (Wrapped "Error adding savings" ValueError) w).
Proof.
  unfold raises_before_writing. repeat apply conj; intros.
  - unfold add_income, try_except, bind. rewrite get_income_data_eq.
    destruct (income_csv (files w)); cbn; auto.
  - unfold add_bill, try_except, bind. rewrite get_bills_data_eq.
    destruct (bills_csv (files w)); cbn; auto.
  - unfold add_non_essential, try_except, bind.
    rewrite get_non_essentials_data_eq.
    destruct (non_essentials_csv (files w)); cbn; auto.
  - unfold add_savings, try_except, bind. rewrite get_savings_data_eq.
    destruct (savings_csv (files w)); cbn; auto.
Qed.

(** ** Resetting the data *)

(** With a [settings.json], what [load_settings] returns does not depend
    on anything else in the world. *)
Lemma load_settings_reads_json (load_settings_from_csv : M (gmap string pyval))
    (self : SettingsManager) (w w' : world) :
  is_Some (settings_json w) ->
  settings_json w' = settings_json w ->
  fst (load_settings load_settings_from_csv self w')
  = fst (load_settings load_settings_from_csv self w).
Proof.
  intros [file Hfile] Hsame. unfold load_settings, try_except.
  rewrite Hsame, Hfile. now destruct file.
Qed.

(** X5. With the write permitted, [reset_all_data] returns after writing
    the six CSV files in turn; every collection is then an empty table and
    the legacy settings table is empty, while [settings.json] is as it was.
    So [load_settings] returns what it returned before when there is a
    [settings.json]; when there is none, it reads the legacy table, which
    the reset has emptied. When the write is refused the reset raises at the
    first file and nothing has changed. *)
Theorem reset_all_data_spares_settings_json (w : world) :
  (writable w = true ->
   exists w',
     reset_all_data w = (Ok tt, w')
     /\ files w' = empty_store
     /\ settings_csv w' = Some ∅
     /\ settings_json w' = settings_json w
     /\ write_log w'
        = write_log w ++ ["income.csv"; "essentials.csv"; "bills.csv";
                          "non_essentials.csv"; "savings.csv"; "settings.csv"]
     /\ (forall load_settings_from_csv self,
            is_Some (settings_json w) ->
            fst (load_settings load_settings_from_csv self w')
            = fst (load_settings load_settings_from_csv self w))
     /\ (forall load_settings_from_csv self,
            settings_json w = None ->
            load_settings load_settings_from_csv self w'
            = try_except load_settings_from_csv
                (fun e => run print "Error loading settings";
                          ret (default_settings self)) w'))
  /\ (writable w = false ->
      exists w',
        reset_all_data w = (Raise (Wrapped "Error resetting data" OSError), w')
        /\ files w' = files w
        /\ settings_csv w' = settings_csv w
        /\ settings_json w' = settings_json w
        /\ write_log w' = write_log w ++ ["income.csv"]).
Proof.
  destruct w as [fs sj sc wr out wl np].
  cbn [writable files settings_csv settings_json write_log].
  split; intros ->; cbn; eexists; repeat split.
  - now rewrite <- !app_assoc.
  - intros legacy self Hsome. now apply load_settings_reads_json.
  - intros legacy self ->. reflexivity.
Qed.

(** Settings kept in the legacy table alone do not survive the reset: the
    theme that was read as "light" before is read as the default after. *)
Lemma reset_all_data_spares_settings_json_witness :
  exists w' before after,
    reset_all_data legacy_settings_world = (Ok tt, w')
    /\ files w' = empty_store
    /\ settings_json w' = None
    /\ settings_csv w' = Some ∅
    /\ fst (load_settings read_theme new_settings_manager legacy_settings_world)
       = Ok before
    /\ before !! "theme" = Some (PStr "light")
    /\ fst (load_settings read_theme new_settings_manager w') = Ok after
    /\ after !! "theme" = Some (PStr "dark").
Proof.
  destruct (proj1 (reset_all_data_spares_settings_json legacy_settings_world)
              eq_refl) as (w' & Hrun & Hfiles & Hcsv & Hjson & _ & _ & Hlegacy).
  exists w'. eexists _, _.
  split; [exact Hrun |]. split; [exact Hfiles |]. split; [exact Hjson |].
  split; [exact Hcsv |].
  split; [reflexivity |]. split; [reflexivity |].
  rewrite (Hlegacy read_theme new_settings_manager eq_refl).
  unfold try_except, read_theme. rewrite Hcsv.
  split; reflexivity.
Defined.

(** ** The budget summary *)

Local Open Scope Q_scope.

Lemma get_budget_summary_run (w : world) :
  exists w',
    get_budget_summary w
    = (Ok (let total := column_sum inc_amount (income_listing w) in
           let e := column_sum ess_actual (stored (essentials_csv (files w))) in
           let n := column_sum ne_amount (non_essentials_listing w) in
           let s := column_sum sav_deposit (savings_listing w) in
           {| essentials :=
                {| target := total * 0.5; actual := e;
                   difference := e - total * 0.5;
                   percentage := if Qgtb total 0 then e / total * 100 else 0 |};
              non_essentials :=
                {| target := total * 0.3; actual := n;
                   difference := n - total * 0.3;
                   percentage := if Qgtb total 0 then n / total * 100 else 0 |};
              savings :=
                {| target := total * 0.2; actual := s;
                   difference := s - total * 0.2;
                   percentage := if Qgtb total 0 then s / total * 100 else 0 |};
              summary_total_income := total |}), w')
    /\ files w' = files w.
Proof.
  destruct (calculate_budget_allocations_run w) as (w1 & Hrun1 & Hfiles1 & Hnp1).
  destruct (calculate_actual_spending_run w1) as (w2 & Hrun2 & Hfiles2 & _).
  exists w2. split; [| congruence].
  unfold get_budget_summary, bind.
  rewrite Hrun1, Hrun2, !percentage_of_income_run. cbn.
  unfold income_listing, non_essentials_listing, savings_listing.
  now rewrite Hfiles1, Hnp1.
Qed.

Lemma share_of_income (a t share : Q) :
  0 < t -> a / t * 100 == share * 100 + (a - t * share) / t * 100.
Proof. intros Ht. field. lra. Qed.

(** X6. In the budget summary the actual of a category is the sum of its
    stored amounts, whatever the order of the rows, and its difference is
    actual minus target; the three differences add up to the total spent
    and saved minus the income; and when the income is positive the
    percentage of a category is its share of the 50/30/20 rule plus its
    difference as a percentage of the income. *)
Theorem budget_summary_relations (w : world) :
  exists s w',
    get_budget_summary w = (Ok s, w')
    /\ actual (essentials s) == essentials_total (files w)
    /\ actual (non_essentials s) == non_essentials_total (files w)
    /\ actual (savings s) == savings_total (files w)
    /\ difference (essentials s) = actual (essentials s) - target (essentials s)
    /\ difference (non_essentials s)
       = actual (non_essentials s) - target (non_essentials s)
    /\ difference (savings s) = actual (savings s) - target (savings s)
    /\ difference (essentials s) + difference (non_essentials s)
       + difference (savings s)
       == actual (essentials s) + actual (non_essentials s) + actual (savings s)
          - summary_total_income s
    /\ (0 < summary_total_income s ->
        percentage (essentials s)
        == 50 + difference (essentials s) / summary_total_income s * 100
        /\ percentage (non_essentials s)
           == 30 + difference (non_essentials s) / summary_total_income s * 100
        /\ percentage (savings s)
           == 20 + difference (savings s) / summary_total_income s * 100).
Proof.
  destruct (get_budget_summary_run w) as (w' & Hrun & _).
  eexists _, w'. split; [exact Hrun |]. cbn.
  set (total := column_sum inc_amount (income_listing w)).
  repeat split; try reflexivity; try lra.
  - apply column_sum_sorted.
  - apply column_sum_sorted.
  - apply (proj2 (Qgtb_true _ _)) in H. rewrite H.
    rewrite (share_of_income _ total 0.5) by (now apply Qgtb_true). lra.
  - apply (proj2 (Qgtb_true _ _)) in H. rewrite H.
    rewrite (share_of_income _ total 0.3) by (now apply Qgtb_true). lra.
  - apply (proj2 (Qgtb_true _ _)) in H. rewrite H.
    rewrite (share_of_income _ total 0.2) by (now apply Qgtb_true). lra.
Qed.

(** ** The analytics page *)

Lemma five_loaders_run (w : world) :
  exists w1 w2 w3 w4 w5,
    get_income_data w = (Ok (income_listing w), w1)
    /\ get_essentials_data w1 = (Ok (stored (essentials_csv (files w))), w2)
    /\ get_bills_data w2 = (Ok (bills_listing w), w3)
    /\ get_non_essentials_data w3 = (Ok (non_essentials_listing w), w4)
    /\ get_savings_data w4 = (Ok (savings_listing w), w5)
    /\ files w5 = files w.
Proof.
  destruct (get_income_data_run w) as (w1 & Hrun1 & Hfiles1 & Hnp1).
  destruct (get_essentials_data_run w1) as (w2 & Hrun2 & Hfiles2 & Hnp2).
  destruct (get_bills_data_run w2) as (w3 & Hrun3 & Hfiles3 & Hnp3).
  destruct (get_non_essentials_data_run w3) as (w4 & Hrun4 & Hfiles4 & Hnp4).
  destruct (get_savings_data_run w4) as (w5 & Hrun5 & Hfiles5 & Hnp5).
  exists w1, w2, w3, w4, w5.
  unfold income_listing, bills_listing, non_essentials_listing, savings_listing.
  unfold bills_listing in Hrun3.
  rewrite Hfiles4, Hfiles3, Hfiles2, Hfiles1, Hnp4, Hnp3, Hnp2, Hnp1 in Hrun5.
  rewrite Hfiles3, Hfiles2, Hfiles1, Hnp3, Hnp2, Hnp1 in Hrun4.
  rewrite Hfiles2, Hfiles1, Hnp2, Hnp1 in Hrun3.
  rewrite Hfiles1 in Hrun2.
  repeat split; try assumption. congruence.
Qed.

Lemma show_analytics_run (w : world) :
  exists w',
    show_analytics w
    = (Ok (let I := column_sum inc_amount (income_listing w) in
           let E := column_sum ess_actual (stored (essentials_csv (files w))) in
           let N := column_sum ne_amount (non_essentials_listing w) in
           let S := column_sum sav_deposit (savings_listing w) in
           let rate := if Qgtb I 0 then S / I * 100 else 0 in
           let ratio := if Qgtb I 0 then (E + N) / I * 100 else 0 in
           let vE := if Qgtb (I * 0.5) 0
                     then (E - I * 0.5) / (I * 0.5) * 100 else 0 in
           let vN := if Qgtb (I * 0.3) 0
                     then (N - I * 0.3) / (I * 0.3) * 100 else 0 in
           let vS := if Qgtb (I * 0.2) 0
                     then (S - I * 0.2) / (I * 0.2) * 100 else 0 in
           let c :=
             {| savings_rate_score := Qmin (rate / 20 * 25) 25;
                budget_adherence_score := Qmax 0 (25 - Qabs vS / 10 * 25);
                emergency_fund_score :=
                  if Qgtb (E + N) 0
                  then Qmin (S / ((E + N) * 3) * 25) 25 else 0;
                expense_control_score :=
                  if Qgtb ratio 80
                  then Qmax 0 (25 - (ratio - 80) / 20 * 25) else 25 |} in
           let total :=
             0 + savings_rate_score c + budget_adherence_score c
             + emergency_fund_score c + expense_control_score c in
           {| savings_rate := rate;
              expense_ratio := ratio;
              adherence_labels :=
                [variance_text vE; variance_text vN; variance_text vS];
              components := c;
              total_score := total;
              interpretation :=
                if Qle_bool 80 total then "Excellent financial health!"%string
                else if Qle_bool 60 total then "Good financial management"%string
                else if Qle_bool 40 total then "Needs improvement"%string
                else "Critical - Review budget immediately"%string |}), w')
    /\ files w' = files w.
Proof.
  destruct (five_loaders_run w)
    as (w1 & w2 & w3 & w4 & w5 & Hrun1 & Hrun2 & Hrun3 & Hrun4 & Hrun5 & Hfiles).
  exists w5. split; [| assumption].
  unfold show_analytics.
  erewrite bind_ok by exact Hrun1.
  erewrite bind_ok by exact Hrun2.
  erewrite bind_ok by exact Hrun3.
  erewrite bind_ok by exact Hrun4.
  erewrite bind_ok by exact Hrun5.
  rewrite !sum_or_zero.
  set (I := column_sum inc_amount _).
  set (E := column_sum ess_actual _).
  set (N := column_sum ne_amount _).
  set (S := column_sum sav_deposit _).
  cbv zeta.
  erewrite bind_ok
    by apply (guarded_pydiv S I I (fun r => r * 100)), positive_not_zero.
  erewrite bind_ok
    by apply (guarded_pydiv (E + N) I I (fun r => r * 100)), positive_not_zero.
  erewrite bind_ok by apply categories_loop_run.
  cbn [variance labels].
  erewrite bind_ok
    by (apply (guarded_pydiv S (E + N) ((E + N) * 3) (fun r => Qmin (r * 25) 25));
        intros Hpos Hz; lra).
  reflexivity.
Qed.

Lemma listing_totals (fs : store) (w : world) :
  files w = fs ->
  column_sum inc_amount (income_listing w) == income_total fs
  /\ column_sum ne_amount (non_essentials_listing w) == non_essentials_total fs
  /\ column_sum sav_deposit (savings_listing w) == savings_total fs.
Proof.
  intros <-. unfold income_listing, non_essentials_listing, savings_listing.
  repeat split; apply column_sum_sorted.
Qed.

(** X7. Without income, on a snapshot whose amounts are not negative, the
    health score is never below 50 and never above 75: the savings-rate
    component is 0, budget adherence and expense control are both 25, and
    only the emergency-fund component varies; so the page shows "Needs
    improvement" or "Good financial management", never "Critical". *)
Theorem health_score_without_income (w : world) :
  nonneg_snapshot (files w) ->
  income_total (files w) == 0 ->
  exists a w',
    show_analytics w = (Ok a, w')
    /\ savings_rate_score (components a) == 0
    /\ budget_adherence_score (components a) == 25
    /\ expense_control_score (components a) == 25
    /\ 50 <= total_score a <= 75
    /\ (interpretation a = "Needs improvement"%string
        \/ interpretation a = "Good financial management"%string).
Proof.
  intros (Hinc & Hess & Hne & Hsav) Hzero.
  destruct (show_analytics_run w) as (w' & Hrun & _).
  eexists _, w'. split; [exact Hrun |].
  destruct (listing_totals (files w) w eq_refl) as (HI & HN & HS).
  set (I := column_sum inc_amount (income_listing w)) in *.
  set (E := column_sum ess_actual (stored (essentials_csv (files w)))).
  set (N := column_sum ne_amount (non_essentials_listing w)) in *.
  set (S := column_sum sav_deposit (savings_listing w)) in *.
  assert (HI0 : I == 0) by (rewrite HI; exact Hzero).
  assert (HE0 : 0 <= E) by now apply column_sum_nonneg.
  assert (HN0 : 0 <= N) by (rewrite HN; now apply column_sum_nonneg).
  assert (HS0 : 0 <= S) by (rewrite HS; now apply column_sum_nonneg).
  assert (G1 : Qgtb I 0 = false) by (apply Qgtb_false; lra).
  assert (G2 : Qgtb (I * 0.2) 0 = false) by (apply Qgtb_false; lra).
  assert (G3 : Qgtb 0 80 = false) by reflexivity.
  cbn [components total_score interpretation savings_rate_score
       budget_adherence_score emergency_fund_score expense_control_score].
  rewrite G1, G2, G3.
  set (em := if Qgtb (E + N) 0 then Qmin (S / ((E + N) * 3) * 25) 25 else 0).
  assert (Hem : 0 <= em <= 25).
  { unfold em. rewrite emergency_agrees by lra.
    apply emergency_fund_score_bounds; lra. }
  assert (H1 : Qmin (0 / 20 * 25) 25 == 0) by reflexivity.
  assert (H2 : Qmax 0 (25 - Qabs 0 / 10 * 25) == 25) by reflexivity.
  set (total := 0 + Qmin (0 / 20 * 25) 25 + Qmax 0 (25 - Qabs 0 / 10 * 25)
                + em + 25).
  assert (Htotal : 50 <= total <= 75) by (unfold total; rewrite H1, H2; lra).
  repeat split; try assumption; try reflexivity; try apply Htotal.
  assert (B80 : Qle_bool 80 total = false).
  { apply not_true_iff_false. rewrite Qle_bool_iff. lra. }
  assert (B40 : Qle_bool 40 total = true) by (apply Qle_bool_iff; lra).
  rewrite B80, B40. destruct (Qle_bool 60 total); auto.
Qed.

Lemma health_score_without_income_witness :
  exists a w',
    show_analytics (world_of empty_store true) = (Ok a, w')
    /\ 50 <= total_score a <= 75.
Proof.
  destruct (health_score_without_income (world_of empty_store true))
    as (a & w' & Hrun & _ & _ & _ & Hband & _).
  - unfold nonneg_snapshot. cbn. repeat split; constructor.
  - reflexivity.
  - exists a, w'. split; assumption.
Defined.

Lemma some_unpaid (l : list bill_row) :
  (0 <? Z.of_nat (length (List.filter (fun b => String.eqb (status b) "Unpaid") l)))%Z
  = true
  <-> exists b, In b l /\ status b = "Unpaid"%string.
Proof.
  split.
  - intros Hlen. apply Z.ltb_lt in Hlen.
    destruct (List.filter _ l) as [|b rest] eqn:Hf; [cbn in Hlen; lia |].
    assert (Hb : In b (List.filter (fun b => String.eqb (status b) "Unpaid") l))
      by (rewrite Hf; now left).
    apply filter_In in Hb as [Hin Hst]. exists b. split; [assumption |].
    now apply String.eqb_eq.
  - intros (b & Hin & Hst). apply Z.ltb_lt.
    assert (Hb : In b (List.filter (fun b => String.eqb (status b) "Unpaid") l)).
    { apply filter_In. split; [assumption |]. now apply String.eqb_eq. }
    destruct (List.filter _ l); [destruct Hb | cbn; lia].
Qed.

Lemma show_analytics_recommendations_run (w : world) :
  exists w',
    show_analytics_recommendations w
    = (Ok (let I := column_sum inc_amount (income_listing w) in
           let E := column_sum ess_actual (stored (essentials_csv (files w))) in
           let N := column_sum ne_amount (non_essentials_listing w) in
           let S := column_sum sav_deposit (savings_listing w) in
           let rate := if Qgtb I 0 then S / I * 100 else 0 in
           let recommendations :=
             (if Qgtb 20 rate
              then ["• Increase your savings rate to reach the 20% target"%string]
              else [])
             ++ (if Qgtb E (I * 0.5)
                 then ["• Review essential expenses - you're over the 50% target"%string]
                 else [])
             ++ (if Qgtb N (I * 0.3)
                 then ["• Reduce non-essential spending to stay within 30% budget"%string]
                 else [])
             ++ (if (0 <? Z.of_nat
                             (length (List.filter
                                        (fun b => String.eqb (status b) "Unpaid")
                                        (bills_listing w))))%Z
                 then ["• Pay outstanding bills to avoid late fees"%string]
                 else [])
             ++ (if Qgtb ((E + N) * 3) S
                 then ["• Build emergency fund to cover 3-6 months of expenses"%string]
                 else []) in
           if empty recommendations
           then ["• Great job! Your budget is well-balanced"%string]
           else recommendations), w').
Proof.
  destruct (five_loaders_run w)
    as (w1 & w2 & w3 & w4 & w5 & Hrun1 & Hrun2 & Hrun3 & Hrun4 & Hrun5 & Hfiles).
  exists w5. unfold show_analytics_recommendations.
  erewrite bind_ok by exact Hrun1.
  erewrite bind_ok by exact Hrun2.
  erewrite bind_ok by exact Hrun3.
  erewrite bind_ok by exact Hrun4.
  erewrite bind_ok by exact Hrun5.
  rewrite !sum_or_zero. cbv zeta.
  erewrite bind_ok
    by apply (guarded_pydiv _ _ _ (fun r => r * 100)), positive_not_zero.
  reflexivity.
Qed.

(** X8. The recommendations are never empty; the advice to pay
    outstanding bills is among them exactly when some stored bill is unpaid;
    and the message that the budget is well-balanced appears only alone,
    only with a positive income of which at least 20% is saved, with no
    unpaid bill, and with savings of at least three times the expenses. *)
Theorem recommendations_are_never_empty (w : world) :
  exists recs w',
    show_analytics_recommendations w = (Ok recs, w')
    /\ recs <> []
    /\ (In "• Pay outstanding bills to avoid late fees"%string recs
        <-> exists b, In b (stored (bills_csv (files w)))
                      /\ status b = "Unpaid"%string)
    /\ (In "• Great job! Your budget is well-balanced"%string recs ->
        recs = ["• Great job! Your budget is well-balanced"%string]
        /\ 0 < income_total (files w)
        /\ income_total (files w) * 0.2 <= savings_total (files w)
        /\ (forall b, In b (stored (bills_csv (files w))) ->
                      status b <> "Unpaid"%string)
        /\ (essentials_total (files w) + non_essentials_total (files w)) * 3
           <= savings_total (files w)).
Proof.
  destruct (show_analytics_recommendations_run w) as (w' & Hrun).
  eexists _, w'. split; [exact Hrun |].
  destruct (listing_totals (files w) w eq_refl) as (HI & HN & HS).
  unfold essentials_total.
  set (I := column_sum inc_amount (income_listing w)) in *.
  set (E := column_sum ess_actual (stored (essentials_csv (files w)))).
  set (N := column_sum ne_amount (non_essentials_listing w)) in *.
  set (S := column_sum sav_deposit (savings_listing w)) in *.
  rewrite <- HI, <- HN, <- HS.
  assert (Hbills : forall b, In b (bills_listing w)
                             <-> In b (stored (bills_csv (files w)))).
  { intros b. unfold bills_listing.
    split; apply Permutation_in;
      [| symmetry]; apply sort_values_perm. }
  pose proof (some_unpaid (bills_listing w)) as Hunpaid.
  cbv zeta.
  destruct (Qgtb 20 (if Qgtb I 0 then S / I * 100 else 0)) eqn:C1;
    destruct (Qgtb E (I * 0.5)) eqn:C2;
    destruct (Qgtb N (I * 0.3)) eqn:C3;
    destruct (0 <? Z.of_nat (length (List.filter _ (bills_listing w))))%Z eqn:C4;
    destruct (Qgtb ((E + N) * 3) S) eqn:C5;
    cbn [app empty];
    (split; [discriminate |]);
    (split; [split;
             [ intros Hin; first
                 [ destruct (proj1 Hunpaid eq_refl) as (b & Hb & Hst);
                   exists b; split; [now apply Hbills | assumption]
                 | exfalso; cbn in Hin; intuition discriminate ]
             | intros (b & Hb & Hst); first
                 [ cbn; tauto
                 | exfalso;
                   assert (Hex : exists b, In b (bills_listing w)
                                           /\ status b = "Unpaid"%string)
                     by (exists b; split; [now apply Hbills | assumption]);
                   apply Hunpaid in Hex; discriminate ] ]
            |]);
    intros Hgreat;
    try (exfalso; cbn in Hgreat; intuition discriminate).
  split; [reflexivity |].
  apply Qgtb_false in C1, C5.
  destruct (Qgtb I 0) eqn:G; [apply Qgtb_true in G | lra].
  assert (Hrate : 20 * I <= S * 100).
  { assert (Hdiv : S * 100 == S / I * 100 * I) by (field; lra).
    rewrite Hdiv. apply Qmult_le_compat_r; lra. }
  repeat split; try lra.
  intros b Hb Hst.
  assert (Hex : exists b, In b (bills_listing w) /\ status b = "Unpaid"%string)
    by (exists b; split; [now apply Hbills | assumption]).
  apply Hunpaid in Hex. discriminate.
Qed.

(** ** The trend series of savings and income *)

Lemma get_spending_trends_run (today : date) (days : Z) (w : world) :
  exists w',
    get_spending_trends today days w
    = (Ok {| trend_non_essentials :=
               if negb (empty (non_essentials_listing w))
               then Some (groupby_sum ne_date ne_amount
                            (List.filter
                               (fun r => in_window (today - days)%Z today (ne_date r))
                               (non_essentials_listing w)))
               else None;
             trend_income :=
               if negb (empty (income_listing w))
               then Some (groupby_sum inc_date inc_amount
                            (List.filter
                               (fun r => in_window (today - days)%Z today (inc_date r))
                               (income_listing w)))
               else None;
             trend_savings :=
               if negb (empty (savings_listing w))
               then
                 let recent :=
                   List.filter
                     (fun r => in_window (today - days)%Z today (sav_date r))
                     (savings_listing w) in
                 Some (combine recent (cumsum (List.map sav_deposit recent)))
               else None |}, w').
Proof.
  destruct (get_non_essentials_data_run w) as (w1 & Hrun1 & Hfiles1 & Hnp1).
  destruct (get_income_data_run w1) as (w2 & Hrun2 & Hfiles2 & Hnp2).
  destruct (get_savings_data_run w2) as (w3 & Hrun3 & Hfiles3 & Hnp3).
  rewrite Hfiles1, Hnp1 in Hrun2. rewrite Hfiles2, Hfiles1, Hnp2, Hnp1 in Hrun3.
  exists w3. unfold get_spending_trends. cbv zeta.
  erewrite bind_ok by exact Hrun1.
  erewrite bind_ok by exact Hrun2.
  erewrite bind_ok by exact Hrun3.
  reflexivity.
Qed.

Lemma cumsum_from_lookup (acc : Q) (l : list Q) (i : nat) (c : Q) :
  cumsum_from acc l !! i = Some c ->
  c == acc + fold_left Qplus (take (Datatypes.S i) l) 0.
Proof.
  revert acc i. induction l as [|x l IH]; intros acc i Hc; [discriminate |].
  destruct i as [|i]; cbn in Hc.
  - injection Hc as <-. cbn. destruct l; cbn; lra.
  - apply IH in Hc. rewrite Hc.
    change (take (Datatypes.S (Datatypes.S i)) (x :: l))
      with (x :: take (Datatypes.S i) l).
    cbn [fold_left]. rewrite (fold_left_Qplus_acc _ (0 + x)). lra.
Qed.

Lemma cumsum_lookup (l : list Q) (i : nat) (c : Q) :
  cumsum l !! i = Some c -> c == fold_left Qplus (take (Datatypes.S i) l) 0.
Proof.
  destruct l as [|x l]; [discriminate |]. destruct i as [|i]; cbn.
  - intros [= <-]. destruct l; cbn; lra.
  - intros Hc. apply cumsum_from_lookup in Hc. rewrite Hc.
    rewrite (fold_left_Qplus_acc _ (0 + x)). lra.
Qed.

Lemma cumsum_length (l : list Q) : length (cumsum l) = length l.
Proof.
  destruct l as [|x l]; [reflexivity |]. cbn. f_equal.
  generalize x. induction l as [|y l IH]; intros acc; cbn; [reflexivity |].
  f_equal. apply IH.
Qed.

Lemma combine_lookup {A B} (l : list A) (k : list B) (i : nat) (a : A) (b : B) :
  combine l k !! i = Some (a, b) <-> l !! i = Some a /\ k !! i = Some b.
Proof.
  revert k i. induction l as [|x l IH]; intros [|y k] [|i]; cbn;
    try (split; [discriminate | intros [? ?]; discriminate]).
  - split; [intros [= <- <-]; auto | intros [[= <-] [= <-]]; reflexivity].
  - apply IH.
Qed.

(** X9. The savings series of [get_spending_trends] has one entry for
    every deposit of the window, in the order of the listing, newest first;
    the cumulative figure beside a deposit is the sum of that deposit and of
    all the later ones, so the oldest deposit of the window carries the total
    of the window. For an empty collection there is no series. *)
Theorem savings_trend_accumulates_newest_first (today : date) (days : Z)
    (w : world) :
  exists t w',
    get_spending_trends today days w = (Ok t, w')
    /\ let recent :=
         List.filter (fun r => in_window (today - days)%Z today (sav_date r))
           (savings_listing w) in
       match trend_savings t with
       | None => stored (savings_csv (files w)) = []
       | Some series =>
           List.map fst series = recent
           /\ (forall (i : nat) (r : savings_row) (c : Q),
                  series !! i = Some (r, c) ->
                  c == column_sum sav_deposit (take (Datatypes.S i) recent))
           /\ (forall (r : savings_row) (c : Q),
                  last series = Some (r, c) ->
                  c == column_sum sav_deposit recent)
       end.
Proof.
  destruct (get_spending_trends_run today days w) as (w' & Hrun).
  eexists _, w'. split; [exact Hrun |]. cbn [trend_savings]. cbv zeta.
  unfold savings_listing at 1. rewrite sort_values_empty.
  destruct (empty (stored (savings_csv (files w)))) eqn:Hempty; cbn [negb].
  { now destruct (stored (savings_csv (files w))). }
  set (recent := List.filter _ (savings_listing w)).
  assert (Hlen : length (cumsum (List.map sav_deposit recent)) = length recent)
    by now rewrite cumsum_length, length_map.
  assert (Hcum : forall (i : nat) (r : savings_row) (c : Q),
             combine recent (cumsum (List.map sav_deposit recent)) !! i
             = Some (r, c) ->
             c == column_sum sav_deposit (take (Datatypes.S i) recent)).
  { intros i r c Hl. apply combine_lookup in Hl as [_ Hc].
    apply cumsum_lookup in Hc. rewrite Hc. unfold column_sum.
    change (List.map ?f ?l) with (f <$> l). now rewrite fmap_take. }
  split; [| split].
  - clear Hcum. revert Hlen. generalize (cumsum (List.map sav_deposit recent)).
    induction recent as [|r recent IH]; intros [|c cs] Hlen; cbn in *;
      try reflexivity; try discriminate.
    f_equal. apply IH. congruence.
  - exact Hcum.
  - intros r c Hlast. rewrite last_lookup in Hlast.
    pose proof (Hcum _ _ _ Hlast) as Hc. rewrite Hc.
    rewrite length_combine, Hlen, Nat.min_id.
    destruct recent as [|r1 recent']; [discriminate |].
    now rewrite take_ge by (cbn; lia).
Qed.

(** ** What the trend chart plots *)

Lemma column_sum_map {A B} (f : B -> Q) (g : A -> B) (l : list A) :
  column_sum f (List.map g l) = column_sum (fun x => f (g x)) l.
Proof. unfold column_sum. now rewrite List.map_map. Qed.

Lemma column_sum_ext {A} (f g : A -> Q) (l : list A) :
  (forall x, In x l -> f x == g x) -> column_sum f l == column_sum g l.
Proof.
  induction l as [|x l IH]; intros Hfg; [reflexivity |].
  rewrite !column_sum_cons.
  assert (Hl : column_sum f l == column_sum g l)
    by (apply IH; intros y Hy; apply Hfg; now right).
  assert (Hx : f x == g x) by (apply Hfg; now left).
  rewrite Hl, Hx. reflexivity.
Qed.

Lemma column_sum_plus {A} (f g : A -> Q) (l : list A) :
  column_sum (fun x => f x + g x) l == column_sum f l + column_sum g l.
Proof.
  induction l as [|x l IH]; [unfold column_sum; cbn; lra |].
  rewrite !column_sum_cons, IH. lra.
Qed.

Lemma column_sum_indicator (k : date) (c : Q) (l : list date) :
  List.NoDup l ->
  column_sum (fun d => if (k =? d)%Z then c else 0) l
  == if existsb (Z.eqb k) l then c else 0.
Proof.
  induction 1 as [|d l Hnotin _ IH]; [reflexivity |].
  rewrite column_sum_cons, IH. cbn [existsb].
  destruct (Z.eqb_spec k d) as [-> | _]; cbn [orb]; [| lra].
  replace (existsb (Z.eqb d) l) with false; [lra |].
  symmetry. apply not_true_iff_false. intros Hex.
  apply existsb_exists in Hex as (x & Hx & Heq).
  apply Z.eqb_eq in Heq. now subst.
Qed.

Lemma day_total_cons {A} (key : A -> date) (column : A -> Q) (d : date)
    (r : A) (df : list A) :
  day_total key column d (r :: df)
  == (if (key r =? d)%Z then column r else 0) + day_total key column d df.
Proof.
  unfold day_total. cbn [List.filter].
  destruct (key r =? d)%Z; [apply column_sum_cons | lra].
Qed.

(** Over days that are all different and include the day of every row,
    the sums of the days add up to the sum of the rows. *)
Lemma day_totals_add_up {A} (key : A -> date) (column : A -> Q)
    (days : list date) (df : list A) :
  List.NoDup days ->
  (forall r, In r df -> In (key r) days) ->
  column_sum (fun d => day_total key column d df) days == column_sum column df.
Proof.
  intros Hnodup. induction df as [|r df IH]; intros Hkeys.
  - unfold day_total. cbn [List.filter].
    induction days as [|d days IHd]; [reflexivity |].
    rewrite column_sum_cons, IHd by now inversion Hnodup. reflexivity.
  - rewrite (column_sum_ext _
               (fun d => (if (key r =? d)%Z then column r else 0)
                         + day_total key column d df))
      by (intros d _; apply day_total_cons).
    rewrite column_sum_plus, column_sum_indicator, IH, column_sum_cons
      by (auto; intros r' Hr'; apply Hkeys; now right).
    replace (existsb (Z.eqb (key r)) days) with true; [reflexivity |].
    symmetry. apply existsb_exists. exists (key r).
    split; [apply Hkeys; now left | apply Z.eqb_refl].
Qed.

Lemma date_range_nodup (start_date end_date : date) :
  List.NoDup (date_range start_date end_date).
Proof.
  unfold date_range. apply Finite.Injective_map_NoDup; [| apply List.seq_NoDup].
  intros i j Hij. lia.
Qed.

Lemma date_range_in (start_date end_date d : date) :
  in_window start_date end_date d = true -> In d (date_range start_date end_date).
Proof.
  intros Hw. apply in_window_bounds in Hw. unfold date_range.
  apply in_map_iff. exists (Z.to_nat (d - start_date)).
  split; [lia |]. apply in_seq. lia.
Qed.

Lemma chart_value (d : date) (recent : list non_essential_row) :
  match find_group d (groupby_sum ne_date ne_amount recent) with
  | Some a => a
  | None => 0
  end == day_total ne_date ne_amount d recent.
Proof.
  pose proof (find_group_groupby_sum ne_date ne_amount d recent) as Hfind.
  destruct (find_group d (groupby_sum ne_date ne_amount recent)).
  - apply Hfind.
  - now rewrite no_row_day_total.
Qed.

(** X10. What [create_spending_trend_chart] shows: "no spending data"
    exactly for an empty table, "no spending data for the last days" exactly
    when the table has rows but none in the window (as for a negative number
    of days), and otherwise a series whose amounts add up to what was spent
    in the window, with the average line at that total divided by
    [days + 1]. *)
Theorem trend_chart_cases (today : date) (days : Z)
    (data : list non_essential_row) :
  let recent :=
    List.filter (fun r => in_window (today - days)%Z today (ne_date r)) data in
  (create_spending_trend_chart today data days = NoSpendingData <-> data = [])
  /\ (create_spending_trend_chart today data days = NoSpendingDataForLast days
      <-> data <> [] /\ recent = [])
  /\ ((days < 0)%Z -> recent = [])
  /\ (recent <> [] ->
      exists complete avg,
        create_spending_trend_chart today data days = SpendingTrend complete avg
        /\ column_sum snd complete == column_sum ne_amount recent
        /\ avg == column_sum ne_amount recent / inject_Z (days + 1)).
Proof.
  intros recent. unfold create_spending_trend_chart. cbv zeta. fold recent.
  split; [| split; [| split]].
  - destruct data; [cbn [empty]; tauto |]. cbn [empty].
    destruct (empty recent) eqn:He;
      (split; [intros H; discriminate H | intros H; discriminate H]).
  - destruct data as [|r0 data'].
    { cbn [empty]. split; [intros H; discriminate H | intros [H _]; now destruct H]. }
    cbn [empty]. destruct recent; cbn [empty].
    + split; [intros _; split; [discriminate | reflexivity] | reflexivity].
    + split; [intros H; discriminate H | intros [_ H]; discriminate H].
  - intros Hneg. unfold recent.
    induction data as [|r data IH]; [reflexivity |]. cbn [List.filter].
    destruct (in_window _ today (ne_date r)) eqn:Hw; [| exact IH].
    apply in_window_bounds in Hw. lia.
  - intros Hne.
    assert (He1 : empty data = false).
    { destruct data; [now destruct Hne | reflexivity]. }
    assert (He2 : empty recent = false) by (destruct recent; [now destruct Hne | reflexivity]).
    assert (Hdays : (0 <= days)%Z).
    { destruct recent as [|r rest] eqn:Hr; [now destruct Hne |].
      assert (Hin : In r recent) by (rewrite Hr; now left).
      apply filter_In in Hin as [_ Hw]. apply in_window_bounds in Hw. lia. }
    rewrite He1, He2. eexists _, _. split; [reflexivity |].
    rewrite merge_left_fillna0 by apply groupby_sum_increasing.
    assert (Hsum : column_sum snd
                     (List.map
                        (fun d => (d, match find_group d
                                              (groupby_sum ne_date ne_amount recent)
                                      with
                                      | Some a => a
                                      | None => 0
                                      end))
                        (date_range (today - days)%Z today))
                   == column_sum ne_amount recent).
    { rewrite column_sum_map. cbn [snd].
      rewrite (column_sum_ext _ (fun d => day_total ne_date ne_amount d recent))
        by (intros d _; apply chart_value).
      apply day_totals_add_up; [apply date_range_nodup |].
      intros r Hr. apply filter_In in Hr as [_ Hw]. now apply date_range_in. }
    split; [exact Hsum |].
    rewrite Hsum, length_map, date_range_length.
    replace (Z.of_nat (Z.to_nat (today - (today - days) + 1)%Z)) with (days + 1)%Z
      by lia.
    reflexivity.
Qed.

(** ** Integrity of the data *)

Lemma fold_min_nonpositive {A} (column : A -> Q) (rest : list A) (m : Q) :
  fold_left (fun m r => Qmin m (column r)) rest m <= 0
  <-> m <= 0 \/ Exists (fun r => column r <= 0) rest.
Proof.
  revert m. induction rest as [|r rest IH]; intros m; cbn [fold_left].
  - split; [auto | intros [H | H]; [assumption | inversion H]].
  - rewrite IH, Q.min_le_iff, List.Exists_cons. tauto.
Qed.

Lemma column_min_positive {A} (column : A -> Q) (l : list A) :
  l <> [] ->
  Qleb0 (column_min column l) = false <-> Forall (fun r => 0 < column r) l.
Proof.
  intros Hne. destruct l as [|r rest]; [contradiction |].
  unfold Qleb0, column_min.
  rewrite <- not_true_iff_false, Qle_bool_iff, fold_min_nonpositive.
  rewrite List.Forall_cons_iff. split.
  - intros Hno. split; [apply Qnot_le_lt; tauto |].
    apply List.Forall_forall. intros x Hx. apply Qnot_le_lt. intros Hle.
    apply Hno. right. apply List.Exists_exists. eauto.
  - intros [Hr Hrest] [H | H]; [lra |].
    apply List.Exists_exists in H as (x & Hx & Hle).
    rewrite List.Forall_forall in Hrest. specialize (Hrest x Hx). lra.
Qed.

Lemma existsb_false {A} (f : A -> bool) (l : list A) :
  existsb f l = false <-> Forall (fun r => f r = false) l.
Proof.
  induction l as [|x l IH]; cbn [existsb].
  - split; [constructor | reflexivity].
  - rewrite orb_false_iff, IH, List.Forall_cons_iff. reflexivity.
Qed.

Lemma one_issue_nil (b : bool) (m : string) :
  (if b then [m] else []) = [] <-> b = false.
Proof. destruct b; split; congruence. Qed.

Lemma guarded_issues_nil {A} (l : list A) (issues : list string) (P : A -> Prop) :
  (l <> [] -> issues = [] <-> Forall P l) ->
  (if negb (empty l) then issues else []) = [] <-> Forall P l.
Proof.
  destruct l as [|x l]; cbn [empty negb].
  - intros _. split; [constructor | reflexivity].
  - intros H. now apply H.
Qed.

Lemma no_issues (a b c d e : list string) :
  (list_to_map
     (List.filter (fun kv : string * list string => negb (empty (snd kv)))
        [("income", a); ("essentials", b); ("bills", c);
         ("non_essentials", d); ("savings", e)])
   : gmap string (list string)) = ∅
  <-> a = [] /\ b = [] /\ c = [] /\ d = [] /\ e = [].
Proof.
  destruct a, b, c, d, e; cbn [List.filter snd empty negb list_to_map foldr];
    (split;
     [ intros H;
       first [ now repeat split
             | exfalso; now apply insert_non_empty in H ]
     | intros (? & ? & ? & ? & ?); first [reflexivity | discriminate] ]).
Qed.

Lemma forall_sorted (numpy : argsort) {A} (P : A -> Prop) (key : A -> Z)
    (asc : bool) (l : list A) :
  Forall P (sort_by numpy key asc l) <-> Forall P l.
Proof.
  rewrite !List.Forall_forall.
  split; intros H x Hx; apply H; revert Hx; apply Permutation_in;
    [symmetry |]; apply sort_values_perm.
Qed.

Lemma forall_both {A} (P Q : A -> Prop) (l : list A) :
  Forall P l /\ Forall Q l <-> Forall (fun r => P r /\ Q r) l.
Proof.
  rewrite !List.Forall_forall. split.
  - intros [HP HQ] x Hx. auto.
  - intros H. split; intros x Hx; now apply H.
Qed.

Lemma income_issues_nil (l : list income_row) :
  (if negb (empty l)
   then (if Qleb0 (column_min inc_amount l)
         then ["Negative or zero income amounts found"%string] else [])
        ++ (if income_isnull l then ["Missing values found"%string] else [])
   else []) = []
  <-> Forall (fun r => 0 < inc_amount r /\ inc_description r <> ""%string) l.
Proof.
  apply guarded_issues_nil. intros Hne.
  rewrite app_nil, !one_issue_nil, (column_min_positive _ _ Hne).
  unfold income_isnull. rewrite existsb_false, forall_both.
  split; apply List.Forall_impl; intros r [Ha Hd]; (split; [assumption |]).
  - intros Heq. apply String.eqb_eq in Heq. congruence.
  - apply not_true_iff_false. intros Heq. now apply String.eqb_eq in Heq.
Qed.

Lemma essentials_issues_nil (l : list essential_row) :
  (if negb (empty l)
   then (if existsb (fun r => Qltb0 (ess_expected r)) l
            || existsb (fun r => Qltb0 (ess_actual r)) l
         then ["Negative amounts found"%string] else [])
   else []) = []
  <-> Forall (fun r => 0 <= ess_expected r /\ 0 <= ess_actual r) l.
Proof.
  apply guarded_issues_nil. intros _.
  rewrite one_issue_nil, orb_false_iff, !existsb_false, forall_both.
  unfold Qltb0.
  split; apply List.Forall_impl; intros r [He Ha].
  - split; now apply Qgtb_false.
  - split; now apply Qgtb_false.
Qed.

Lemma bills_issues_nil (l : list bill_row) :
  (if negb (empty l)
   then (if Qleb0 (column_min amount_due l)
         then ["Non-positive bill amounts found"%string] else [])
        ++ (if existsb (fun r => negb (String.eqb (status r) "Paid"
                                       || String.eqb (status r) "Unpaid")) l
            then ["Invalid status values found"%string] else [])
   else []) = []
  <-> Forall (fun r => 0 < amount_due r
                       /\ (status r = "Paid"%string \/ status r = "Unpaid"%string)) l.
Proof.
  apply guarded_issues_nil. intros Hne.
  rewrite app_nil, !one_issue_nil, (column_min_positive _ _ Hne).
  rewrite existsb_false, forall_both.
  split; apply List.Forall_impl; intros r [Ha Hs]; (split; [assumption |]).
  - apply negb_false_iff, orb_true_iff in Hs.
    destruct Hs as [Hs | Hs]; apply String.eqb_eq in Hs; auto.
  - apply negb_false_iff, orb_true_iff.
    destruct Hs as [Hs | Hs]; [left | right]; now apply String.eqb_eq.
Qed.

Lemma amount_issues_nil {A} (column : A -> Q) (m : string) (l : list A) :
  (if negb (empty l)
   then (if Qleb0 (column_min column l) then [m] else [])
   else []) = []
  <-> Forall (fun r => 0 < column r) l.
Proof.
  apply guarded_issues_nil. intros Hne.
  now rewrite one_issue_nil, (column_min_positive _ _ Hne).
Qed.

Lemma issues_per_collection (a b c d e : list string) :
  let issues : gmap string (list string) :=
    list_to_map
      (List.filter (fun kv : string * list string => negb (empty (snd kv)))
         [("income", a); ("essentials", b); ("bills", c);
          ("non_essentials", d); ("savings", e)]) in
  (issues !! "income" = None <-> a = [])
  /\ (issues !! "essentials" = None <-> b = [])
  /\ (issues !! "bills" = None <-> c = [])
  /\ (issues !! "non_essentials" = None <-> d = [])
  /\ (issues !! "savings" = None <-> e = []).
Proof.
  destruct a, b, c, d, e; cbn [List.filter snd empty negb];
    repeat split; intros H; first [reflexivity | discriminate H].
Qed.

(** X11. [validate_data_integrity] reads the five collections without
    writing. It has nothing to report on the essentials exactly when no
    expected or actual amount is negative, on the bills exactly when every
    bill has a positive amount and a status that is "Paid" or "Unpaid", and
    on the non-essentials and on the savings exactly when every amount is
    positive. When it has nothing to report on the income, every income
    amount is positive and no income description is missing; so when it
    reports nothing at all, all of this holds. *)
Theorem validate_data_integrity_reports (w : world) :
  exists issues w',
    validate_data_integrity w = (Ok issues, w')
    /\ files w' = files w
    /\ (issues !! "income" = None ->
        Forall (fun r => 0 < inc_amount r /\ inc_description r <> ""%string)
          (stored (income_csv (files w))))
    /\ (issues !! "essentials" = None
        <-> Forall (fun r => 0 <= ess_expected r /\ 0 <= ess_actual r)
              (stored (essentials_csv (files w))))
    /\ (issues !! "bills" = None
        <-> Forall (fun r => 0 < amount_due r
                             /\ (status r = "Paid"%string
                                 \/ status r = "Unpaid"%string))
              (stored (bills_csv (files w))))
    /\ (issues !! "non_essentials" = None
        <-> Forall (fun r => 0 < ne_amount r)
              (stored (non_essentials_csv (files w))))
    /\ (issues !! "savings" = None
        <-> Forall (fun r => 0 < sav_deposit r) (stored (savings_csv (files w))))
    /\ (issues = ∅ -> passes_integrity (files w)).
Proof.
  destruct (five_loaders_run w)
    as (w1 & w2 & w3 & w4 & w5 & Hrun1 & Hrun2 & Hrun3 & Hrun4 & Hrun5 & Hfiles).
  unfold validate_data_integrity. cbv zeta.
  erewrite bind_ok by exact Hrun1.
  erewrite bind_ok by exact Hrun2.
  erewrite bind_ok by exact Hrun3.
  erewrite bind_ok by exact Hrun4.
  erewrite bind_ok by exact Hrun5.
  eexists _, w5. split; [reflexivity |]. split; [assumption |].
  match goal with
  | |- context [list_to_map (List.filter _ [(_, ?a); (_, ?b); (_, ?c);
                                            (_, ?d); (_, ?e)])] =>
      destruct (issues_per_collection a b c d e) as (Hi & He & Hb & Hn & Hs);
      pose proof (no_issues a b c d e) as Hnone
  end.
  cbv zeta in Hi, He, Hb, Hn, Hs.
  rewrite Hi, He, Hb, Hn, Hs, Hnone.
  rewrite income_issues_nil, essentials_issues_nil, bills_issues_nil,
    !amount_issues_nil.
  unfold passes_integrity, income_listing, bills_listing,
    non_essentials_listing, savings_listing.
  rewrite !forall_sorted. tauto.
Qed.

(** ** The income form *)



(** ** Loading and saving settings *)

Lemma json_load_native (j : json) : json_native (json_load j) = true.
Proof.
  revert j. fix IH 1.
  intros [ | b | n | x | s | items]; cbn; try reflexivity.
  induction items as [|j items IHitems]; cbn; [reflexivity |].
  now rewrite IH, IHitems.
Qed.

Lemma get_default_settings_native : native_settings get_default_settings.
Proof.
  intros k v Hk. unfold get_default_settings in Hk.
  apply elem_of_list_to_map_2 in Hk.
  repeat (apply elem_of_cons in Hk as [[= _ ->] | Hk]; [reflexivity |]).
  now apply elem_of_nil in Hk.
Qed.

Lemma load_settings_from_json (load_settings_from_csv : M (gmap string pyval))
    (self : SettingsManager) (w : world) (members : gmap string json) :
  settings_json w = Some (JsonObject members) ->
  load_settings load_settings_from_csv self w
  = (Ok ((json_load <$> members) ∪ default_settings self), w).
Proof. intros Hj. unfold load_settings, try_except. now rewrite Hj. Qed.

Lemma save_settings_run (self : SettingsManager) (settings : gmap string pyval)
    (w : world) :
  writable w = true ->
  exists w1,
    save_settings self settings w = (Ok tt, w1)
    /\ settings_json w1 = Some (JsonObject (json_dump <$> settings))
    /\ files w1 = files w
    /\ writable w1 = true.
Proof.
  intros Hw. start_writable w Hw.
  unfold save_settings, try_except, bind, open_for_writing, set_settings_json.
  cbn.
  unfold save_settings_to_csv, try_except, bind, open_for_writing,
    set_settings_csv, raise, print.
  destruct (mapM _ (map_to_list settings)); cbn; eexists; repeat split.
Qed.

(** X13. When [settings.json] holds a JSON object whose values are
    scalars, booleans or lists of them, or text that is not JSON at all,
    [load_settings] never raises, writes nothing and returns a map that has
    every default key. For the object, a key of the file has the value of
    the file and any other key its default, and nothing is printed; for the
    text that is not JSON, the defaults are returned and a message is
    printed. If the defaults are scalars, booleans and lists of them, so is
    everything returned. *)
Theorem load_settings_covers_defaults
    (load_settings_from_csv : M (gmap string pyval)) (self : SettingsManager)
    (w : world) (file : json_file) :
  settings_json w = Some file ->
  exists m w',
    load_settings load_settings_from_csv self w = (Ok m, w')
    /\ dom (default_settings self) ⊆ dom m
    /\ files w' = files w
    /\ settings_json w' = settings_json w
    /\ settings_csv w' = settings_csv w
    /\ write_log w' = write_log w
    /\ (native_settings (default_settings self) -> native_settings m)
    /\ match file with
       | JsonObject members =>
           w' = w
           /\ forall k,
               m !! k = match members !! k with
                        | Some j => Some (json_load j)
                        | None => default_settings self !! k
                        end
       | JsonGarbage =>
           m = default_settings self
           /\ stdout w' = stdout w ++ ["Error loading settings"]
       end.
Proof.
  intros Hj. destruct file as [members|].
  - rewrite (load_settings_from_json _ _ _ _ Hj).
    eexists _, w. split; [reflexivity |].
    assert (Hlookup : forall k,
               ((json_load <$> members) ∪ default_settings self) !! k
               = match members !! k with
                 | Some j => Some (json_load j)
                 | None => default_settings self !! k
                 end).
    { intros k. destruct (members !! k) as [j|] eqn:Hm.
      - apply lookup_union_Some_l. now rewrite lookup_fmap, Hm.
      - apply lookup_union_r. now rewrite lookup_fmap, Hm. }
    repeat split; try reflexivity; try assumption.
    + rewrite dom_union. set_solver.
    + intros Hnat k v Hk. rewrite Hlookup in Hk.
      destruct (members !! k); [| now apply (Hnat k)].
      injection Hk as <-. apply json_load_native.
  - unfold load_settings, try_except. rewrite Hj. cbn.
    eexists _, _. split; [reflexivity |]. cbn. repeat split; auto.
Qed.

Lemma load_settings_covers_defaults_witness :
  exists m w',
    load_settings (ret ∅) new_settings_manager
      {| files := empty_store; settings_json := Some JsonGarbage;
         settings_csv := None; writable := true; stdout := [];
         write_log := []; numpy_argsort := stable_argsort |} = (Ok m, w')
    /\ m = get_default_settings.
Proof.
  destruct (load_settings_covers_defaults (ret ∅) new_settings_manager
              {| files := empty_store; settings_json := Some JsonGarbage;
                 settings_csv := None; writable := true; stdout := [];
                 write_log := []; numpy_argsort := stable_argsort |}
              JsonGarbage eq_refl)
    as (m & w' & Hrun & _ & _ & _ & _ & _ & _ & Hm & _).
  exists m, w'. split; assumption.
Defined.

Lemma load_settings_returns (load_settings_from_csv : M (gmap string pyval))
    (self : SettingsManager) (w : world) :
  exists m w', load_settings load_settings_from_csv self w = (Ok m, w').
Proof.
  unfold load_settings, try_except.
  destruct (settings_json w) as [[members|]|]; cbn; eauto.
  destruct (load_settings_from_csv w) as [[m|e] w']; cbn; eauto.
Qed.

(** X14. After [set_setting key value], with the write permitted when the
    save is reached and a value that is a scalar, a boolean or a list of
    them, [get_setting key] returns [value], whatever default it is given
    and whether or not a settings file existed before. When the file was a
    JSON object and the defaults are scalars, booleans and lists, every
    other key is read as before. *)
Theorem set_setting_then_get_setting
    (load_settings_from_csv : M (gmap string pyval)) (self : SettingsManager)
    (key : string) (value default : pyval) (w : world) :
  writable (snd (load_settings load_settings_from_csv self w)) = true ->
  json_native value = true ->
  exists w1,
    set_setting load_settings_from_csv self key value w = (Ok tt, w1)
    /\ get_setting load_settings_from_csv self key default w1 = (Ok value, w1)
    /\ (forall members,
           settings_json w = Some (JsonObject members) ->
           native_settings (default_settings self) ->
           forall other d,
             other <> key ->
             fst (get_setting load_settings_from_csv self other d w1)
             = fst (get_setting load_settings_from_csv self other d w)).
Proof.
  intros Hw Hnative.
  destruct (load_settings_returns load_settings_from_csv self w)
    as (m & w0 & Hload).
  rewrite Hload in Hw. cbn in Hw.
  destruct (save_settings_run self (<[key := value]> m) w0 Hw)
    as (w1 & Hsave & Hjson & _ & _).
  exists w1.
  assert (Hset : set_setting load_settings_from_csv self key value w = (Ok tt, w1)).
  { unfold set_setting. erewrite bind_ok by exact Hload. exact Hsave. }
  assert (Hreload := load_settings_from_json load_settings_from_csv self w1 _ Hjson).
  split; [exact Hset |]. split.
  - unfold get_setting. erewrite bind_ok by exact Hreload. unfold ret.
    erewrite lookup_union_Some_l; [reflexivity |].
    rewrite !lookup_fmap, lookup_insert_eq. cbn.
    now rewrite json_round_trip.
  - intros members Hj Hdefaults other d Hother.
    rewrite (load_settings_from_json _ _ _ _ Hj) in Hload.
    injection Hload as <- <-.
    unfold get_setting.
    erewrite bind_ok by exact Hreload.
    erewrite bind_ok by exact (load_settings_from_json _ _ _ _ Hj).
    unfold ret. cbn [fst]. f_equal.
    set (m := (json_load <$> members) ∪ default_settings self).
    assert (Hm : native_settings m).
    { intros k v Hk. unfold m in Hk. apply lookup_union_Some_raw in Hk.
      destruct Hk as [Hk | [_ Hk]]; [| now apply (Hdefaults k)].
      rewrite lookup_fmap in Hk. destruct (members !! k); [| discriminate].
      injection Hk as <-. apply json_load_native. }
    assert (Hsame : ((json_load <$> (json_dump <$> <[key := value]> m))
                     ∪ default_settings self) !! other = m !! other).
    { destruct (m !! other) as [v|] eqn:Hv.
      - apply lookup_union_Some_l.
        rewrite !lookup_fmap, lookup_insert_ne, Hv by congruence. cbn.
        now rewrite json_round_trip by now apply (Hm other).
      - assert (Hd : default_settings self !! other = None).
        { unfold m in Hv. now apply lookup_union_None in Hv as [_ ?]. }
        apply lookup_union_None. split; [| assumption].
        now rewrite !lookup_fmap, lookup_insert_ne, Hv by congruence. }
    now rewrite Hsame.
Qed.

Lemma set_setting_then_get_setting_witness :
  exists w1,
    set_setting (ret get_default_settings) new_settings_manager "theme"
      (PStr "light") (world_of empty_store true) = (Ok tt, w1)
    /\ get_setting (ret get_default_settings) new_settings_manager "theme"
         PNone w1 = (Ok (PStr "light"), w1).
Proof.
  destruct (set_setting_then_get_setting (ret get_default_settings)
              new_settings_manager "theme" (PStr "light") PNone
              (world_of empty_store true) eq_refl eq_refl)
    as (w1 & Hset & Hget & _).
  exists w1. split; assumption.
Defined.

(** ** Migration and reset of the settings *)

Lemma migrate_nothing_missing (l : list (string * pyval))
    (m : gmap string pyval) (b : bool) :
  (forall kv, In kv l -> is_Some (m !! fst kv)) ->
  fold_left migrate_step l (m, b) = (m, b).
Proof.
  induction l as [|kv l IH]; intros Hall; [reflexivity |].
  cbn [fold_left]. unfold migrate_step at 2. cbn [fst].
  destruct (Hall kv (or_introl eq_refl)) as [v Hv]. rewrite Hv.
  apply IH. intros kv' Hin. apply Hall. now right.
Qed.

(** X15. [migrate_settings] finds nothing to add and saves nothing: it
    returns [False] and leaves the world as [load_settings] leaves it,
    because what [load_settings] returns already has every default key.
    This holds whenever the loader of the legacy CSV file, if it is reached
    and returns, returns a map with every default key, as the one of the
    program does by starting from a copy of the defaults. *)
Theorem migrate_settings_never_saves
    (load_settings_from_csv : M (gmap string pyval)) (self : SettingsManager)
    (w : world) :
  (forall m w0,
      load_settings_from_csv w = (Ok m, w0) ->
      dom (default_settings self) ⊆ dom m) ->
  migrate_settings load_settings_from_csv self w
  = (Ok false, snd (load_settings load_settings_from_csv self w)).
Proof.
  intros Hlegacy.
  assert (Hcover : exists m w0,
             load_settings load_settings_from_csv self w = (Ok m, w0)
             /\ dom (default_settings self) ⊆ dom m).
  { unfold load_settings, try_except.
    destruct (settings_json w) as [[members|]|]; cbn.
    - eexists _, _. split; [reflexivity |]. rewrite dom_union. set_solver.
    - eexists _, _. split; [reflexivity |]. set_solver.
    - destruct (load_settings_from_csv w) as [[m|e] w0] eqn:Hl; cbn.
      + eexists _, _. split; [reflexivity |]. now apply (Hlegacy m w0).
      + eexists _, _. split; [reflexivity |]. set_solver. }
  destruct Hcover as (m & w0 & Hload & Hdom).
  unfold migrate_settings. erewrite bind_ok by exact Hload.
  rewrite Hload. cbn [snd]. cbv zeta.
  rewrite migrate_nothing_missing; [reflexivity |].
  intros [k v] Hin. cbn [fst].
  apply list_elem_of_In, elem_of_map_to_list in Hin.
  apply elem_of_dom, Hdom, elem_of_dom. now exists v.
Qed.

Lemma migrate_settings_never_saves_witness :
  migrate_settings (ret get_default_settings) new_settings_manager
    (world_of empty_store true)
  = (Ok false,
     snd (load_settings (ret get_default_settings) new_settings_manager
            (world_of empty_store true))).
Proof.
  apply migrate_settings_never_saves.
  intros m w0 [= <- _]. reflexivity.
Defined.

(** X16. With the write permitted and defaults that are scalars, booleans
    and lists of them, [reset_settings] returns and leaves the data files
    alone; [load_settings] then returns exactly the defaults. *)
Theorem reset_settings_restores_defaults
    (load_settings_from_csv : M (gmap string pyval)) (self : SettingsManager)
    (w : world) :
  writable w = true ->
  native_settings (default_settings self) ->
  exists w1,
    reset_settings self w = (Ok tt, w1)
    /\ files w1 = files w
    /\ load_settings load_settings_from_csv self w1
       = (Ok (default_settings self), w1).
Proof.
  intros Hw Hnative.
  destruct (save_settings_run self (default_settings self) w Hw)
    as (w1 & Hsave & Hjson & Hfiles & _).
  exists w1. split; [exact Hsave |]. split; [exact Hfiles |].
  rewrite (load_settings_from_json _ _ _ _ Hjson).
  rewrite settings_round_trip_values by exact Hnative.
  now rewrite map_union_idemp.
Qed.

Lemma reset_settings_restores_defaults_witness :
  exists w1,
    reset_settings new_settings_manager (world_of scenario_store true) = (Ok tt, w1)
    /\ load_settings (ret ∅) new_settings_manager w1
       = (Ok get_default_settings, w1).
Proof.
  destruct (reset_settings_restores_defaults (ret ∅) new_settings_manager
              (world_of scenario_store true) eq_refl get_default_settings_native)
    as (w1 & Hreset & _ & Hload).
  exists w1. split; assumption.
Defined.

(** X17. When the write is refused, [save_settings] prints, raises to the
    caller and leaves both settings files as they were. When the write is
    permitted but a list among the values holds an object that [json.dumps]
    cannot write without a [default], the save still returns: the JSON file
    holds the new settings, while the failure of the CSV copy is only
    printed and the CSV file keeps its old content. *)
Theorem save_settings_failures (self : SettingsManager)
    (settings : gmap string pyval) (w : world) :
  (writable w = false ->
   exists w',
     save_settings self settings w
     = (Raise (Wrapped "Failed to save settings" OSError), w')
     /\ settings_json w' = settings_json w
     /\ settings_csv w' = settings_csv w
     /\ stdout w' = stdout w ++ ["Error saving settings"])
  /\ (writable w = true ->
      (exists k v, settings !! k = Some v /\ csv_cell_of v = None) ->
      exists w',
        save_settings self settings w = (Ok tt, w')
        /\ settings_json w' = Some (JsonObject (json_dump <$> settings))
        /\ settings_csv w' = settings_csv w
        /\ stdout w' = stdout w ++ ["Error saving CSV settings"]).
Proof.
  destruct w as [fs sj sc wr out wl np].
  cbn [writable settings_json settings_csv stdout].
  split; intros ->.
  - cbn. eexists. repeat split.
  - intros (k & v & Hk & Hcell).
    assert (Hnone : mapM (fun kv : string * pyval =>
                            pair (fst kv) <$> csv_cell_of (snd kv))
                      (map_to_list settings) = None).
    { apply mapM_None_2, Exists_exists. exists (k, v).
      split; [now apply elem_of_map_to_list |]. cbn. now rewrite Hcell. }
    unfold save_settings, try_except, bind, open_for_writing, set_settings_json.
    cbn.
    unfold save_settings_to_csv, try_except, bind, raise, print.
    rewrite Hnone. cbn. eexists. repeat split.
Qed.

Lemma save_settings_failures_witness :
  exists w',
    save_settings new_settings_manager
      {["income_categories" := PList [PObject "2024-01-01"]]}
      (world_of empty_store true) = (Ok tt, w')
    /\ settings_csv w' = None
    /\ settings_json w'
       = Some (JsonObject {["income_categories" := JArray [JString "2024-01-01"]]}).
Proof.
  destruct (proj2 (save_settings_failures new_settings_manager
                     {["income_categories" := PList [PObject "2024-01-01"]]}
                     (world_of empty_store true)) eq_refl)
    as (w' & Hsave & Hjson & Hcsv & _).
  { exists "income_categories", (PList [PObject "2024-01-01"]).
    split; [apply lookup_singleton_eq | reflexivity]. }
  exists w'. split; [exact Hsave |]. split; [exact Hcsv |].
  rewrite Hjson. now rewrite map_fmap_singleton.
Defined.

(** ** The delete buttons *)

(** X19. The delete buttons of income and bills do nothing when the user
    declines. When the user confirms and the position is outside the
    listing, they still announce a successful deletion although no file was
    written. When the position is in the listing and the write is refused,
    the exception of the [DataManager] escapes the handler, which catches
    nothing. *)
Theorem delete_buttons_report_success_for_no_op (index : Z) (w : world) :
  app_delete_income false index w = (Declined, w)
  /\ app_delete_bill false index w = (Declined, w)
  /\ (((index < 0)%Z \/ (Z.of_nat (collection_length DeleteIncome w) <= index)%Z) ->
      fst (app_delete_income true index w)
      = Shown (ShowInfo "Income entry deleted successfully!")
      /\ files (snd (app_delete_income true index w)) = files w
      /\ write_log (snd (app_delete_income true index w)) = write_log w)
  /\ (((index < 0)%Z \/ (Z.of_nat (collection_length DeleteBill w) <= index)%Z) ->
      fst (app_delete_bill true index w)
      = Shown (ShowInfo "Bill deleted successfully!")
      /\ files (snd (app_delete_bill true index w)) = files w
      /\ write_log (snd (app_delete_bill true index w)) = write_log w)
  /\ (writable w = false ->
      ((0 <= index < Z.of_nat (collection_length DeleteIncome w))%Z ->
       fst (app_delete_income true index w)
       = Escaped (FromDataManager (Wrapped "Error deleting income" OSError))
       /\ files (snd (app_delete_income true index w)) = files w)
      /\ ((0 <= index < Z.of_nat (collection_length DeleteBill w))%Z ->
          fst (app_delete_bill true index w)
          = Escaped (FromDataManager (Wrapped "Error deleting bill" OSError))
          /\ files (snd (app_delete_bill true index w)) = files w)).
Proof.
  split; [reflexivity |]. split; [reflexivity |].
  unfold collection_length, app_delete_income, app_delete_bill, run_handler,
    delete_income, delete_bill, try_except, bind.
  rewrite !get_income_data_eq, !get_bills_data_eq.
  destruct w as [fs sj sc wr out wl np]. cbn [files writable write_log].
  split; [| split; [| intros ->; split]]; intros Hin.
  - destruct (income_csv fs) as [rows|] eqn:Hf; cbn in Hin;
      rewrite ?sort_values_length, guard_out_of_range by assumption;
      cbn; rewrite get_income_data_eq; cbn; rewrite Hf; cbn; auto.
  - destruct (bills_csv fs) as [rows|] eqn:Hf; cbn in Hin;
      rewrite ?sort_values_length, guard_out_of_range by assumption;
      cbn; rewrite get_bills_data_eq; cbn; rewrite Hf; cbn; auto.
  - destruct (income_csv fs) as [rows|]; cbn in Hin; [| lia].
    rewrite sort_values_length, guard_in_range by assumption. cbn. auto.
  - destruct (bills_csv fs) as [rows|]; cbn in Hin; [| lia].
    rewrite sort_values_length, guard_in_range by assumption. cbn. auto.
Qed.

Lemma delete_buttons_report_success_for_no_op_witness :
  fst (app_delete_income true 7 (world_of scenario_store true))
  = Shown (ShowInfo "Income entry deleted successfully!")
  /\ files (snd (app_delete_income true 7 (world_of scenario_store true)))
     = scenario_store.
Proof.
  destruct (delete_buttons_report_success_for_no_op 7 (world_of scenario_store true))
    as (_ & _ & Hout & _).
  destruct Hout as (Hshown & Hfiles & _); [right; cbn; lia |].
  split; assumption.
Defined.

(** ** Paying a bill *)

Lemma delete_after_insert {A} (i : nat) (y : A) (l : list A) :
  delete i (<[i := y]> l) = delete i l.
Proof.
  revert i. induction l as [|x l IH]; intros [|i]; cbn; try reflexivity.
  f_equal. apply IH.
Qed.

Lemma filter_replaced {A} (f : A -> bool) (i : nat) (x y : A) (l : list A) :
  l !! i = Some x ->
  f y = false ->
  Permutation (List.filter f l)
    ((if f x then [x] else []) ++ List.filter f (<[i := y]> l)).
Proof.
  intros Hx Hy.
  assert (Hlt : (i < length l)%nat) by (eapply lookup_lt_Some; eassumption).
  assert (Hl : Permutation l (x :: delete i l)) by now apply delete_Permutation.
  assert (Hl' : Permutation (<[i := y]> l) (y :: delete i l)).
  { rewrite <- (delete_after_insert i y l).
    apply delete_Permutation. now apply list_lookup_insert_eq. }
  rewrite (filter_perm f _ _ Hl), (filter_perm f _ _ Hl').
  cbn [List.filter]. rewrite Hy. now destruct (f x).
Qed.

Lemma selected_bills_of_file (f : bill_row -> bool) (w : world)
    (l : list bill_row) :
  bills_csv (files w) = Readable l ->
  (do bills <- get_bills_data;
   if empty bills then ret []
   else sort_values due_date true (List.filter f bills)) w
  = (Ok (sort_by (numpy_argsort w) due_date true
           (List.filter f (sort_by (numpy_argsort w) due_date true l))), w).
Proof.
  intros Hf. unfold bind. rewrite get_bills_data_eq, Hf. apply selected_bills.
Qed.

Lemma selected_bills_same (numpy : argsort) (f : bill_row -> bool)
    (l : list bill_row) :
  Permutation
    (sort_by numpy due_date true
       (List.filter f (sort_by numpy due_date true l)))
    (List.filter f l).
Proof. now apply selected_bills_perm. Qed.

(** X20. Marking an unpaid bill as paid takes exactly that bill out of the
    overdue and the upcoming bills: what was listed before is what is listed
    afterwards together with that bill, if it was overdue, or upcoming. When
    the write is refused the toggle raises and the bills file is as it
    was. *)
Theorem paying_a_bill_clears_it (today : date) (horizon index : Z) (w : world)
    (rows : list bill_row) (r : bill_row) :
  bills_csv (files w) = Readable rows ->
  (0 <= index)%Z ->
  bills_listing w !! Z.to_nat index = Some r ->
  status r = "Unpaid"%string ->
  (writable w = true ->
   exists w1 over0 over1 up0 up1,
     toggle_bill_status index w = (Ok tt, w1)
     /\ fst (get_overdue_bills today w) = Ok over0
     /\ fst (get_overdue_bills today w1) = Ok over1
     /\ Permutation over0 ((if is_overdue today r then [r] else []) ++ over1)
     /\ fst (get_upcoming_bills today horizon w) = Ok up0
     /\ fst (get_upcoming_bills today horizon w1) = Ok up1
     /\ Permutation up0 ((if is_upcoming today horizon r then [r] else []) ++ up1))
  /\ (writable w = false ->
      fst (toggle_bill_status index w)
      = Raise (Wrapped "Error toggling bill status" OSError)
      /\ files (snd (toggle_bill_status index w)) = files w).
Proof.
  intros Hfile Hpos Hr Hst.
  unfold bills_listing in Hr. rewrite Hfile in Hr. cbn [stored] in Hr.
  set (listing := sort_by (numpy_argsort w) due_date true rows) in *.
  assert (Hlt : (Z.to_nat index < length listing)%nat)
    by (eapply lookup_lt_Some; eassumption).
  split; intros Hw.
  - destruct (toggle_bill_status_once index w rows r Hfile Hw Hpos Hr)
      as (w1 & Ht & Hf1 & _ & Hnp1).
    rewrite Hst, String.eqb_refl in Hf1.
    set (r1 := set_status "Paid" r) in Hf1.
    fold listing in Hf1.
    set (l1 := <[Z.to_nat index := r1]> listing) in Hf1.
    assert (Hfile1 : bills_csv (files w1) = Readable l1) by now rewrite Hf1.
    exists w1. do 4 eexists.
    split; [exact Ht |].
    unfold get_overdue_bills, get_upcoming_bills.
    rewrite !(selected_bills_of_file _ w rows Hfile),
      !(selected_bills_of_file _ w1 l1 Hfile1).
    cbn [fst].
    split; [reflexivity |]. split; [reflexivity |].
    split; [| split; [reflexivity |]; split; [reflexivity |]].
    + rewrite !selected_bills_same.
      rewrite !(filter_ext
                  (fun b => String.eqb (status b) "Unpaid"
                            && (due_date b <? today)%Z)
                  (is_overdue today) (overdue_test today)).
      rewrite <- (filter_perm (is_overdue today) _ _
                    (sort_values_perm (numpy_argsort w) due_date true rows)).
      apply (filter_replaced _ _ r r1); [assumption |].
      unfold is_overdue. apply bool_decide_eq_false. intros [Hs _].
      discriminate Hs.
    + rewrite !selected_bills_same.
      rewrite !(filter_ext
                  (fun b => String.eqb (status b) "Unpaid"
                            && (today <=? due_date b)%Z
                            && (due_date b <=? today + horizon)%Z)
                  (is_upcoming today horizon) (upcoming_test today horizon)).
      rewrite <- (filter_perm (is_upcoming today horizon) _ _
                    (sort_values_perm (numpy_argsort w) due_date true rows)).
      apply (filter_replaced _ _ r r1); [assumption |].
      unfold is_upcoming. apply bool_decide_eq_false. intros [Hs _].
      discriminate Hs.
  - unfold toggle_bill_status, try_except, bind.
    rewrite get_bills_data_eq, Hfile. fold listing.
    rewrite guard_in_range by lia. rewrite Hr.
    destruct w as [fs sj sc wr out wl np]. cbn in Hw. subst wr. cbn. auto.
Qed.

Local Close Scope Q_scope.

Lemma paying_a_bill_clears_it_witness :
  exists w1 over1,
    toggle_bill_status 0 (world_of scenario_store true) = (Ok tt, w1)
    /\ fst (get_overdue_bills 738890 w1) = Ok over1
    /\ Permutation [BillRow "A" 100 738886 "Unpaid"]
         ([BillRow "A" 100 738886 "Unpaid"] ++ over1).
Proof.
  destruct (paying_a_bill_clears_it 738890 7 0 (world_of scenario_store true)
              [BillRow "A" 100 738886 "Unpaid"; BillRow "B" 50 738895 "Paid"]
              (BillRow "A" 100 738886 "Unpaid") eq_refl)
    as [Hpaid _]; [lia | reflexivity | reflexivity |].
  destruct (Hpaid eq_refl)
    as (w1 & over0 & over1 & up0 & up1 & Ht & Ho0 & Ho1 & Hperm & _).
  exists w1, over1. split; [exact Ht |]. split; [exact Ho1 |].
  vm_compute in Ho0. injection Ho0 as <-. exact Hperm.
Defined.

Local Open Scope Q_scope.
